(** * benchmark_serving.py: request pacing, dispatch, collection and reporting

    A shallow embedding of the request-pacing and measurement engine of
    [benchmark_serving.py].

    Conventions of the embedding:
    - a Python [int] is a [Z]; a Python [float] (and a numpy scalar) is a
      rational [Q], so rounding is not modelled; the float [inf] of
      [--request-rate] has its own constructor; the test of the traffic
      split is also given on the binary64 floats themselves
      ([traffic_config_float]);
    - a Python [str] is the [string] of its UTF-8 bytes;
    - a Python [dict] with string keys is a [gmap string _];
    - a raised exception is the [Raise] branch of [result];
    - the network, the clocks and the random generators are oracles: the
      values they return are inputs of the functions that read them;
    - the tasks of one run are executed one after the other, in the order
      in which [asyncio.gather] returns their results. *)

From Stdlib Require Import ZArith QArith Qabs Qround Lia Ascii String.
From Stdlib Require Import Floats.
From stdpp Require Import base option list strings gmap.

Local Open Scope Z_scope.

(** ** Exceptions and fallible computations *)

(** The exception classes that the [except] clauses of [send_request] and
    [send_stream_request] tell apart, in the order of the clauses; every
    other exception class is [OtherException]. *)
Inductive transport_exn :=
  | ClientConnectorError
  | TimeoutError
  | ClientOSError
  | ContentTypeError
  | ServerDisconnectedError
  | OtherException.

Inductive exn :=
  | ValueError (msg : string)
  | IndexError
  | KeyError (key : string)
  | TypeError
  | ZeroDivisionError
  | AssertionError
  | AttributeError (attr : string).

(** The ways a computation can end: a value, an exception, or the step
    budget of the model used up before the code came to an end (the only
    loop that needs a budget is the resend loop of [send_request]). *)
Inductive result (A : Type) :=
  | Ok (a : A)
  | Raise (e : exn)
  | NoFuel.
Arguments Ok {A} a.
Arguments Raise {A} e.
Arguments NoFuel {A}.

Definition bind {A B} (m : result A) (k : A → result B) : result B :=
  match m with
  | Ok a => k a
  | Raise e => Raise e
  | NoFuel => NoFuel
  end.

Declare Scope result_scope.
Delimit Scope result_scope with result.
Notation "'let*' x ':=' m 'in' k" := (bind m (fun x => k))
  (at level 10, x pattern, m at level 100, k at level 200) : result_scope.
Local Open Scope result_scope.

Definition is_ok {A} (m : result A) : bool :=
  match m with Ok _ => true | _ => false end.

(** [map] for a function that can raise: the first exception wins, as in a
    list comprehension or a sequential [for] loop. *)
Fixpoint mapM {A B} (f : A → result B) (l : list A) : result (list B) :=
  match l with
  | [] => Ok []
  | x :: l' =>
      let* y := f x in
      let* ys := mapM f l' in
      Ok (y :: ys)
  end.

(** Python's [a / b] on floats and ints: a zero divisor raises. *)
Definition py_div (a b : Q) : result Q :=
  if Qeq_bool b 0 then Raise ZeroDivisionError else Ok (a / b)%Q.

(** numpy's scalar division does not raise (a zero divisor gives [inf] or
    [nan] and a warning). The quotient is only meaningful for [b] not zero. *)
Definition np_div (a b : Q) : Q := (a / b)%Q.

(** ** The process-wide request counter *)

(** The singleton object of [AsyncRequestCounter]. [_end_time] is an
    attribute that exists only once [increment] has assigned it. *)
Record AsyncRequestCounter := {
  _count : Z;
  _start_time : Q;
  _target_requests : option Z;
  _end_time : option Q;
}.

(** [AsyncRequestCounter.__new__]: [inst] is the class attribute
    [_instance] and [now] the reading of [time.time()]. The instance is
    created on the first call only. *)
Definition AsyncRequestCounter_new (inst : option AsyncRequestCounter)
    (target_requests : option Z) (now : Q) : AsyncRequestCounter :=
  match inst with
  | Some c => c
  | None =>
      {| _count := 0; _start_time := now;
         _target_requests := target_requests; _end_time := None |}
  end.

Definition increment (c : AsyncRequestCounter) (now : Q)
    : AsyncRequestCounter :=
  let count := _count c + 1 in
  {| _count := count;
     _start_time := _start_time c;
     _target_requests := _target_requests c;
     _end_time :=
       if decide (Some count = _target_requests c) then Some now
       else _end_time c |}.

Definition get_qps (c : AsyncRequestCounter) : result Q :=
  match _end_time c with
  | None => Raise (AttributeError "_end_time")
  | Some e => py_div (inject_Z (_count c)) (e - _start_time c)%Q
  end.

(** [on_request_start], the hook of [trace_config]: the singleton is
    fetched (and created if the class has none yet) and incremented. *)
Definition on_request_start (inst : option AsyncRequestCounter) (now : Q)
    : option AsyncRequestCounter :=
  Some (increment (AsyncRequestCounter_new inst None now) now).

(** ** Strings and decoded JSON values *)

Definition NEW_TEXT_KEY : string :=
  String "010"%char ("Output:" +:+ String "010"%char EmptyString).

Definition MIN_SEQ_LEN : Z := 4.

(** [hay.find(needle)]: the index of the first occurrence, or [-1]. *)
Fixpoint find_from (needle hay : string) (i : Z) : Z :=
  if String.prefix needle hay then i
  else match hay with
       | EmptyString => -1
       | String _ hay' => find_from needle hay' (i + 1)
       end.

Definition find (hay needle : string) : Z := find_from needle hay 0.

(** [s[n:]] for [n >= 0]. *)
Fixpoint drop_chars (n : nat) (s : string) : string :=
  match n, s with
  | O, _ => s
  | S n', String _ s' => drop_chars n' s'
  | S _, EmptyString => EmptyString
  end.

(** What [json.loads] and [response.json()] return. An object keeps its
    members as an association list; the first binding of a key is the one
    that a subscript reads. *)
#[local] Unset Elimination Schemes.
Inductive json :=
  | JNull
  | JBool (b : bool)
  | JNum (q : Q)
  | JStr (s : string)
  | JArr (items : list json)
  | JObj (members : list (string * json)).
#[local] Set Elimination Schemes.

Fixpoint assoc {V} (k : string) (l : list (string * V)) : option V :=
  match l with
  | [] => None
  | (k', v) :: l' => if String.eqb k k' then Some v else assoc k l'
  end.

Definition is_JStr (s : string) (j : json) : bool :=
  match j with JStr s' => String.eqb s s' | _ => false end.

(** [key in output]: membership in the keys of a dict, in the items of a
    list, or as a substring of a string; any other value is not iterable. *)
Definition json_contains (key : string) (output : json) : result bool :=
  match output with
  | JObj members => Ok (bool_decide (is_Some (assoc key members)))
  | JArr items => Ok (existsb (is_JStr key) items)
  | JStr s => Ok (negb (find s key =? -1))
  | _ => Raise TypeError
  end.

(** [j[key]] for a string key. *)
Definition get_item (j : json) (key : string) : result json :=
  match j with
  | JObj members =>
      match assoc key members with
      | Some v => Ok v
      | None => Raise (KeyError key)
      end
  | _ => Raise TypeError
  end.

(** [j[0]]. *)
Definition get_first (j : json) : result json :=
  match j with
  | JArr (x :: _) => Ok x
  | JArr [] => Raise IndexError
  | JStr (String c _) => Ok (JStr (String c EmptyString))
  | JStr EmptyString => Raise IndexError
  | JObj _ => Raise (KeyError "0")
  | _ => Raise TypeError
  end.

(** The text handed to the tokenizer; only a string is accepted here. *)
Definition as_text (j : json) : result string :=
  match j with
  | JStr s => Ok s
  | _ => Raise TypeError
  end.

(** ** Error counters *)

Definition init_errors_map : gmap string Z :=
  <["ClientConnectorError" := 0]>
  (<["TimeoutError" := 0]>
  (<["ContentTypeError" := 0]>
  (<["ClientOSError" := 0]>
  (<["ServerDisconnectedError" := 0]>
  (<["unknown_error" := 0]> ∅))))).

(** The counter that the [except] clause of each class increments. *)
Definition errors_key (e : transport_exn) : string :=
  match e with
  | ClientConnectorError => "ClientConnectorError"
  | TimeoutError => "TimeoutError"
  | ClientOSError => "ClientOSError"
  | ContentTypeError => "ContentTypeError"
  | ServerDisconnectedError => "ServerDisconnectedError"
  | OtherException => "unknown_error"
  end.

(** [d[k] += v]: the key has to be there. *)
Definition dict_add (k : string) (v : Z) (d : gmap string Z)
    : result (gmap string Z) :=
  match d !! k with
  | Some x => Ok (<[k := x + v]> d)
  | None => Raise (KeyError k)
  end.

(** The 4-tuple that [send_request] and [send_stream_request] return:
    [(request_latency_ms, ttft_ms, itl_ms, errors)], each possibly [None];
    [request_latency_ms] is [(prompt_len, output_len, latency)]. *)
Record request_result := {
  res_latency : option (Z * Z * Q);
  res_ttft : option Q;
  res_itl : option (list Q);
  res_errors : option (gmap string Z);
}.

(** [return None, None, None, errors] of an [except] clause, after
    [errors[key] += 1] on the fresh map of the request. *)
Definition failure (e : transport_exn) : result request_result :=
  let* errors := dict_add (errors_key e) 1 init_errors_map in
  Ok {| res_latency := None; res_ttft := None; res_itl := None;
        res_errors := Some errors |}.

(** ** The request dispatcher *)

(** What one [session.post] followed by [response.json()] comes to: an
    exception, or the decoded body. [t_start] is the reading of
    [time.time()] in [on_request_start]. *)
Inductive reply :=
  | Raised (e : transport_exn)
  | Body (output : json).

Record attempt := {
  t_start : Q;
  answer : reply;
}.

(** The oracle of one non-streaming exchange: the clock readings around it
    and the server's answer to the k-th post of the request. *)
Record exchange := {
  request_start_time_ms : Q;
  server : nat → attempt;
  request_end_time_ms : Q;
}.

(** The oracle of one streaming exchange: the two clocks at the start, the
    chunks in order of arrival (each already stripped, with the reading of
    [1000 * time.perf_counter()] taken when it is not empty), the exception
    that ends the transfer if there is one, and the clock at the end. *)
Record stream_exchange := {
  s_request_start_time_ms : Q;
  s_start_time_ms : Q;
  s_chunks : list (string * Q);
  s_raised : option transport_exn;
  s_request_end_time_ms : Q;
}.

(** The backends for which [send_request] builds a payload. The payload
    itself is not modelled; the [assert] of the tgi branch and the final
    [raise ValueError] are. *)
Definition request_pload (backend : string) (use_beam_search : bool)
    : result unit :=
  if String.eqb backend "vllm" then Ok ()
  else if String.eqb backend "tgi" then
    if use_beam_search then Raise AssertionError else Ok ()
  else if String.eqb backend "naive_transformers" then Ok ()
  else if String.eqb backend "tensorrt_llm_triton" then Ok ()
  else if String.eqb backend "sax" then Ok ()
  else if String.eqb backend "jetstream" then Ok ()
  else Raise (ValueError "Unknown backend").

Definition stream_pload (backend : string) : result unit :=
  if String.eqb backend "vllm" then Ok ()
  else if String.eqb backend "jetstream" then Ok ()
  else Raise (ValueError "Unknown backend").

(** How the [while True] loop of [send_request] is left. *)
Inductive loop_exit :=
  | Broke (output : json)
  | Returned (r : request_result).

(** The [while True] loop of [send_request], from the k-th post on. Every
    post runs [on_request_start]. The result carries the number of posts
    made so far and the counter singleton. An exception of the membership
    test is raised inside the [try] and so taken by [except Exception]. *)
Fixpoint resend_loop (fuel : nat) (server : nat → attempt) (k : nat)
    (inst : option AsyncRequestCounter)
    : result (loop_exit * nat * option AsyncRequestCounter) :=
  match fuel with
  | O => NoFuel
  | S fuel' =>
      let a := server k in
      let inst' := on_request_start inst (t_start a) in
      match answer a with
      | Raised e =>
          let* r := failure e in Ok (Returned r, S k, inst')
      | Body output =>
          match json_contains "error" output with
          | Ok false => Ok (Broke output, S k, inst')
          | Ok true => resend_loop fuel' server (S k) inst'
          | _ =>
              let* r := failure OtherException in Ok (Returned r, S k, inst')
          end
      end
  end.

Section Dispatcher.

(** [tokenizer(text).input_ids] *)
Variable tokenizer : string → list Z.
(** [json.loads]; [None] when it raises. *)
Variable json_loads : string → option json.

Definition token_count (text : string) : Z :=
  Z.of_nat (length (tokenizer text)).

(** The backend-specific computation of [output_len] after the loop of
    [send_request]. With no matching branch the argument is kept. *)
Definition decoded_output_len (backend : string) (output : json)
    (prompt_len output_len : Z) : result Z :=
  if String.eqb backend "naive_transformers" then
    let* predictions := get_item output "predictions" in
    let* p0 := get_first predictions in
    let* p00 := get_first p0 in
    let* generated := get_item p00 "generated_text" in
    let* complete_pred := as_text generated in
    let new_text_start_index :=
      find complete_pred NEW_TEXT_KEY
      + Z.of_nat (String.length NEW_TEXT_KEY) in
    let pred := drop_chars (Z.to_nat new_text_start_index) complete_pred in
    Ok (token_count pred - prompt_len)
  else if String.eqb backend "tensorrt_llm_triton" then
    let* t := get_item output "text_output" in
    let* text := as_text t in
    Ok (token_count text)
  else if String.eqb backend "sax" then
    let* choices := get_item output "choices" in
    let* c0 := get_first choices in
    let* t := get_item c0 "text" in
    let* text := as_text t in
    Ok (token_count text)
  else if String.eqb backend "tgi" then
    let* t := get_item output "generated_text" in
    let* text := as_text t in
    Ok (token_count text)
  else if String.eqb backend "vllm" then
    let* choices := get_item output "choices" in
    let* c0 := get_first choices in
    let* t := get_item c0 "text" in
    let* text := as_text t in
    Ok (token_count text)
  else if String.eqb backend "jetstream" then
    let* t := get_item output "response" in
    let* text := as_text t in
    Ok (token_count text)
  else Ok output_len.

(** The part of [send_request] that follows the loop. *)
Definition after_loop (backend : string) (prompt_len output_len : Z)
    (x : exchange) (exit : loop_exit) : result request_result :=
  match exit with
  | Returned r => Ok r
  | Broke output =>
      let* output_len :=
        decoded_output_len backend output prompt_len output_len in
      let latency := (request_end_time_ms x - request_start_time_ms x)%Q in
      let request_latency_ms := (prompt_len, output_len, latency) in
      let* _ := py_div latency (inject_Z output_len) in
      Ok {| res_latency := Some request_latency_ms; res_ttft := None;
            res_itl := None; res_errors := None |}
  end.

(** [send_request]. The arguments that only go into the payload or the
    session are left out. A call of [observe] is modelled by the
    evaluation of its argument. The result carries the number of posts
    and the counter singleton. *)
Definition send_request (fuel : nat) (backend : string)
    (prompt_len output_len : Z) (use_beam_search : bool) (x : exchange)
    (inst : option AsyncRequestCounter)
    : result (request_result * nat * option AsyncRequestCounter) :=
  let* _ := request_pload backend use_beam_search in
  let* (exit, posts, inst') := resend_loop fuel (server x) 0 inst in
  let* r := after_loop backend prompt_len output_len x exit in
  Ok (r, posts, inst').

(** The local variables of the chunk loop of [send_stream_request]. *)
Record stream_state := {
  ttft_ms : Q;
  itl_ms : list Q;
  most_recent_timestamp : Q;
  output : string;
}.

(** The text that one non-empty chunk adds to [output]. *)
Definition chunk_text (backend : string) (chunk_bytes : string)
    : result string :=
  if String.eqb backend "vllm" then
    let data := drop_chars 6 chunk_bytes in
    if String.eqb data "[DONE]" then Ok EmptyString
    else
      match json_loads data with
      | None => Raise (ValueError "JSONDecodeError")
      | Some j =>
          let* choices := get_item j "choices" in
          let* c0 := get_first choices in
          let* t := get_item c0 "text" in
          as_text t
      end
  else if String.eqb backend "jetstream" then
    if String.eqb chunk_bytes EmptyString then Ok EmptyString
    else
      match json_loads chunk_bytes with
      | None => Raise (ValueError "JSONDecodeError")
      | Some j => let* t := get_item j "text" in as_text t
      end
  else Ok EmptyString.

(** One iteration of [async for chunk_bytes in ...]. *)
Definition stream_step (backend : string) (start_time_ms : Q)
    (st : stream_state) (chunk : string * Q) : result stream_state :=
  let '(chunk_bytes, timestamp_ms) := chunk in
  if String.eqb chunk_bytes EmptyString then Ok st
  else
    let first := Qeq_bool (ttft_ms st) 0 in
    let ttft := if first then (timestamp_ms - start_time_ms)%Q
                else ttft_ms st in
    let itl :=
      if first then itl_ms st
      else itl_ms st ++ [(timestamp_ms - most_recent_timestamp st)%Q] in
    let* text := chunk_text backend chunk_bytes in
    Ok {| ttft_ms := ttft; itl_ms := itl;
          most_recent_timestamp := timestamp_ms;
          output := output st +:+ text |}.

Fixpoint stream_loop (backend : string) (start_time_ms : Q)
    (st : stream_state) (chunks : list (string * Q)) : result stream_state :=
  match chunks with
  | [] => Ok st
  | c :: chunks' =>
      let* st' := stream_step backend start_time_ms st c in
      stream_loop backend start_time_ms st' chunks'
  end.

(** [send_stream_request]. Its session has no [trace_configs], so
    [on_request_start] does not run and the counter is not touched.
    Whatever is raised inside the [try] ends in an [except] clause. *)
Definition send_stream_request (backend : string) (prompt_len : Z)
    (x : stream_exchange) : result request_result :=
  let* _ := stream_pload backend in
  let st0 := {| ttft_ms := 0; itl_ms := [];
                most_recent_timestamp := s_start_time_ms x;
                output := EmptyString |} in
  match stream_loop backend (s_start_time_ms x) st0 (s_chunks x) with
  | Ok st =>
      match s_raised x with
      | Some e => failure e
      | None =>
          let output_len := token_count (output st) in
          let latency :=
            (s_request_end_time_ms x - s_request_start_time_ms x)%Q in
          let request_latency_ms := (prompt_len, output_len, latency) in
          let* _ :=
            if 1 <? output_len then
              py_div (s_request_end_time_ms x - ttft_ms st
                      - s_request_start_time_ms x)%Q
                     (inject_Z (output_len - 1))
            else Ok 0%Q in
          let* _ := py_div latency (inject_Z output_len) in
          Ok {| res_latency := Some request_latency_ms;
                res_ttft := Some (ttft_ms st);
                res_itl := Some (itl_ms st);
                res_errors := None |}
      end
  | _ => failure OtherException
  end.

End Dispatcher.

(** ** The request source *)

(** One entry of the pool: [(prompt, prompt_len, output_len)]. *)
Definition request : Type := string * Z * Z.

Section Dataset.

Variable tokenizer : string → list Z.
(** [tokenizer.decode] *)
Variable tokenizer_decode : list Z → string.

(** The loop "Filter out too long sequences" of [get_filtered_dataset],
    over [(prompt, prompt_token_ids, output_len)]. *)
Fixpoint filter_sequences (max_input_len max_output_len : Z)
    (tokenized_dataset : list (string * list Z * Z)) : list request :=
  match tokenized_dataset with
  | [] => []
  | (prompt, prompt_token_ids, output_len) :: rest =>
      let prompt_len := Z.of_nat (length prompt_token_ids) in
      if (prompt_len <? MIN_SEQ_LEN) || (output_len <? MIN_SEQ_LEN)
      then filter_sequences max_input_len max_output_len rest
      else if (max_input_len <? prompt_len) || (max_output_len <? output_len)
      then filter_sequences max_input_len max_output_len rest
      else (prompt, prompt_len, output_len)
           :: filter_sequences max_input_len max_output_len rest
  end.

(** The first two turns of the conversations that have at least two. *)
Fixpoint first_two_turns (dataset : list (list string))
    : list (string * string) :=
  match dataset with
  | [] => []
  | (t0 :: t1 :: _) :: rest => (t0, t1) :: first_two_turns rest
  | _ :: rest => first_two_turns rest
  end.

(** [get_filtered_dataset]; [dataset] is the content of the dataset file,
    each conversation given by the values of its turns. The code hands the
    list of the prompts, and the list of the completions, to the tokenizer
    in one call each; the model reads the token ids of each string, which
    is what such a call returns for a list that is not empty. *)
Definition get_filtered_dataset (dataset : list (list string))
    (max_input_len max_output_len : Z) (use_dummy_text : bool)
    : list request :=
  if use_dummy_text then
    let dummy_prompt_token_ids := replicate (Z.to_nat max_input_len) 0 in
    [(tokenizer_decode dummy_prompt_token_ids, max_input_len, max_output_len)]
  else
    let dataset := first_two_turns dataset in
    let tokenized_dataset :=
      map (λ '(prompt, completion),
             (prompt, tokenizer prompt,
              Z.of_nat (length (tokenizer completion)))) dataset in
    filter_sequences max_input_len max_output_len tokenized_dataset.

End Dataset.

(** ** The arrival scheduler and the model selector *)

(** The float of [--request-rate]. *)
Inductive rate :=
  | Finite (r : Q)
  | Infinity.

(** The random generators of the run: the k-th raw draw of
    [random.choice] (reduced modulo the length of the sequence), the k-th
    [random.random()] of [random.choices], and the value of the k-th call
    of [np.random.exponential], which depends on the scale it is given. *)
Record randomness := {
  rng_choice : nat → nat;
  rng_random : nat → Q;
  np_random_exponential : nat → Q → Q;
}.

(** [random.choice(seq)] *)
Definition random_choice {A} (raw : nat) (seq : list A) : result A :=
  match seq !! (raw `mod` length seq)%nat with
  | Some x => Ok x
  | None => Raise IndexError
  end.

(** [bisect(cum_weights, x, 0, hi)] of [random.choices], with [hi] the last
    index: the first entry whose cumulative weight exceeds [x], else the
    last entry. *)
Fixpoint bisect_pick {A} (population : list A) (weights : list Q)
    (acc x : Q) : option A :=
  match population, weights with
  | [a], _ => Some a
  | a :: population', w :: weights' =>
      if Qle_bool (acc + w) x
      then bisect_pick population' weights' (acc + w)%Q x
      else Some a
  | _, _ => None
  end.

(** [sum(l)] and the last entry of [accumulate(l)]. *)
Definition Qsum (l : list Q) : Q := foldl Qplus 0%Q l.

(** [random.choices(population, weights=weights)[0]] *)
Definition random_choices {A} (u : Q) (population : list A)
    (weights : list Q) : result A :=
  if negb (length weights =? length population)%nat
  then Raise (ValueError "The number of weights does not match the population")
  else match weights with
  | [] => Raise IndexError
  | _ =>
      let total := Qsum weights in
      if Qle_bool total 0
      then Raise (ValueError "Total of weights must be greater than zero")
      else match bisect_pick population weights 0 (u * total)%Q with
           | Some a => Ok a
           | None => Raise IndexError
           end
  end.

(** What the generator does when it is resumed after a [yield]: nothing
    for an infinite rate ([None]), else [asyncio.sleep] of a fresh
    exponential sample; the result is the duration slept. *)
Definition inter_arrival (request_rate : rate) (rnd : randomness) (k : nat)
    : result (option Q) :=
  match request_rate with
  | Infinity => Ok None
  | Finite r =>
      let* scale := py_div 1 r in
      if Qle_bool 0 scale then Ok (Some (np_random_exponential rnd k scale))
      else Raise (ValueError "scale < 0")
  end.

(** The clock of the scheduler after the generator was resumed. *)
Definition after_wait (now : Q) (interval : option Q) : Q :=
  match interval with
  | None => now
  | Some d => (now + d)%Q
  end.

(** One request handed to [asyncio.create_task]: the entry of the pool,
    the model drawn for it, and the instant of its emission on the clock of
    the scheduler, which only the sleeps of the generator advance. *)
Record emission := {
  em_request : request;
  em_model : string;
  em_instant : Q;
}.

(** The loop [async for request in generate_next_request(...)] of
    [benchmark] together with the generator it drives. [remaining] is
    [num_prompts - prompts_sent] when that is positive; [k] is
    [prompts_sent]. The generator draws a request first; the loop then
    breaks when [prompts_sent >= num_prompts], and else draws a model and
    creates the task, after which the generator is resumed. *)
Fixpoint emit (input_requests : list request) (request_rate : rate)
    (model_names : list string) (model_weights : list Q)
    (rnd : randomness) (remaining : nat) (k : nat) (now : Q)
    : result (list emission) :=
  let* request := random_choice (rng_choice rnd k) input_requests in
  match remaining with
  | O => Ok []
  | S remaining' =>
      let* chosen_model :=
        random_choices (rng_random rnd k) model_names model_weights in
      let e := {| em_request := request; em_model := chosen_model;
                  em_instant := now |} in
      let* interval := inter_arrival request_rate rnd k in
      let* rest := emit input_requests request_rate model_names model_weights
                        rnd remaining' (S k) (after_wait now interval) in
      Ok (e :: rest)
  end.

(** ** The outcome collector *)

(** The dict of series and error counters kept for "weighted" and for each
    model. *)
Record bucket := {
  latencies : list (Z * Z * Q);
  ttfts : list Q;
  itls : list Q;
  tpots : list Q;
  errors : gmap string Z;
}.

Definition empty_bucket : bucket :=
  {| latencies := []; ttfts := []; itls := []; tpots := [];
     errors := init_errors_map |}.

Definition with_errors (b : bucket) (e : gmap string Z) : bucket :=
  {| latencies := latencies b; ttfts := ttfts b; itls := itls b;
     tpots := tpots b; errors := e |}.

(** [overall_results] and [per_model_results]. *)
Record collector := {
  overall_results : bucket;
  per_model_results : gmap string bucket;
}.

Definition init_collector (model_names : list string) : collector :=
  {| overall_results := empty_bucket;
     per_model_results :=
       foldl (λ m model, <[model := empty_bucket]> m) ∅ model_names |}.

(** [d[model]] *)
Definition model_bucket (d : gmap string bucket) (model : string)
    : result bucket :=
  match d !! model with
  | Some b => Ok b
  | None => Raise (KeyError model)
  end.

(** [for k, v in errors.items(): ...] of [benchmark], over the items of the
    errors dict of a result. Each item updates its own key, so the order
    in which the items are visited does not change the outcome. *)
Fixpoint add_errors (items : list (string * Z)) (chosen_model : string)
    (c : collector) : result collector :=
  match items with
  | [] => Ok c
  | (k, v) :: items' =>
      let* e := dict_add k v (errors (overall_results c)) in
      let overall := with_errors (overall_results c) e in
      let* b := model_bucket (per_model_results c) chosen_model in
      let* e' := dict_add k v (errors b) in
      add_errors items' chosen_model
        {| overall_results := overall;
           per_model_results :=
             <[chosen_model := with_errors b e']> (per_model_results c) |}
  end.

(** [(request_latency_ms - ttft_ms) / (output_len - 1) if output_len > 1
    else 0] *)
Definition tpot_value (request_latency_ms ttft_ms : Q) (output_len : Z)
    : result Q :=
  if 1 <? output_len
  then py_div (request_latency_ms - ttft_ms)%Q (inject_Z (output_len - 1))
  else Ok 0%Q.

(** The entries that a result adds to [ttfts], [tpots] and [itls]: the
    first two under [if ttft_ms:], the last under [if itl_ms:]. *)
Definition ttft_entries (ttft_ms : option Q) : list Q :=
  match ttft_ms with
  | Some t => if Qeq_bool t 0 then [] else [t]
  | None => []
  end.

Definition tpot_entries (ttft_ms : option Q) (request_latency_ms : Q)
    (output_len : Z) : result (list Q) :=
  match ttft_ms with
  | Some t =>
      if Qeq_bool t 0 then Ok []
      else let* v := tpot_value request_latency_ms t output_len in Ok [v]
  | None => Ok []
  end.

Definition itl_entries (itl_ms : option (list Q)) : list Q :=
  default [] itl_ms.

Definition add_success (b : bucket) (latency : Z * Z * Q)
    (new_ttfts new_tpots new_itls : list Q) : bucket :=
  {| latencies := latencies b ++ [latency];
     ttfts := ttfts b ++ new_ttfts;
     itls := itls b ++ new_itls;
     tpots := tpots b ++ new_tpots;
     errors := errors b |}.

(** [if errors:] *)
Definition truthy_errors (e : option (gmap string Z))
    : option (gmap string Z) :=
  match e with
  | Some m => if decide (m = ∅) then None else Some m
  | None => None
  end.

(** The body of [for chosen_model, res in results:]. The test
    [if res is None] is left out: [run_single_request] returns a tuple. *)
Definition collect_one (c : collector) (r : string * request_result)
    : result collector :=
  let '(chosen_model, res) := r in
  match truthy_errors (res_errors res) with
  | Some errs => add_errors (map_to_list errs) chosen_model c
  | None =>
      match res_latency res with
      | None => Raise TypeError
      | Some (prompt_len, output_len, request_latency_ms) =>
          let latency := (prompt_len, output_len, request_latency_ms) in
          let* b := model_bucket (per_model_results c) chosen_model in
          let new_ttfts := ttft_entries (res_ttft res) in
          let* new_tpots :=
            tpot_entries (res_ttft res) request_latency_ms output_len in
          let new_itls := itl_entries (res_itl res) in
          Ok {| overall_results :=
                  add_success (overall_results c) latency
                              new_ttfts new_tpots new_itls;
                per_model_results :=
                  <[chosen_model :=
                      add_success b latency new_ttfts new_tpots new_itls]>
                    (per_model_results c) |}
      end
  end.

Fixpoint collect (c : collector) (results : list (string * request_result))
    : result collector :=
  match results with
  | [] => Ok c
  | r :: results' => let* c' := collect_one c r in collect c' results'
  end.

(** ** The statistics aggregator *)

(** The reductions of numpy that [get_stats_for_set] calls. *)
Record numpy := {
  np_mean : list Q → Q;
  np_median : list Q → Q;
  np_std : list Q → Q;
  np_min : list Q → Q;
  np_max : list Q → Q;
  np_percentile : list Q → Q → Q;
}.

(** The dict that [get_stats_for_set] returns, without the name that
    prefixes its keys. *)
Record stats := {
  avg_ : Q;
  median_ : Q;
  sd_ : Q;
  min_ : Q;
  max_ : Q;
  p90_ : Q;
  p99_ : Q;
}.

Definition get_stats_for_set (np : numpy) (points : list Q) : stats :=
  let nonempty := match points with [] => false | _ => true end in
  {| avg_ := if nonempty then np_mean np points else 0;
     median_ := if nonempty then np_median np points else 0;
     sd_ := if nonempty then np_std np points else 0;
     min_ := if nonempty then np_min np points else 0;
     max_ := if nonempty then np_max np points else 0;
     p90_ := if nonempty then np_percentile np points 90 else 0;
     p99_ := if nonempty then np_percentile np points 99 else 0 |}.

(** ** The reporter *)

(** The command-line arguments that the engine reads. [dataset] stands
    for the content of the file that [--dataset] names. *)
Record args := {
  backend : string;
  stream_request : bool;
  num_prompts : Z;
  request_rate : rate;
  use_beam_search : bool;
  max_input_length : Z;
  max_output_length : Z;
  use_dummy_text : bool;
  dataset : list (list string);
}.

(** The entries of the dict [benchmark_result]. The three statistics of
    the streaming mode are there only with [--stream-request]. *)
Record benchmark_result := {
  queries_per_second : Q;
  num_prompts_attempted : Z;
  num_prompts_succeeded : Z;
  benchmark_time : Q;
  throughput_rps : Q;
  throughput : Q;
  total_output_token : Z;
  total_input_tokens : Z;
  input_tokens_per_sec : Q;
  total_tokens : Z;
  tokens_per_sec : Q;
  per_token_latency_ms : stats;
  TTFT_ms : option stats;
  ITL_ms : option stats;
  TPOT_ms : option stats;
  latency_ms : stats;
  normalized_time_per_output_token_ms : stats;
  input_len : stats;
  output_len : stats;
}.

(** What [print_and_save_result] leaves behind for one bucket: the value
    of its line "Requests/sec" and the dict [benchmark_result]. *)
Record report := {
  requests_per_sec_line : Q;
  saved : benchmark_result;
}.

Definition Zsum (l : list Z) : Z := foldl Z.add 0 l.

(** [print_and_save_result] for the bucket [b]. [inst] is the class
    attribute [_instance] of the counter and [now] the clock, read only if
    the singleton has to be created here. The line "Cost", which prints
    only, the scraping of the server metrics and the writing of the json
    file are not modelled. *)
Definition print_and_save_result (np : numpy) (a : args)
    (inst : option AsyncRequestCounter) (now : Q)
    (benchmark_duration_sec : Q) (total_requests : Z) (b : bucket)
    : result (report * option AsyncRequestCounter) :=
  let request_latencies := latencies b in
  let* rps_line := py_div (inject_Z total_requests) benchmark_duration_sec in
  let counter := AsyncRequestCounter_new inst None now in
  let* qps := get_qps counter in
  let* rps := py_div (inject_Z (num_prompts a)) benchmark_duration_sec in
  let total_output_tokens :=
    Zsum (map (λ '(_, output_len, _), output_len) request_latencies) in
  let output_tokens_per_second :=
    np_div (inject_Z total_output_tokens) benchmark_duration_sec in
  let total_input_tokens_ :=
    Zsum (map (λ '(prompt_len, _, _), prompt_len) request_latencies) in
  let input_tokens_per_sec_ :=
    np_div (inject_Z total_input_tokens_) benchmark_duration_sec in
  let total_tokens_ := total_input_tokens_ + total_output_tokens in
  let tokens_per_sec_ :=
    np_div (inject_Z total_tokens_) benchmark_duration_sec in
  let stream_stats (points : list Q) :=
    if stream_request a then Some (get_stats_for_set np points) else None in
  let* per_token :=
    mapM (λ '(prompt_len, output_len, latency),
            py_div latency (inject_Z (prompt_len + output_len)))
         request_latencies in
  let* normalized :=
    mapM (λ '(_, output_len, latency), py_div latency (inject_Z output_len))
         request_latencies in
  Ok ({| requests_per_sec_line := rps_line;
         saved :=
           {| queries_per_second := qps;
              num_prompts_attempted := total_requests;
              num_prompts_succeeded := Z.of_nat (length request_latencies);
              benchmark_time := benchmark_duration_sec;
              throughput_rps := rps;
              throughput := output_tokens_per_second;
              total_output_token := total_output_tokens;
              total_input_tokens := total_input_tokens_;
              input_tokens_per_sec := input_tokens_per_sec_;
              total_tokens := total_tokens_;
              tokens_per_sec := tokens_per_sec_;
              per_token_latency_ms := get_stats_for_set np per_token;
              TTFT_ms := stream_stats (ttfts b);
              ITL_ms := stream_stats (itls b);
              TPOT_ms := stream_stats (tpots b);
              latency_ms :=
                get_stats_for_set np
                  (map (λ '(_, _, latency), latency) request_latencies);
              normalized_time_per_output_token_ms :=
                get_stats_for_set np normalized;
              input_len :=
                get_stats_for_set np
                  (map (λ '(prompt_len, _, _), inject_Z prompt_len)
                       request_latencies);
              output_len :=
                get_stats_for_set np
                  (map (λ '(_, output_len, _), inject_Z output_len)
                       request_latencies) |} |},
      Some counter).

(** ** The benchmark run *)

(** [d[k] = v] on an insertion-ordered dict: a key that is there keeps its
    place and takes the new value. *)
Fixpoint dict_set {V} (k : string) (v : V) (d : list (string * V))
    : list (string * V) :=
  match d with
  | [] => [(k, v)]
  | (k', v') :: d' =>
      if String.eqb k k' then (k, v) :: d' else (k', v') :: dict_set k v d'
  end.

(** [dict(zip(keys, values))] *)
Definition dict_zip {V} (keys : list string) (values : list V)
    : list (string * V) :=
  foldl (λ d '(k, v), dict_set k v d) [] (zip keys values).

(** The validation of the traffic split at the head of [benchmark]; the
    result is [(model_names, model_weights)]. *)
Definition traffic_config (models : list string)
    (traffic_split : option (list Q)) : result (list string * list Q) :=
  let* traffic_split :=
    match traffic_split with
    | None =>
        let* w := py_div 1 (inject_Z (Z.of_nat (length models))) in
        Ok (replicate (length models) w)
    | Some ts => Ok ts
    end in
  if negb (length models =? length traffic_split)%nat
  then Raise (ValueError
                "The number of models and traffic split values must match")
  else
    let total_weight := Qsum traffic_split in
    if negb (Qle_bool (Qabs (total_weight - 1)) (1 # 1000000))
    then Raise (ValueError "Traffic split must sum to 1.0")
    else
      let models_dict := dict_zip models traffic_split in
      Ok (models_dict.*1, models_dict.*2).

(** *** The same validation on the floats that Python tests

    [traffic_config] reads the weights as rationals, as the rest of the
    model does. Python computes the sum and compares it in binary64:
    [traffic_config_float] is the same code on the binary64 values, with
    the float operations of the processor. *)






(** The network as the k-th task of the run meets it. Only the exchange
    of the mode of the run is read. *)
Record wire := {
  w_request : exchange;
  w_stream : stream_exchange;
}.

(** Everything outside the program that a run depends on. *)
Record world := {
  rnd : randomness;
  network : nat → wire;
  benchmark_start_time_sec : Q;
  counter_start_time : Q;
  benchmark_end_time_sec : Q;
}.

(** What a run leaves behind. [run_posts] counts the HTTP requests sent by
    the non-streaming tasks. *)
Record run := {
  run_emissions : list emission;
  run_results : list (string * request_result);
  run_posts : nat;
  run_collector : collector;
  run_reports : list (string * report);
}.

Section Benchmark.

Variable np : numpy.
Variable tokenizer : string → list Z.
Variable tokenizer_decode : list Z → string.
Variable json_loads : string → option json.

(** [run_single_request] for the k-th task. *)
Definition run_single_request (fuel : nat) (a : args) (e : emission)
    (w : wire) (inst : option AsyncRequestCounter)
    : result (string * request_result * nat * option AsyncRequestCounter) :=
  let '(prompt, prompt_len, output_len) := em_request e in
  if stream_request a then
    let* res :=
      send_stream_request tokenizer json_loads (backend a) prompt_len
                          (w_stream w) in
    Ok (em_model e, res, O, inst)
  else
    let* (res, posts, inst') :=
      send_request tokenizer fuel (backend a) prompt_len output_len
                   (use_beam_search a) (w_request w) inst in
    Ok (em_model e, res, posts, inst').

(** [await asyncio.gather( *tasks)]: the results in the order of the
    tasks. An exception of a task is the exception of the gathering. *)
Fixpoint gather (fuel : nat) (a : args) (network : nat → wire)
    (tasks : list emission) (k : nat) (inst : option AsyncRequestCounter)
    : result (list (string * request_result) * nat
              * option AsyncRequestCounter) :=
  match tasks with
  | [] => Ok ([], O, inst)
  | e :: tasks' =>
      let* (model, res, posts, inst') :=
        run_single_request fuel a e (network k) inst in
      let* (results, posts', inst'') :=
        gather fuel a network tasks' (S k) inst' in
      Ok ((model, res) :: results, (posts + posts')%nat, inst'')
  end.

(** The two reporting steps at the end of [benchmark]: "weighted" with
    [prompts_sent], then each model with the number of its latencies. *)
Fixpoint report_models (a : args) (inst : option AsyncRequestCounter)
    (now duration : Q) (per_model : gmap string bucket)
    (model_names : list string) : result (list (string * report)) :=
  match model_names with
  | [] => Ok []
  | model :: model_names' =>
      let* data := model_bucket per_model model in
      let* (r, inst') :=
        print_and_save_result np a inst now duration
          (Z.of_nat (length (latencies data))) data in
      let* rest := report_models a inst' now duration per_model model_names' in
      Ok ((model, r) :: rest)
  end.

(** [benchmark]. [inst] is the class attribute [_instance] of
    [AsyncRequestCounter] when the function is entered. *)
Definition benchmark (fuel : nat) (a : args) (models : list string)
    (traffic_split : option (list Q)) (w : world)
    (inst : option AsyncRequestCounter) : result run :=
  let input_requests :=
    get_filtered_dataset tokenizer tokenizer_decode (dataset a)
      (max_input_length a) (max_output_length a) (use_dummy_text a) in
  let* (model_names, model_weights) := traffic_config models traffic_split in
  let counter :=
    AsyncRequestCounter_new inst (Some (num_prompts a))
                            (counter_start_time w) in
  let* emissions :=
    emit input_requests (request_rate a) model_names model_weights (rnd w)
         (Z.to_nat (num_prompts a)) 0 (benchmark_start_time_sec w) in
  let prompts_sent := Z.of_nat (length emissions) in
  let* (results, posts, inst') :=
    gather fuel a (network w) emissions 0 (Some counter) in
  let* c := collect (init_collector model_names) results in
  let benchmark_duration_sec :=
    (benchmark_end_time_sec w - benchmark_start_time_sec w)%Q in
  let* (weighted, inst'') :=
    print_and_save_result np a inst' (benchmark_end_time_sec w)
      benchmark_duration_sec prompts_sent (overall_results c) in
  let* per_model :=
    report_models a inst'' (benchmark_end_time_sec w)
      benchmark_duration_sec (per_model_results c) model_names in
  Ok {| run_emissions := emissions;
        run_results := results;
        run_posts := posts;
        run_collector := c;
        run_reports := ("weighted", weighted) :: per_model |}.

End Benchmark.

(** ** Instances of the external functions, for the examples *)

Module Examples.

(** One token per character. *)
Definition char_tokenizer (text : string) : list Z :=
  map (λ c, Z.of_nat (nat_of_ascii c)) (list_ascii_of_string text).

(** One token per character after a begin-of-sequence token. *)
Definition bos_tokenizer (text : string) : list Z :=
  1 :: char_tokenizer text.

Definition char_decode (ids : list Z) : string :=
  string_of_list_ascii (map (λ i, ascii_of_nat (Z.to_nat i)) ids).

(** A parser that reads every chunk as the object with the chunk as its
    ["text"]. *)
Definition text_loads (s : string) : option json :=
  Some (JObj [("text", JStr s)]).

Definition Qmean (l : list Q) : Q :=
  (Qsum l / inject_Z (Z.of_nat (length l)))%Q.

Fixpoint Qinsert (x : Q) (l : list Q) : list Q :=
  match l with
  | [] => [x]
  | y :: l' => if Qle_bool x y then x :: l else y :: Qinsert x l'
  end.

Definition Qsort (l : list Q) : list Q := foldr Qinsert [] l.

(** The percentile by linear interpolation between the closest ranks. *)
Definition Qpercentile (l : list Q) (q : Q) : Q :=
  let sorted := Qsort l in
  let pos := (inject_Z (Z.of_nat (length l - 1)) * q / 100)%Q in
  let lo := Qfloor pos in
  let below := nth (Z.to_nat lo) sorted 0%Q in
  let above := nth (S (Z.to_nat lo)) sorted below in
  (below + (pos - inject_Z lo) * (above - below))%Q.

(** The population standard deviation, its square root rounded down to
    a multiple of 1e-9. *)
Definition Qstd (l : list Q) : Q :=
  let m := Qmean l in
  let variance := Qmean (map (λ x, (x - m) * (x - m))%Q l) in
  (Z.sqrt (Qfloor (variance * 1000000000000000000)) # 1000000000)%Q.

Definition np_rational : numpy :=
  {| np_mean := Qmean;
     np_median := λ l, Qpercentile l 50;
     np_std := Qstd;
     np_min := λ l, hd 0%Q (Qsort l);
     np_max := λ l, List.last (Qsort l) 0%Q;
     np_percentile := Qpercentile |}.

End Examples.

(** ** Notions used in the statements *)

(** A reply that makes [send_request] post again: a decoded body in which
    ["error" in output] holds. *)
Definition is_soft_failure (r : reply) : bool :=
  match r with
  | Body output =>
      match json_contains "error" output with
      | Ok true => true
      | _ => false
      end
  | Raised _ => false
  end.

(** How the loop of [send_request] is left on a reply that is not a soft
    failure. *)
Definition settle (r : reply) : result loop_exit :=
  match r with
  | Raised e => let* res := failure e in Ok (Returned res)
  | Body output =>
      match json_contains "error" output with
      | Ok false => Ok (Broke output)
      | _ => let* res := failure OtherException in Ok (Returned res)
      end
  end.

(** The counter singleton after the posts [k], ..., [k + n - 1]. *)
Fixpoint hooks (server : nat → attempt) (k n : nat)
    (inst : option AsyncRequestCounter) : option AsyncRequestCounter :=
  match n with
  | O => inst
  | S n' => hooks server (S k) n' (on_request_start inst (t_start (server k)))
  end.

(** The rates for which the generator can wait. *)
Definition valid_rate (request_rate : rate) : Prop :=
  match request_rate with
  | Infinity => True
  | Finite r => (0 < r)%Q
  end.

(** The tuple that a request returns on success. *)
Definition success_result (prompt_len output_len : Z) (latency : Q)
    (ttft_ms : option Q) (itl_ms : option (list Q)) : request_result :=
  {| res_latency := Some (prompt_len, output_len, latency);
     res_ttft := ttft_ms; res_itl := itl_ms; res_errors := None |}.

(** The state in which the chunk loop of [send_stream_request] starts. *)
Definition stream_start (x : stream_exchange) : stream_state :=
  {| ttft_ms := 0; itl_ms := []; most_recent_timestamp := s_start_time_ms x;
     output := EmptyString |}.

(** The text of the answer that [send_request] hands to the tokenizer,
    for each backend. *)
Definition generated_text (backend : string) (output : json) : result string :=
  if String.eqb backend "naive_transformers" then
    let* predictions := get_item output "predictions" in
    let* p0 := get_first predictions in
    let* p00 := get_first p0 in
    let* generated := get_item p00 "generated_text" in
    let* complete_pred := as_text generated in
    Ok (drop_chars
          (Z.to_nat (find complete_pred NEW_TEXT_KEY
                     + Z.of_nat (String.length NEW_TEXT_KEY)))
          complete_pred)
  else if String.eqb backend "tensorrt_llm_triton" then
    let* t := get_item output "text_output" in as_text t
  else if String.eqb backend "sax" then
    let* choices := get_item output "choices" in
    let* c0 := get_first choices in
    let* t := get_item c0 "text" in
    as_text t
  else if String.eqb backend "tgi" then
    let* t := get_item output "generated_text" in as_text t
  else if String.eqb backend "vllm" then
    let* choices := get_item output "choices" in
    let* c0 := get_first choices in
    let* t := get_item c0 "text" in
    as_text t
  else if String.eqb backend "jetstream" then
    let* t := get_item output "response" in as_text t
  else Raise (ValueError "Unknown backend").

(** The report of a run for the bucket [name], if the run ends with its
    reports. *)
Definition report_of (r : result run) (name : string) : option report :=
  match r with
  | Ok r => assoc name (run_reports r)
  | _ => None
  end.

(** The number of requests of a run emitted for [model]. *)
Definition emitted_into (r : result run) (model : string) : option nat :=
  match r with
  | Ok r =>
      Some (length (filter (λ e, em_model e = model) (run_emissions r)))
  | _ => None
  end.

(** The sum of the output lengths of the successful requests of a
    bucket. *)
Definition output_tokens (b : bucket) : Z :=
  Zsum (map (λ '(_, output_len, _), output_len) (latencies b)).

(** The tuple [None, None, None, errors] that an [except] clause returns
    for an exception of class [e]. *)
Definition failure_result (e : transport_exn) : request_result :=
  {| res_latency := None; res_ttft := None; res_itl := None;
     res_errors := Some (<[errors_key e := 1]> init_errors_map) |}.

(** An errors dict that has the six counters of [init_errors_map]. *)
Definition counters_ok (m : gmap string Z) : Prop :=
  ∀ k, is_Some (init_errors_map !! k) → is_Some (m !! k).

(** The total that the items of an errors dict hold for the key [k]. *)
Fixpoint tally (items : list (string * Z)) (k : string) : Z :=
  match items with
  | [] => 0
  | (k', v) :: items' =>
      if decide (k' = k) then v + tally items' k else tally items' k
  end.

(** Two buckets with the same four series. *)
Definition same_series (b b' : bucket) : Prop :=
  latencies b' = latencies b ∧ ttfts b' = ttfts b ∧ itls b' = itls b
  ∧ tpots b' = tpots b.

(** The buckets of a collector during a run over the models [names]: the
    "weighted" bucket and the bucket of each model have the six error
    counters. *)
Definition collector_ok (names : list string) (c : collector) : Prop :=
  counters_ok (errors (overall_results c))
  ∧ ∀ m, m ∈ names →
      ∃ b, per_model_results c !! m = Some b ∧ counters_ok (errors b).

(** The two forms of the tuple that a request returns. *)
Definition well_formed_result (res : request_result) : Prop :=
  (∃ e, res = failure_result e)
  ∨ (∃ prompt_len output_len latency ttft itl,
       res = success_result prompt_len output_len latency ttft itl).

(** The two tests of the loop "Filter out too long sequences" on the
    first two turns of a conversation: [true] when the entry is pruned. *)
Definition pruned (tokenizer : string → list Z)
    (max_input_len max_output_len : Z) (turns : string * string) : bool :=
  let prompt_len := Z.of_nat (length (tokenizer turns.1)) in
  let output_len := Z.of_nat (length (tokenizer turns.2)) in
  (prompt_len <? MIN_SEQ_LEN) || (output_len <? MIN_SEQ_LEN)
  || (max_input_len <? prompt_len) || (max_output_len <? output_len).

(** ** Inputs of the examples *)

Module Inputs.

Definition err_body : json := JObj [("error", JStr "overloaded")].

Definition ok_body (text : string) : json := JObj [("response", JStr text)].

(** A server that reports a soft failure on the first two posts and
    answers the third. *)
Definition busy_server (k : nat) : attempt :=
  {| t_start := inject_Z (Z.of_nat k);
     answer := match k with
               | 0%nat | 1%nat => Body err_body
               | _ => Body (ok_body "ab")
               end |}.

Definition busy_exchange : exchange :=
  {| request_start_time_ms := 0; server := busy_server;
     request_end_time_ms := 7 |}.

(** A streamed answer without any chunk. *)
Definition silent_stream : stream_exchange :=
  {| s_request_start_time_ms := 0; s_start_time_ms := 0; s_chunks := [];
     s_raised := None; s_request_end_time_ms := 6 |}.

(** A streamed answer of two chunks. *)
Definition chatty_stream : stream_exchange :=
  {| s_request_start_time_ms := 0; s_start_time_ms := 0;
     s_chunks := [("hi", 3%Q); ("yo", 5%Q)];
     s_raised := None; s_request_end_time_ms := 6 |}.

(** An answer of the naive_transformers backend without any new text
    after the key. *)
Definition echo_body : json :=
  JObj [("predictions",
         JArr [JArr [JObj [("generated_text",
                            JStr ("q" +:+ NEW_TEXT_KEY))]]])].

Definition echo_exchange : exchange :=
  {| request_start_time_ms := 0;
     server := λ k, {| t_start := 1; answer := Body echo_body |};
     request_end_time_ms := 7 |}.

(** An answer of the jetstream backend with an empty text. *)
Definition mute_exchange : exchange :=
  {| request_start_time_ms := 0;
     server := λ k, {| t_start := 1; answer := Body (ok_body EmptyString) |};
     request_end_time_ms := 7 |}.

(** An exchange that fails to connect. *)
Definition refused_exchange : exchange :=
  {| request_start_time_ms := 0;
     server := λ k, {| t_start := 1 # 2;
                       answer := Raised ClientConnectorError |};
     request_end_time_ms := 7 |}.

(** An exchange that is answered at the first post. *)
Definition prompt_exchange : exchange :=
  {| request_start_time_ms := 0;
     server := λ k, {| t_start := 1 # 2; answer := Body (ok_body "ab") |};
     request_end_time_ms := 7 |}.

Definition steady : randomness :=
  {| rng_choice := λ _, O; rng_random := λ _, 0%Q;
     np_random_exponential :=
       λ k scale, (scale * inject_Z (Z.of_nat (S k)))%Q |}.

(** The first request is answered, every later one fails to connect;
    the run takes one second. *)
Definition one_answer : world :=
  {| rnd := steady;
     network := λ k,
       {| w_request := match k with
                       | O => prompt_exchange
                       | _ => refused_exchange
                       end;
          w_stream := chatty_stream |};
     benchmark_start_time_sec := 0;
     counter_start_time := 0;
     benchmark_end_time_sec := 1 |}.

Definition base_args : args :=
  {| backend := "jetstream"; stream_request := false; num_prompts := 2;
     request_rate := Infinity; use_beam_search := false;
     max_input_length := 8; max_output_length := 8;
     use_dummy_text := true; dataset := [] |}.

(** Two requests, both for the model A of the split [1, 0]: the first
    succeeds and the second fails to connect. *)
Definition split_run : result run :=
  benchmark Examples.np_rational Examples.char_tokenizer
    Examples.char_decode Examples.text_loads 5 base_args ["A"; "B"]
    (Some [1%Q; 0%Q]) one_answer None.

(** The same run in the streaming mode, with one request. *)
Definition stream_args : args :=
  {| backend := "jetstream"; stream_request := true; num_prompts := 1;
     request_rate := Infinity; use_beam_search := false;
     max_input_length := 8; max_output_length := 8;
     use_dummy_text := true; dataset := [] |}.

Definition stream_run : result run :=
  benchmark Examples.np_rational Examples.char_tokenizer
    Examples.char_decode Examples.text_loads 5 stream_args ["A"]
    None one_answer None.

(** A dataset whose only conversation is too short to be kept. *)
Definition starved_args : args :=
  {| backend := "jetstream"; stream_request := false; num_prompts := 2;
     request_rate := Infinity; use_beam_search := false;
     max_input_length := 8; max_output_length := 8;
     use_dummy_text := false; dataset := [["hi"; "yo"]] |}.

Definition starved_run : result run :=
  benchmark Examples.np_rational Examples.char_tokenizer
    Examples.char_decode Examples.text_loads 5 starved_args ["A"]
    None one_answer None.

Definition small_pool : list request := [("p", 4, 4)].

(** Every request fails to connect. *)
Definition all_refused : world :=
  {| rnd := steady;
     network := λ k, {| w_request := refused_exchange;
                        w_stream := chatty_stream |};
     benchmark_start_time_sec := 0;
     counter_start_time := 0;
     benchmark_end_time_sec := 1 |}.

(** A run without the streaming mode in which both requests fail. *)
Definition refused_run : result run :=
  benchmark Examples.np_rational Examples.char_tokenizer
    Examples.char_decode Examples.text_loads 5 base_args ["A"]
    None all_refused None.

End Inputs.

(** ** Further notions *)

(** The counter that [benchmark] creates in a fresh process. *)
Definition fresh_counter (target : Z) (start : Q) : AsyncRequestCounter :=
  AsyncRequestCounter_new None (Some target) start.

(** The counter after one [increment] at each of the instants [times]. *)
Definition increments (c : AsyncRequestCounter) (times : list Q)
    : AsyncRequestCounter :=
  foldl increment c times.

(** The reading of the clock at the increment that reaches [target], when
    the increments at [times] reach it. *)
Definition target_time (target : Z) (times : list Q) : option Q :=
  if decide (1 ≤ target ≤ Z.of_nat (length times))
  then times !! (Z.to_nat (target - 1))
  else None.

(** The instants at which the posts [k], ..., [k + n - 1] of a request
    start. *)
Definition post_times (server : nat → attempt) (k n : nat) : list Q :=
  map (λ j, t_start (server j)) (seq k n).

(** ** Further inputs *)

Module Cases.

Definition two_emissions : list emission :=
  [{| em_request := ("p", 4, 4); em_model := "A"; em_instant := 0 |};
   {| em_request := ("p", 4, 4); em_model := "A"; em_instant := 1 # 2 |}].

End Cases.

(** The six transport classes, in the order of the [except] clauses. *)
Definition transport_classes : list transport_exn :=
  [ClientConnectorError; TimeoutError; ClientOSError; ContentTypeError;
   ServerDisconnectedError; OtherException].

#[global] Instance transport_exn_eq_dec : EqDecision transport_exn.
Proof. solve_decision. Defined.

(** A decoded body that is neither a dict, a list nor a string. *)
Definition not_iterable (body : json) : Prop :=
  match body with
  | JNull | JBool _ | JNum _ => True
  | _ => False
  end.

(** [needle] occurs in [hay] at the offset [j]. *)
Definition occurs_at (needle hay : string) (j : nat) : Prop :=
  String.prefix needle (drop_chars j hay) = true.

(** A string of the model holds the UTF-8 bytes of the Python string. The
    first [n] characters of [s] are ASCII: there, a byte is a character of
    the Python string. *)
Fixpoint ascii_head (n : nat) (s : string) : bool :=
  match n, s with
  | O, _ => true
  | S _, EmptyString => true
  | S n', String (Ascii _ _ _ _ _ _ _ b7) s' => negb b7 && ascii_head n' s'
  end.

(** The decoded answer of the naive_transformers backend whose generated
    text is [text]. *)
Definition naive_body (text : string) : json :=
  JObj [("predictions",
         JArr [JArr [JObj [("generated_text", JStr text)]]])].

Module Cases2.

(** A server whose answer decodes to [null]. *)
Definition null_exchange : exchange :=
  {| request_start_time_ms := 0;
     server := λ k, {| t_start := 1; answer := Body JNull |};
     request_end_time_ms := 7 |}.

End Cases2.

(** The chunks of a stream that are not empty after stripping. *)
Definition nonempty_chunks (chunks : list (string * Q)) : list (string * Q) :=
  filter (λ c, c.1 ≠ EmptyString) chunks.

(** The differences between successive instants, starting after [prev]. *)
Fixpoint gaps (prev : Q) (ts : list Q) : list Q :=
  match ts with
  | [] => []
  | t :: ts' => (t - prev)%Q :: gaps t ts'
  end.

(** The streaming exchange [x] with the chunks [chunks] instead of its
    own. *)
Definition with_chunks (x : stream_exchange) (chunks : list (string * Q))
    : stream_exchange :=
  {| s_request_start_time_ms := s_request_start_time_ms x;
     s_start_time_ms := s_start_time_ms x;
     s_chunks := chunks;
     s_raised := s_raised x;
     s_request_end_time_ms := s_request_end_time_ms x |}.

(** The latency tuple that a gathered result adds to the buckets, if it is
    not a failure. *)
Definition latency_of (res : request_result) : option (Z * Z * Q) :=
  match truthy_errors (res_errors res) with
  | Some _ => None
  | None => res_latency res
  end.

(** What the errors dict of a gathered result holds for the key [k]. *)
Definition error_of (k : string) (res : request_result) : Z :=
  match truthy_errors (res_errors res) with
  | Some m => default 0 (m !! k)
  | None => 0
  end.

(** The latency tuples of the successes among [results], in order. *)
Definition success_latencies (results : list (string * request_result))
    : list (Z * Z * Q) :=
  omap (λ r, latency_of r.2) results.

(** The total of the counter [k] over the errors dicts of [results]. *)
Fixpoint error_total (k : string) (results : list (string * request_result))
    : Z :=
  match results with
  | [] => 0
  | r :: results' => error_of k r.2 + error_total k results'
  end.

(** The results of the requests that were sent to [model]. *)
Definition for_model (model : string)
    (results : list (string * request_result))
    : list (string * request_result) :=
  filter (λ r, r.1 = model) results.

(** A result without the timings of the streaming mode. *)
Definition timing_free (res : request_result) : Prop :=
  res_ttft res = None ∧ res_itl res = None.

(** A bucket whose three series of the streaming mode are empty. *)
Definition no_stream_series (b : bucket) : Prop :=
  ttfts b = [] ∧ itls b = [] ∧ tpots b = [].

Module Cases3.

(** One success and one refused connection, both for the model A. *)
Definition mixed_results : list (string * request_result) :=
  [("A", success_result 8 2 7 None None);
   ("A", failure_result ClientConnectorError)].

End Cases3.


Module Cases5.

(** The first request is answered and the second gets an empty text. *)
Definition second_mute : world :=
  {| rnd := Inputs.steady;
     network := λ k,
       {| w_request := match k with
                       | O => Inputs.prompt_exchange
                       | _ => Inputs.mute_exchange
                       end;
          w_stream := Inputs.chatty_stream |};
     benchmark_start_time_sec := 0;
     counter_start_time := 0;
     benchmark_end_time_sec := 1 |}.

Definition first_task : emission :=
  {| em_request := (Examples.char_decode (replicate 8 0), 8, 8);
     em_model := "A"; em_instant := 0 |}.

(** The streaming mode asked of a backend that cannot stream. *)
Definition tgi_stream_args : args :=
  {| backend := "tgi"; stream_request := true; num_prompts := 1;
     request_rate := Infinity; use_beam_search := false;
     max_input_length := 8; max_output_length := 8;
     use_dummy_text := true; dataset := [] |}.

End Cases5.

(** The backends for which [send_request] builds a payload. *)
Definition request_backends : list string :=
  ["vllm"; "tgi"; "naive_transformers"; "tensorrt_llm_triton"; "sax";
   "jetstream"].

Module Cases6.

Definition zero_args : args :=
  {| backend := "jetstream"; stream_request := false; num_prompts := 0;
     request_rate := Infinity; use_beam_search := false;
     max_input_length := 8; max_output_length := 8;
     use_dummy_text := true; dataset := [] |}.

End Cases6.

(** * Properties *)

Lemma bind_Ok {A B} (m : result A) (k : A → result B) (b : B) :
  bind m k = Ok b → ∃ a, m = Ok a ∧ k a = Ok b.
Proof. destruct m; simpl; intros H; try discriminate. eauto. Qed.

Lemma py_div_Ok (a b : Q) : ¬ (b == 0)%Q → py_div a b = Ok (a / b)%Q.
Proof.
  intros Hb. unfold py_div.
  destruct (Qeq_bool b 0) eqn:E; [|reflexivity].
  apply Qeq_bool_iff in E. contradiction.
Qed.

Lemma py_div_zero (a b : Q) :
  (b == 0)%Q → py_div a b = Raise ZeroDivisionError.
Proof.
  intros Hb. unfold py_div. apply Qeq_bool_iff in Hb. now rewrite Hb.
Qed.

(** ** The resend loop *)

Lemma failure_Ok (e : transport_exn) :
  ∃ res, failure e = Ok res ∧ res_latency res = None ∧ res_ttft res = None
         ∧ res_itl res = None
         ∧ res_errors res = Some (<[errors_key e := 1]> init_errors_map).
Proof. destruct e; eexists; (split; [reflexivity|]); simpl; auto. Qed.

Lemma resend_loop_settle (fuel : nat) (server : nat → attempt) (k : nat)
    (inst : option AsyncRequestCounter) :
  is_soft_failure (answer (server k)) = false →
  resend_loop (S fuel) server k inst =
    let* exit := settle (answer (server k)) in
    Ok (exit, S k, on_request_start inst (t_start (server k))).
Proof.
  simpl. unfold is_soft_failure, settle.
  destruct (answer (server k)) as [e|body].
  - intros _. destruct (failure_Ok e) as (res & -> & _). reflexivity.
  - destruct (json_contains "error" body) as [[|]| |]; intros H;
      try discriminate; try reflexivity.
Qed.

Lemma resend_loop_again (fuel : nat) (server : nat → attempt) (k : nat)
    (inst : option AsyncRequestCounter) :
  is_soft_failure (answer (server k)) = true →
  resend_loop (S fuel) server k inst =
    resend_loop fuel server (S k) (on_request_start inst (t_start (server k))).
Proof.
  simpl. unfold is_soft_failure.
  destruct (answer (server k)) as [e|body]; [discriminate|].
  destruct (json_contains "error" body) as [[|]| |]; intros H;
    try discriminate; reflexivity.
Qed.

Lemma resend_loop_skip (n fuel : nat) (server : nat → attempt) :
  ∀ (k : nat) (inst : option AsyncRequestCounter),
  (∀ j, (j < n)%nat → is_soft_failure (answer (server (k + j)%nat)) = true) →
  resend_loop (n + fuel) server k inst =
    resend_loop fuel server (k + n) (hooks server k n inst).
Proof.
  induction n as [|n IH]; intros k inst Hsoft.
  - simpl. now rewrite Nat.add_0_r.
  - change (S n + fuel)%nat with (S (n + fuel)).
    rewrite resend_loop_again.
    + rewrite IH.
      * simpl. now rewrite Nat.add_succ_r.
      * intros j Hj. specialize (Hsoft (S j)).
        rewrite Nat.add_succ_r in Hsoft. apply Hsoft. lia.
    + specialize (Hsoft O). rewrite Nat.add_0_r in Hsoft. apply Hsoft. lia.
Qed.

Lemma hooks_snoc (server : nat → attempt) (n : nat) :
  ∀ (k : nat) (inst : option AsyncRequestCounter),
  hooks server k (S n) inst =
    on_request_start (hooks server k n inst) (t_start (server (k + n)%nat)).
Proof.
  induction n as [|n IH]; intros k inst.
  - simpl. now rewrite Nat.add_0_r.
  - change (hooks server k (S (S n)) inst)
      with (hooks server (S k) (S n)
                  (on_request_start inst (t_start (server k)))).
    rewrite IH. simpl. now rewrite Nat.add_succ_r.
Qed.

Lemma resend_loop_result (n fuel : nat) (server : nat → attempt)
    (inst : option AsyncRequestCounter) :
  (∀ k, (k < n)%nat → is_soft_failure (answer (server k)) = true) →
  is_soft_failure (answer (server n)) = false →
  (n < fuel)%nat →
  resend_loop fuel server 0 inst =
    let* exit := settle (answer (server n)) in
    Ok (exit, S n, hooks server 0 (S n) inst).
Proof.
  intros Hsoft Hn Hfuel.
  replace fuel with (n + S (fuel - S n))%nat by lia.
  rewrite resend_loop_skip by (intros j Hj; now apply Hsoft).
  simpl (0 + n)%nat. rewrite resend_loop_settle by assumption.
  now rewrite hooks_snoc.
Qed.

Lemma resend_loop_no_exit (fuel : nat) (server : nat → attempt) :
  ∀ (k : nat) (inst : option AsyncRequestCounter),
  (∀ j, (j < fuel)%nat → is_soft_failure (answer (server (k + j)%nat)) = true) →
  resend_loop fuel server k inst = NoFuel.
Proof.
  intros k inst Hsoft.
  replace fuel with (fuel + 0)%nat by lia.
  now rewrite resend_loop_skip.
Qed.

Lemma send_request_settled (tokenizer : string → list Z)
    (fuel : nat) (backend : string) (prompt_len output_len : Z)
    (use_beam_search : bool) (x : exchange)
    (inst : option AsyncRequestCounter) (n : nat) :
  request_pload backend use_beam_search = Ok () →
  (∀ k, (k < n)%nat → is_soft_failure (answer (server x k)) = true) →
  is_soft_failure (answer (server x n)) = false → (n < fuel)%nat →
  send_request tokenizer fuel backend prompt_len output_len use_beam_search
               x inst =
    let* exit := settle (answer (server x n)) in
    let* r := after_loop tokenizer backend prompt_len output_len x exit in
    Ok (r, S n, hooks (server x) 0 (S n) inst).
Proof.
  intros Hpload Hsoft Hn Hfuel. unfold send_request.
  rewrite Hpload. cbn [bind].
  rewrite (resend_loop_result n) by assumption.
  destruct (settle (answer (server x n))); reflexivity.
Qed.

(** C1, as amended: [send_request] posts again for as long as the reply is
    a soft failure. When the replies to the first [n] posts are soft
    failures and the reply to the next post is not, the request is settled
    by that reply after exactly [n + 1] posts; and after [n + 1] soft
    failures in a row the request is not settled within [n + 1] posts,
    whatever [n] is. *)
Theorem send_request_resends_while_error (tokenizer : string → list Z)
    (fuel : nat) (backend : string) (prompt_len output_len : Z)
    (use_beam_search : bool) (x : exchange)
    (inst : option AsyncRequestCounter) (n : nat) :
  request_pload backend use_beam_search = Ok () →
  (∀ k, (k < n)%nat → is_soft_failure (answer (server x k)) = true) →
  (is_soft_failure (answer (server x n)) = false → (n < fuel)%nat →
   send_request tokenizer fuel backend prompt_len output_len use_beam_search
                x inst =
     let* exit := settle (answer (server x n)) in
     let* r := after_loop tokenizer backend prompt_len output_len x exit in
     Ok (r, S n, hooks (server x) 0 (S n) inst))
  ∧ (is_soft_failure (answer (server x n)) = true → (fuel ≤ S n)%nat →
     send_request tokenizer fuel backend prompt_len output_len use_beam_search
                  x inst = NoFuel).
Proof.
  intros Hpload Hsoft. split.
  - intros Hn Hfuel. now apply send_request_settled.
  - intros Hn Hfuel. unfold send_request. rewrite Hpload. cbn [bind].
    rewrite resend_loop_no_exit; [reflexivity|].
    intros j Hj. cbn [Nat.add].
    destruct (decide (j = n)) as [->|Hne]; [assumption|].
    apply Hsoft. lia.
Qed.

(** The third post settles the request of [busy_exchange]. *)
Lemma send_request_resends_while_error_witness :
  send_request Examples.char_tokenizer 5 "jetstream" 4 8 false
               Inputs.busy_exchange None
  = Ok ({| res_latency := Some (4, 2, 7%Q); res_ttft := None;
           res_itl := None; res_errors := None |}, 3%nat,
        hooks Inputs.busy_server 0 3 None).
Proof.
  destruct (send_request_resends_while_error Examples.char_tokenizer 5
              "jetstream" 4 8 false Inputs.busy_exchange None 2) as [H _].
  - reflexivity.
  - intros [|[|k]] Hk; [reflexivity | reflexivity | lia].
  - rewrite H; [reflexivity | reflexivity | lia].
Defined.

(** C1, as stated, fails: after two soft failures the request is posted a
    third time, and the outcome is the reply to the third post, not what
    the second post returned. *)
Lemma send_request_posts_three_times :
  is_soft_failure (answer (Inputs.busy_server 0)) = true
  ∧ is_soft_failure (answer (Inputs.busy_server 1)) = true
  ∧ send_request Examples.char_tokenizer 2 "jetstream" 4 8 false
                 Inputs.busy_exchange None = NoFuel
  ∧ ∃ inst,
      send_request Examples.char_tokenizer 3 "jetstream" 4 8 false
                   Inputs.busy_exchange None
      = Ok ({| res_latency := Some (4, 2, 7%Q); res_ttft := None;
               res_itl := None; res_errors := None |}, 3%nat, inst).
Proof.
  split; [reflexivity|]. split; [reflexivity|]. split; [reflexivity|].
  eexists. reflexivity.
Qed.

(** ** The statistics of an empty series *)

(** C7: on an empty series [get_stats_for_set] returns the summary with
    mean, median, standard deviation, min, max, p90 and p99 all 0, and
    calls none of the reductions of numpy. *)
Theorem get_stats_for_set_empty (np : numpy) :
  get_stats_for_set np [] =
    {| avg_ := 0; median_ := 0; sd_ := 0; min_ := 0; max_ := 0;
       p90_ := 0; p99_ := 0 |}.
Proof. reflexivity. Qed.

(** ** The validation of the traffic split *)

Lemma dict_set_keys {V} (k : string) (v : V) (d : list (string * V)) :
  (dict_set k v d).*1 = if decide (k ∈ d.*1) then d.*1 else d.*1 ++ [k].
Proof.
  induction d as [|[k' v'] d IH]; [reflexivity|].
  cbn [dict_set]. destruct (String.eqb k k') eqn:Heq.
  - apply String.eqb_eq in Heq as <-. rewrite !fmap_cons. cbn [fst].
    rewrite decide_True by apply list_elem_of_here. reflexivity.
  - apply String.eqb_neq in Heq. rewrite !fmap_cons, IH. cbn [fst].
    destruct (decide (k ∈ d.*1)) as [Hin|Hnotin].
    + rewrite decide_True by (now apply list_elem_of_further). reflexivity.
    + rewrite decide_False; [reflexivity|].
      intros [?|?]%elem_of_cons; contradiction.
Qed.

Lemma dict_set_fresh {V} (k : string) (v : V) (d : list (string * V)) :
  k ∉ d.*1 → dict_set k v d = d ++ [(k, v)].
Proof.
  induction d as [|[k' v'] d IH]; intros Hk; [reflexivity|].
  rewrite fmap_cons in Hk. cbn [fst] in Hk.
  apply not_elem_of_cons in Hk as [Hne Hk].
  cbn [dict_set]. apply String.eqb_neq in Hne. rewrite Hne.
  now rewrite IH.
Qed.

Lemma dict_zip_from_keys {V} (items : list (string * V)) :
  ∀ d : list (string * V),
  NoDup d.*1 →
  NoDup (foldl (λ d '(k, v), dict_set k v d) d items).*1
  ∧ ∀ k, k ∈ (foldl (λ d '(k, v), dict_set k v d) d items).*1
         ↔ k ∈ d.*1 ∨ k ∈ items.*1.
Proof.
  induction items as [|[k0 v0] items IH]; intros d Hnd.
  - cbn [foldl]. split; [exact Hnd|]. intros k. rewrite fmap_nil.
    split; [auto | intros [H|H]; [exact H | inversion H]].
  - cbn [foldl].
    assert (NoDup (dict_set k0 v0 d).*1) as Hnd'.
    { rewrite dict_set_keys. case_decide; [exact Hnd|].
      apply NoDup_app. split; [exact Hnd|]. split; [|apply NoDup_singleton].
      intros x Hx ->%list_elem_of_singleton. contradiction. }
    destruct (IH _ Hnd') as [Hres Hkeys]. split; [exact Hres|].
    intros k. rewrite Hkeys, dict_set_keys, fmap_cons. cbn [fst].
    rewrite elem_of_cons. case_decide as Hin.
    + split; [intros [?|?]; auto | intros [?|[->|?]]; auto].
    + rewrite elem_of_app, list_elem_of_singleton. tauto.
Qed.

Lemma dict_zip_from_fresh {V} (items : list (string * V)) :
  ∀ d : list (string * V),
  NoDup items.*1 → (∀ k, k ∈ items.*1 → k ∉ d.*1) →
  foldl (λ d '(k, v), dict_set k v d) d items = d ++ items.
Proof.
  induction items as [|[k0 v0] items IH]; intros d Hnd Hfresh.
  - cbn [foldl]. now rewrite app_nil_r.
  - cbn [foldl]. rewrite fmap_cons in Hnd, Hfresh. cbn [fst] in Hnd, Hfresh.
    apply NoDup_cons in Hnd as [Hk0 Hnd].
    rewrite dict_set_fresh by (apply Hfresh, list_elem_of_here).
    rewrite IH; [now rewrite <- app_assoc|exact Hnd|].
    intros k Hk. rewrite fmap_app, elem_of_app. cbn.
    rewrite list_elem_of_singleton.
    intros [Hd| ->]; [|contradiction].
    apply (Hfresh k); [now apply list_elem_of_further | exact Hd].
Qed.









(** ** The arrival scheduler *)

Lemma random_choice_Ok {A} (raw : nat) (seq : list A) :
  seq ≠ [] → ∃ x, random_choice raw seq = Ok x ∧ x ∈ seq.
Proof.
  intros Hne. unfold random_choice.
  assert (raw `mod` length seq < length seq)%nat as Hlt.
  { apply Nat.mod_upper_bound. destruct seq; simpl; congruence. }
  destruct (lookup_lt_is_Some_2 _ _ Hlt) as [x Hx].
  rewrite Hx. exists x. split; [reflexivity|].
  eapply list_elem_of_lookup_2; eassumption.
Qed.

Lemma bisect_pick_Some {A} (population : list A) :
  ∀ (weights : list Q) (acc x : Q),
  population ≠ [] → length weights = length population →
  ∃ a, bisect_pick population weights acc x = Some a ∧ a ∈ population.
Proof.
  induction population as [|a population IH]; intros weights acc x Hne Hlen;
    [congruence|].
  destruct population as [|b population].
  - exists a. split; [reflexivity | apply list_elem_of_here].
  - destruct weights as [|w weights]; [discriminate|].
    change (bisect_pick (a :: b :: population) (w :: weights) acc x)
      with (if Qle_bool (acc + w) x
            then bisect_pick (b :: population) weights (acc + w)%Q x
            else Some a).
    destruct (Qle_bool (acc + w) x).
    + destruct (IH weights (acc + w)%Q x) as (c & Hc & Hin);
        [discriminate | simpl in *; lia |].
      exists c. split; [exact Hc | now apply list_elem_of_further].
    + exists a. split; [reflexivity | apply list_elem_of_here].
Qed.

Lemma random_choices_Ok {A} (u : Q) (population : list A) (weights : list Q) :
  population ≠ [] → length weights = length population →
  (0 < Qsum weights)%Q →
  ∃ a, random_choices u population weights = Ok a ∧ a ∈ population.
Proof.
  intros Hne Hlen Hpos. unfold random_choices.
  rewrite Hlen, Nat.eqb_refl. cbn [negb].
  destruct weights as [|w weights]; [destruct population; simpl in *; congruence|].
  destruct (Qle_bool (Qsum (w :: weights)) 0) eqn:Hle.
  - apply Qle_bool_iff in Hle. exfalso. eapply Qlt_not_le; eassumption.
  - destruct (bisect_pick_Some population (w :: weights) 0
                (u * Qsum (w :: weights))%Q Hne Hlen) as (a & -> & Hin).
    eauto.
Qed.

Lemma inter_arrival_finite (r : Q) (rnd : randomness) (k : nat) :
  (0 < r)%Q →
  inter_arrival (Finite r) rnd k
  = Ok (Some (np_random_exponential rnd k (1 / r)%Q)).
Proof.
  intros Hr. unfold inter_arrival.
  rewrite py_div_Ok by (intros H; rewrite H in Hr; discriminate).
  cbn [bind].
  assert (Qle_bool 0 (1 / r) = true) as ->; [|reflexivity].
  apply Qle_bool_iff. apply Qlt_le_weak.
  unfold Qdiv. rewrite Qmult_1_l. now apply Qinv_lt_0_compat.
Qed.

Lemma emit_spec (input_requests : list request) (request_rate : rate)
    (model_names : list string) (model_weights : list Q) (rnd : randomness)
    (remaining : nat) :
  input_requests ≠ [] → model_names ≠ [] →
  length model_weights = length model_names → (0 < Qsum model_weights)%Q →
  valid_rate request_rate →
  ∀ (k : nat) (now : Q),
  ∃ l, emit input_requests request_rate model_names model_weights rnd
            remaining k now = Ok l
       ∧ length l = remaining
       ∧ (∀ e, l !! O = Some e → em_instant e = now)
       ∧ (∀ e, e ∈ l → em_request e ∈ input_requests
                        ∧ em_model e ∈ model_names)
       ∧ match request_rate with
         | Infinity => ∀ e, e ∈ l → em_instant e = now
         | Finite r =>
             ∀ i e e', l !! i = Some e → l !! S i = Some e' →
               em_instant e' =
                 (em_instant e + np_random_exponential rnd (k + i) (1 / r))%Q
         end.
Proof.
  intros Hpool Hnames Hlen Hpos Hrate.
  induction remaining as [|remaining IH]; intros k now.
  - exists []. simpl.
    destruct (random_choice_Ok (rng_choice rnd k) input_requests Hpool)
      as (req & -> & _). simpl.
    split; [reflexivity|]. split; [reflexivity|].
    split; [intros e He; discriminate|].
    split; [intros e He; inversion He|].
    destruct request_rate; [intros i e e' He; discriminate|].
    intros e He; inversion He.
  - simpl.
    destruct (random_choice_Ok (rng_choice rnd k) input_requests Hpool)
      as (req & -> & Hreq). simpl.
    destruct (random_choices_Ok (rng_random rnd k) model_names model_weights
                Hnames Hlen Hpos) as (model & -> & Hmodel). simpl.
    destruct request_rate as [r|].
    + rewrite inter_arrival_finite by exact Hrate. simpl.
      destruct (IH (S k) (now + np_random_exponential rnd k (1 / r))%Q)
        as (l & -> & Hl & Hfirst & Hin & Hgap). simpl.
      eexists. split; [reflexivity|]. split; [simpl; now rewrite Hl|].
      split; [intros e He; now inversion He|].
      split.
      { intros e He. apply elem_of_cons in He as [->|He]; [now split|].
        now apply Hin. }
      intros [|i] e e' He He'; simpl in He, He'.
      * inversion He; subst e. simpl. rewrite Nat.add_0_r.
        now apply Hfirst.
      * rewrite (Hgap i e e' He He'). now rewrite Nat.add_succ_r.
    + simpl.
      destruct (IH (S k) now) as (l & -> & Hl & Hfirst & Hin & Hsame). simpl.
      eexists. split; [reflexivity|]. split; [simpl; now rewrite Hl|].
      split; [intros e He; now inversion He|].
      split.
      { intros e He. apply elem_of_cons in He as [->|He]; [now split|].
        now apply Hin. }
      intros e He. apply elem_of_cons in He as [->|He]; [reflexivity|].
      now apply Hsame.
Qed.

(** X27: with the rate [inf] the generator never waits, so that all the
    requests are emitted at the instant the loop starts; with a finite
    rate [r > 0] the generator waits once between two successive requests,
    for the value of a call of its own of [np.random.exponential] with the
    scale [1 / r]: the gap before request [i + 1] is the draw number [i].
    How the values of [np.random.exponential] are distributed is numpy's
    and is not stated. *)
Theorem emission_gaps (input_requests : list request) (request_rate : rate)
    (model_names : list string) (model_weights : list Q) (rnd : randomness)
    (num : nat) (start : Q) :
  input_requests ≠ [] → model_names ≠ [] →
  length model_weights = length model_names → (0 < Qsum model_weights)%Q →
  valid_rate request_rate →
  ∃ l, emit input_requests request_rate model_names model_weights rnd
            num 0 start = Ok l
       ∧ length l = num
       ∧ match request_rate with
         | Infinity =>
             (∀ k, inter_arrival Infinity rnd k = Ok None)
             ∧ ∀ e, e ∈ l → em_instant e = start
         | Finite r =>
             (∀ k, inter_arrival (Finite r) rnd k
                   = Ok (Some (np_random_exponential rnd k (1 / r)%Q)))
             ∧ ∀ i e e', l !! i = Some e → l !! S i = Some e' →
                 em_instant e' =
                   (em_instant e + np_random_exponential rnd i (1 / r))%Q
         end.
Proof.
  intros Hpool Hnames Hlen Hpos Hrate.
  destruct (emit_spec input_requests request_rate model_names model_weights
              rnd num Hpool Hnames Hlen Hpos Hrate 0%nat start)
    as (l & Hl & Hnum & _ & _ & Hgaps).
  exists l. split; [exact Hl|]. split; [exact Hnum|].
  destruct request_rate as [r|].
  - split; [intros k; now apply inter_arrival_finite|]. exact Hgaps.
  - split; [reflexivity|]. exact Hgaps.
Qed.

(** Three requests at the rate 2: the gaps are the draws 0 and 1 of the
    exponential generator at the scale 1/2. *)
Lemma emission_gaps_witness :
  ∃ l, emit Inputs.small_pool (Finite 2) ["A"] [1%Q] Inputs.steady 3 0 0
       = Ok l
       ∧ length l = 3%nat
       ∧ (∀ k, inter_arrival (Finite 2) Inputs.steady k
               = Ok (Some (np_random_exponential Inputs.steady k (1 / 2)%Q)))
       ∧ ∀ i e e', l !! i = Some e → l !! S i = Some e' →
           em_instant e' =
             (em_instant e + np_random_exponential Inputs.steady i (1 / 2))%Q.
Proof.
  apply (emission_gaps Inputs.small_pool (Finite 2) ["A"] [1%Q]
           Inputs.steady 3 0%Q).
  - discriminate.
  - discriminate.
  - reflexivity.
  - reflexivity.
  - reflexivity.
Defined.

(** ** The outcome collector *)

Lemma failure_eq (e : transport_exn) : failure e = Ok (failure_result e).
Proof. destruct e; reflexivity. Qed.

Lemma dict_add_Ok (k : string) (v x : Z) (d : gmap string Z) :
  d !! k = Some x → dict_add k v d = Ok (<[k := x + v]> d).
Proof. intros H. unfold dict_add. now rewrite H. Qed.

Lemma same_series_refl (b : bucket) : same_series b b.
Proof. repeat split. Qed.

Lemma add_errors_spec (items : list (string * Z)) (chosen_model : string) :
  ∀ (c : collector) (b : bucket),
  per_model_results c !! chosen_model = Some b →
  (∀ k v, (k, v) ∈ items →
     is_Some (errors (overall_results c) !! k) ∧ is_Some (errors b !! k)) →
  ∃ c' b',
    add_errors items chosen_model c = Ok c'
    ∧ per_model_results c' !! chosen_model = Some b'
    ∧ same_series (overall_results c) (overall_results c')
    ∧ same_series b b'
    ∧ (∀ m, m ≠ chosen_model →
         per_model_results c' !! m = per_model_results c !! m)
    ∧ (∀ k, errors (overall_results c') !! k
            = (λ x, x + tally items k) <$> errors (overall_results c) !! k)
    ∧ (∀ k, errors b' !! k = (λ x, x + tally items k) <$> errors b !! k).
Proof.
  induction items as [|[k0 v0] items IH]; intros c b Hb Hkeys.
  - exists c, b. simpl. split; [reflexivity|]. split; [exact Hb|].
    split; [apply same_series_refl|]. split; [apply same_series_refl|].
    split; [reflexivity|].
    split; intros k; destruct (_ !! k); simpl; f_equal; lia.
  - destruct (Hkeys k0 v0) as [[x Hx] [y Hy]]; [apply list_elem_of_here|].
    cbn [add_errors].
    rewrite (dict_add_Ok _ _ _ _ Hx). cbn [bind].
    unfold model_bucket. rewrite Hb. cbn [bind].
    rewrite (dict_add_Ok _ _ _ _ Hy). cbn [bind].
    match goal with
    | |- context [add_errors items chosen_model ?c1] =>
        destruct (IH c1 (with_errors b (<[k0 := y + v0]> (errors b))))
          as (c' & b' & Hrun & Hb' & Hov & Hbs & Hother & Hove & Hbe)
    end.
    { simpl. apply lookup_insert_eq. }
    { intros k v Hin. simpl.
      destruct (Hkeys k v) as [Ho Hm]; [now apply list_elem_of_further|].
      split; (destruct (decide (k0 = k)) as [->|Hne];
              [rewrite lookup_insert_eq; eauto
              | rewrite lookup_insert_ne by exact Hne; assumption]). }
    exists c', b'. split; [exact Hrun|]. split; [exact Hb'|].
    split; [exact Hov|]. split; [exact Hbs|].
    split.
    { intros m Hm. rewrite Hother by exact Hm. simpl.
      apply lookup_insert_ne. congruence. }
    split.
    + intros k. rewrite Hove. simpl.
      destruct (decide (k0 = k)) as [->|Hne].
      * rewrite lookup_insert_eq, Hx. simpl. f_equal. lia.
      * rewrite lookup_insert_ne by exact Hne. reflexivity.
    + intros k. rewrite Hbe. simpl.
      destruct (decide (k0 = k)) as [->|Hne].
      * rewrite lookup_insert_eq, Hy. simpl. f_equal. lia.
      * rewrite lookup_insert_ne by exact Hne. reflexivity.
Qed.

Lemma tally_NoDup (items : list (string * Z)) (k : string) :
  NoDup items.*1 →
  tally items k = default 0 (list_to_map (M := gmap string Z) items !! k).
Proof.
  induction items as [|[k0 v0] items IH]; intros Hnd.
  - reflexivity.
  - apply NoDup_cons in Hnd as [Hnotin Hnd]. simpl.
    destruct (decide (k0 = k)) as [->|Hne].
    + rewrite lookup_insert_eq. simpl. rewrite IH by exact Hnd.
      rewrite (not_elem_of_list_to_map_1 _ _ Hnotin). simpl. lia.
    + rewrite lookup_insert_ne by exact Hne. now apply IH.
Qed.

Lemma tally_map_to_list (m : gmap string Z) (k : string) :
  tally (map_to_list m) k = default 0 (m !! k).
Proof.
  rewrite tally_NoDup by apply NoDup_fst_map_to_list.
  now rewrite list_to_map_to_list.
Qed.

Lemma tally_failure (e : transport_exn) (k : string) :
  tally (map_to_list (<[errors_key e := 1]> init_errors_map)) k
  = if decide (k = errors_key e) then 1 else 0.
Proof.
  rewrite tally_map_to_list.
  destruct (decide (k = errors_key e)) as [->|Hne].
  - now rewrite lookup_insert_eq.
  - rewrite lookup_insert_ne by congruence.
    destruct (init_errors_map !! k) as [z|] eqn:Hz; [|reflexivity].
    unfold init_errors_map in Hz.
    repeat (apply lookup_insert_Some in Hz as [[_ <-]|[_ Hz]]; [reflexivity|]).
    discriminate.
Qed.

Lemma counters_ok_failure (e : transport_exn) (m : gmap string Z) :
  counters_ok m →
  ∀ k v, (k, v) ∈ map_to_list (<[errors_key e := 1]> init_errors_map) →
         is_Some (m !! k).
Proof.
  intros Hok k v Hin. apply elem_of_map_to_list in Hin. apply Hok.
  destruct (decide (errors_key e = k)) as [<-|Hne].
  - destruct e; eexists; reflexivity.
  - rewrite lookup_insert_ne in Hin by exact Hne. eauto.
Qed.

Lemma collect_one_failure (e : transport_exn) (c : collector)
    (chosen_model : string) (b : bucket) :
  per_model_results c !! chosen_model = Some b →
  counters_ok (errors (overall_results c)) → counters_ok (errors b) →
  ∃ c' b',
    collect_one c (chosen_model, failure_result e) = Ok c'
    ∧ per_model_results c' !! chosen_model = Some b'
    ∧ same_series (overall_results c) (overall_results c')
    ∧ same_series b b'
    ∧ (∀ m, m ≠ chosen_model →
         per_model_results c' !! m = per_model_results c !! m)
    ∧ (∀ k, errors (overall_results c') !! k
            = (λ x, x + if decide (k = errors_key e) then 1 else 0)
                <$> errors (overall_results c) !! k)
    ∧ (∀ k, errors b' !! k
            = (λ x, x + if decide (k = errors_key e) then 1 else 0)
                <$> errors b !! k).
Proof.
  intros Hb Hov Hbk.
  destruct (add_errors_spec
              (map_to_list (<[errors_key e := 1]> init_errors_map))
              chosen_model c b Hb)
    as (c' & b' & Hrun & Hb' & Hs & Hsb & Hother & Hove & Hbe).
  { intros k v Hin. split; eapply counters_ok_failure; eassumption. }
  exists c', b'. split.
  { unfold collect_one, failure_result, truthy_errors. cbn [res_errors].
    destruct (decide (<[errors_key e := 1]> init_errors_map = ∅)) as [He|_];
      [|exact Hrun].
    exfalso. exact (insert_non_empty init_errors_map (errors_key e) 1 He). }
  split; [exact Hb'|]. split; [exact Hs|]. split; [exact Hsb|].
  split; [exact Hother|].
  split; intros k; [rewrite Hove | rewrite Hbe]; now rewrite tally_failure.
Qed.

Lemma fmap_add_0 (o : option Z) : (λ x, x + 0) <$> o = o.
Proof. destruct o; simpl; f_equal; lia. Qed.

(** C9: a request whose transport raises [ClientConnectorError], in the
    non-streaming mode (at the first post or at a resend) as in the
    streaming mode, returns the failure tuple whose errors dict counts one
    [ClientConnectorError]; the collector then adds one to that counter of
    the "weighted" bucket and of the bucket of the chosen model, changes no
    other counter of the two, leaves the latency, TTFT, ITL and TPOT series
    of the two as they are, and does not touch the bucket of any other
    model. *)
Theorem connection_failure_counted :
  (∀ (tokenizer : string → list Z) fuel backend prompt_len output_len
     use_beam_search x inst n,
     request_pload backend use_beam_search = Ok () →
     (∀ k, (k < n)%nat → is_soft_failure (answer (server x k)) = true) →
     answer (server x n) = Raised ClientConnectorError → (n < fuel)%nat →
     send_request tokenizer fuel backend prompt_len output_len
                  use_beam_search x inst
     = Ok (failure_result ClientConnectorError, S n,
           hooks (server x) 0 (S n) inst))
  ∧ (∀ (tokenizer : string → list Z) json_loads backend prompt_len x,
     stream_pload backend = Ok () → s_chunks x = [] →
     s_raised x = Some ClientConnectorError →
     send_stream_request tokenizer json_loads backend prompt_len x
     = Ok (failure_result ClientConnectorError))
  ∧ (∀ (c : collector) (chosen_model : string) (b : bucket),
     per_model_results c !! chosen_model = Some b →
     counters_ok (errors (overall_results c)) → counters_ok (errors b) →
     ∃ c' b',
       collect_one c (chosen_model, failure_result ClientConnectorError)
       = Ok c'
       ∧ per_model_results c' !! chosen_model = Some b'
       ∧ errors (overall_results c') !! "ClientConnectorError"
         = (λ n, n + 1)
             <$> errors (overall_results c) !! "ClientConnectorError"
       ∧ errors b' !! "ClientConnectorError"
         = (λ n, n + 1) <$> errors b !! "ClientConnectorError"
       ∧ (∀ k, k ≠ "ClientConnectorError" →
            errors (overall_results c') !! k
            = errors (overall_results c) !! k
            ∧ errors b' !! k = errors b !! k)
       ∧ same_series (overall_results c) (overall_results c')
       ∧ same_series b b'
       ∧ (∀ m, m ≠ chosen_model →
            per_model_results c' !! m = per_model_results c !! m)).
Proof.
  split; [|split].
  - intros tokenizer fuel backend prompt_len output_len use_beam_search x
           inst n Hpload Hsoft Hn Hfuel.
    rewrite (send_request_settled tokenizer fuel backend prompt_len
               output_len use_beam_search x inst n Hpload Hsoft);
      [|now rewrite Hn|exact Hfuel].
    rewrite Hn. cbn [settle]. rewrite failure_eq. reflexivity.
  - intros tokenizer json_loads backend prompt_len x Hpload Hchunks Hraised.
    unfold send_stream_request. rewrite Hpload, Hchunks, Hraised.
    cbn [bind stream_loop]. apply failure_eq.
  - intros c chosen_model b Hb Hov Hbk.
    destruct (collect_one_failure ClientConnectorError c chosen_model b
                Hb Hov Hbk)
      as (c' & b' & Hrun & Hb' & Hs & Hsb & Hother & Hove & Hbe).
    exists c', b'. split; [exact Hrun|]. split; [exact Hb'|].
    split; [rewrite Hove; reflexivity|].
    split; [rewrite Hbe; reflexivity|].
    split.
    { intros k Hk. rewrite Hove, Hbe. cbn [errors_key].
      destruct (decide (k = "ClientConnectorError")); [contradiction|].
      rewrite !fmap_add_0. split; reflexivity. }
    split; [exact Hs|]. split; [exact Hsb|]. exact Hother.
Qed.

(** One connection failure in a fresh collector for the models A and B. *)
Lemma connection_failure_counted_witness :
  ∃ c',
    collect_one (init_collector ["A"; "B"])
                ("A", failure_result ClientConnectorError) = Ok c'
    ∧ errors (overall_results c') !! "ClientConnectorError" = Some 1
    ∧ latencies (overall_results c') = [].
Proof.
  destruct connection_failure_counted as (_ & _ & H).
  destruct (H (init_collector ["A"; "B"]) "A" empty_bucket)
    as (c' & b' & Hrun & _ & Hcount & _ & _ & Hseries & _).
  - reflexivity.
  - intros k Hk. exact Hk.
  - intros k Hk. exact Hk.
  - exists c'. split; [exact Hrun|]. split.
    + rewrite Hcount. reflexivity.
    + destruct Hseries as [Hl _]. rewrite Hl. reflexivity.
Defined.

(** ** Successful streaming outcomes *)

Lemma send_stream_request_shape (tokenizer : string → list Z)
    (json_loads : string → option json) (backend : string) (prompt_len : Z)
    (x : stream_exchange) (res : request_result) :
  send_stream_request tokenizer json_loads backend prompt_len x = Ok res →
  (∃ e, res = failure_result e)
  ∨ (∃ st,
       stream_loop json_loads backend (s_start_time_ms x) (stream_start x)
                   (s_chunks x) = Ok st
       ∧ s_raised x = None
       ∧ token_count tokenizer (output st) ≠ 0
       ∧ res = success_result prompt_len (token_count tokenizer (output st))
                 (s_request_end_time_ms x - s_request_start_time_ms x)%Q
                 (Some (ttft_ms st)) (Some (itl_ms st))).
Proof.
  unfold send_stream_request. fold (stream_start x).
  destruct (stream_pload backend); cbn [bind]; try discriminate.
  destruct (stream_loop json_loads backend (s_start_time_ms x)
              (stream_start x) (s_chunks x)) as [st|e|].
  - destruct (s_raised x) as [e|].
    + rewrite failure_eq. intros [= <-]. left. eauto.
    + intros H. apply bind_Ok in H as (_ & _ & H).
      apply bind_Ok in H as (q & Hq & H). injection H as <-.
      right. exists st. split; [reflexivity|]. split; [reflexivity|].
      split; [|reflexivity].
      intros Hz. rewrite Hz in Hq. discriminate.
  - rewrite failure_eq. intros [= <-]. left. eauto.
  - rewrite failure_eq. intros [= <-]. left. eauto.
Qed.

Lemma tpot_value_Ok (request_latency_ms ttft : Q) (output_len : Z) :
  tpot_value request_latency_ms ttft output_len
  = Ok (if 1 <? output_len
        then ((request_latency_ms - ttft) / inject_Z (output_len - 1))%Q
        else 0%Q).
Proof.
  unfold tpot_value. destruct (1 <? output_len) eqn:Hlt; [|reflexivity].
  apply Z.ltb_lt in Hlt. apply py_div_Ok.
  unfold Qeq. simpl. lia.
Qed.

Lemma collect_one_success (c : collector) (chosen_model : string) (b : bucket)
    (prompt_len output_len : Z) (latency : Q) (ttft : option Q)
    (itl : option (list Q)) :
  per_model_results c !! chosen_model = Some b →
  ∃ new_tpots,
    tpot_entries ttft latency output_len = Ok new_tpots
    ∧ collect_one c (chosen_model,
                     success_result prompt_len output_len latency ttft itl)
      = Ok {| overall_results :=
                add_success (overall_results c)
                  (prompt_len, output_len, latency)
                  (ttft_entries ttft) new_tpots (itl_entries itl);
              per_model_results :=
                <[chosen_model :=
                    add_success b (prompt_len, output_len, latency)
                      (ttft_entries ttft) new_tpots (itl_entries itl)]>
                  (per_model_results c) |}.
Proof.
  intros Hb.
  assert (∃ new_tpots, tpot_entries ttft latency output_len = Ok new_tpots)
    as [new_tpots Htpot].
  { unfold tpot_entries. destruct ttft as [t|]; [|eauto].
    destruct (Qeq_bool t 0); [eauto|]. rewrite tpot_value_Ok. simpl. eauto. }
  exists new_tpots. split; [exact Htpot|].
  unfold collect_one, success_result. cbn [res_errors truthy_errors res_latency
    res_ttft res_itl].
  unfold model_bucket. rewrite Hb. cbn [bind]. rewrite Htpot. reflexivity.
Qed.

(** ** The buckets of a run *)

Lemma init_buckets_lookup (names : list string) (m : string) :
  ∀ acc : gmap string bucket,
  foldl (λ d model, <[model := empty_bucket]> d) acc names !! m
  = if decide (m ∈ names) then Some empty_bucket else acc !! m.
Proof.
  induction names as [|x names IH]; intros acc.
  - cbn [foldl]. case_decide as H; [inversion H | reflexivity].
  - cbn [foldl]. rewrite IH.
    destruct (decide (m ∈ names)) as [Hin|Hnotin].
    + rewrite decide_True by (now apply list_elem_of_further). reflexivity.
    + destruct (decide (m = x)) as [->|Hne].
      * rewrite decide_True by apply list_elem_of_here.
        apply lookup_insert_eq.
      * rewrite decide_False
          by (intros [?|?]%elem_of_cons; contradiction).
        apply lookup_insert_ne. congruence.
Qed.

Lemma counters_ok_init : counters_ok init_errors_map.
Proof. intros k Hk. exact Hk. Qed.

Lemma init_collector_ok (names : list string) :
  collector_ok names (init_collector names).
Proof.
  split; [apply counters_ok_init|].
  intros m Hm. exists empty_bucket. split; [|apply counters_ok_init].
  unfold init_collector. cbn [per_model_results].
  rewrite init_buckets_lookup. now rewrite decide_True.
Qed.

Lemma collector_ok_update (names : list string) (c c' : collector)
    (chosen_model : string) (b' : bucket) :
  collector_ok names c →
  counters_ok (errors (overall_results c')) →
  per_model_results c' !! chosen_model = Some b' →
  counters_ok (errors b') →
  (∀ m, m ≠ chosen_model →
     per_model_results c' !! m = per_model_results c !! m) →
  collector_ok names c'.
Proof.
  intros [_ Hmodels] Hov Hb' Hok Hother. split; [exact Hov|].
  intros m Hm. destruct (decide (m = chosen_model)) as [->|Hne].
  - exists b'. split; assumption.
  - rewrite (Hother m Hne). now apply Hmodels.
Qed.

Lemma collect_one_failure_ok (names : list string) (e : transport_exn)
    (c : collector) (chosen_model : string) :
  collector_ok names c → chosen_model ∈ names →
  ∃ c', collect_one c (chosen_model, failure_result e) = Ok c'
        ∧ collector_ok names c'.
Proof.
  intros Hc Hin. pose proof Hc as [Hov Hmodels].
  destruct (Hmodels chosen_model Hin) as (b & Hb & Hbk).
  destruct (collect_one_failure e c chosen_model b Hb Hov Hbk)
    as (c' & b' & Hrun & Hb' & _ & _ & Hother & Hove & Hbe).
  exists c'. split; [exact Hrun|].
  apply (collector_ok_update names c c' chosen_model b' Hc); try assumption.
  - intros k Hk. rewrite Hove. destruct (Hov k Hk) as [x ->]. eexists.
    reflexivity.
  - intros k Hk. rewrite Hbe. destruct (Hbk k Hk) as [x ->]. eexists.
    reflexivity.
Qed.

Lemma collect_one_success_ok (names : list string) (c : collector)
    (chosen_model : string) (prompt_len output_len : Z) (latency : Q)
    (ttft : option Q) (itl : option (list Q)) :
  collector_ok names c → chosen_model ∈ names →
  ∃ c', collect_one c (chosen_model,
                       success_result prompt_len output_len latency ttft itl)
        = Ok c'
        ∧ collector_ok names c'.
Proof.
  intros Hc Hin. pose proof Hc as [Hov Hmodels].
  destruct (Hmodels chosen_model Hin) as (b & Hb & Hbk).
  destruct (collect_one_success c chosen_model b prompt_len output_len latency
              ttft itl Hb) as (new_tpots & _ & Hrun).
  eexists. split; [exact Hrun|].
  eapply (collector_ok_update names c _ chosen_model).
  - exact Hc.
  - exact Hov.
  - cbn [per_model_results]. apply lookup_insert_eq.
  - exact Hbk.
  - intros m Hne. cbn [per_model_results]. apply lookup_insert_ne. congruence.
Qed.

Lemma send_request_shape (tokenizer : string → list Z) (fuel : nat)
    (backend : string) (prompt_len output_len : Z) (use_beam_search : bool)
    (x : exchange) (inst inst' : option AsyncRequestCounter)
    (res : request_result) (posts : nat) :
  send_request tokenizer fuel backend prompt_len output_len use_beam_search
               x inst = Ok (res, posts, inst') →
  well_formed_result res.
Proof.
  unfold send_request. intros H.
  apply bind_Ok in H as (_ & _ & H).
  apply bind_Ok in H as ([[exit p] i] & Hloop & H).
  apply bind_Ok in H as (r & Hafter & [= <- _ _]).
  assert (match exit with
          | Returned r0 => ∃ e, r0 = failure_result e
          | Broke _ => True
          end) as Hexit.
  { clear Hafter. revert inst p i Hloop. generalize 0%nat.
    induction fuel as [|fuel IH]; intros k inst p i Hloop;
      [discriminate|].
    cbn [resend_loop] in Hloop.
    destruct (answer (server x k)) as [e|body].
    - rewrite failure_eq in Hloop. injection Hloop as <- _ _. eauto.
    - destruct (json_contains "error" body) as [[|]|e|].
      + eapply IH. exact Hloop.
      + injection Hloop as <- _ _. exact I.
      + rewrite failure_eq in Hloop. injection Hloop as <- _ _. eauto.
      + rewrite failure_eq in Hloop. injection Hloop as <- _ _. eauto. }
  destruct exit as [body|r0]; cbn [after_loop] in Hafter.
  - apply bind_Ok in Hafter as (ol & _ & Hafter).
    apply bind_Ok in Hafter as (q & _ & [= <-]).
    right. unfold success_result. eauto 10.
  - injection Hafter as <-. left. exact Hexit.
Qed.

Lemma gather_shape (tokenizer : string → list Z)
    (json_loads : string → option json) (fuel : nat) (a : args)
    (network : nat → wire) (names : list string) (tasks : list emission) :
  (∀ e, e ∈ tasks → em_model e ∈ names) →
  ∀ k inst results posts inst',
  gather tokenizer json_loads fuel a network tasks k inst
  = Ok (results, posts, inst') →
  Forall (λ r, r.1 ∈ names ∧ well_formed_result r.2) results.
Proof.
  induction tasks as [|e tasks IH]; intros Hnames k inst results posts inst' H;
    cbn [gather] in H.
  - injection H as <- _ _. constructor.
  - apply bind_Ok in H as ([[[model res] p] inst1] & Hone & H).
    apply bind_Ok in H as ([[rs p'] inst2] & Hrest & [= <- _ _]).
    constructor.
    + unfold run_single_request in Hone.
      destruct (em_request e) as [[prompt prompt_len] output_len].
      destruct (stream_request a).
      * apply bind_Ok in Hone as (r & Hr & [= <- <- _ _]).
        split; [apply Hnames, list_elem_of_here|].
        destruct (send_stream_request_shape _ _ _ _ _ _ Hr)
          as [?|(st & _ & _ & _ & ->)]; [now left|].
        right. eauto 10.
      * apply bind_Ok in Hone as ([[r p0] i0] & Hr & [= <- <- _ _]).
        split; [apply Hnames, list_elem_of_here|].
        eapply send_request_shape. exact Hr.
    + eapply IH; [|exact Hrest].
      intros e' He'. apply Hnames. now apply list_elem_of_further.
Qed.

Lemma collect_ok (names : list string)
    (results : list (string * request_result)) :
  Forall (λ r, r.1 ∈ names ∧ well_formed_result r.2) results →
  ∀ c, collector_ok names c →
  ∃ c', collect c results = Ok c' ∧ collector_ok names c'.
Proof.
  induction 1 as [|[model res] results [Hin Hres] _ IH]; intros c Hc.
  - exists c. split; [reflexivity | exact Hc].
  - cbn [fst snd] in Hin, Hres. cbn [collect].
    assert (∃ c1, collect_one c (model, res) = Ok c1 ∧ collector_ok names c1)
      as (c1 & -> & Hc1).
    { destruct Hres as [[e ->]|(pl & ol & lat & ttft & itl & ->)].
      - now apply collect_one_failure_ok.
      - now apply collect_one_success_ok. }
    cbn [bind]. now apply IH.
Qed.

Lemma bisect_pick_in {A} (population : list A) :
  ∀ (weights : list Q) (acc x : Q) (a : A),
  bisect_pick population weights acc x = Some a → a ∈ population.
Proof.
  induction population as [|b population IH]; intros weights acc x a H;
    [discriminate|].
  destruct population as [|b' population].
  - injection H as <-. apply list_elem_of_here.
  - destruct weights as [|w weights]; [discriminate|].
    change (bisect_pick (b :: b' :: population) (w :: weights) acc x)
      with (if Qle_bool (acc + w) x
            then bisect_pick (b' :: population) weights (acc + w)%Q x
            else Some b) in H.
    destruct (Qle_bool (acc + w) x).
    + apply list_elem_of_further. eapply IH. exact H.
    + injection H as <-. apply list_elem_of_here.
Qed.

Lemma random_choices_in {A} (u : Q) (population : list A) (weights : list Q)
    (a : A) :
  random_choices u population weights = Ok a → a ∈ population.
Proof.
  unfold random_choices.
  destruct (negb (length weights =? length population)%nat); [discriminate|].
  destruct weights as [|w weights]; [discriminate|].
  destruct (Qle_bool (Qsum (w :: weights)) 0); [discriminate|].
  destruct (bisect_pick population (w :: weights) 0
              (u * Qsum (w :: weights))%Q) as [b|] eqn:Hpick; [|discriminate].
  intros [= <-]. eapply bisect_pick_in. exact Hpick.
Qed.

Lemma emit_models (input_requests : list request) (request_rate : rate)
    (model_names : list string) (model_weights : list Q) (rnd : randomness)
    (remaining : nat) :
  ∀ (k : nat) (now : Q) (l : list emission),
  emit input_requests request_rate model_names model_weights rnd
       remaining k now = Ok l →
  ∀ e, e ∈ l → em_model e ∈ model_names.
Proof.
  induction remaining as [|remaining IH]; intros k now l H; simpl in H.
  - apply bind_Ok in H as (_ & _ & [= <-]). intros e He. inversion He.
  - apply bind_Ok in H as (req & _ & H).
    apply bind_Ok in H as (model & Hmodel & H).
    apply bind_Ok in H as (interval & _ & H).
    apply bind_Ok in H as (rest & Hrest & [= <-]).
    intros e He. apply elem_of_cons in He as [->|He].
    + cbn [em_model]. eapply random_choices_in. exact Hmodel.
    + eapply IH; eassumption.
Qed.

(** In a run, the collector takes every result of the gathered tasks
    without an exception, and keeps the error counters of every bucket. *)
Lemma collect_in_run (tokenizer : string → list Z)
    (json_loads : string → option json) (fuel : nat) (a : args)
    (network : nat → wire) (input_requests : list request)
    (model_names : list string) (model_weights : list Q) (rnd : randomness)
    (remaining : nat) (now : Q) (emissions : list emission)
    (inst inst' : option AsyncRequestCounter)
    (results : list (string * request_result)) (posts : nat) :
  emit input_requests (request_rate a) model_names model_weights rnd
       remaining 0 now = Ok emissions →
  gather tokenizer json_loads fuel a network emissions 0 inst
  = Ok (results, posts, inst') →
  ∃ c, collect (init_collector model_names) results = Ok c
       ∧ collector_ok model_names c.
Proof.
  intros Hemit Hgather.
  apply (collect_ok model_names).
  - eapply gather_shape; [|exact Hgather].
    eapply emit_models. exact Hemit.
  - apply init_collector_ok.
Qed.

(** C6, as amended: for every successful streaming outcome the collector
    runs without an exception, and what it appends to the TPOT series of
    the "weighted" bucket and of the bucket of the model is: when the
    time to first token is not zero, the one value
    [(total_latency - ttft) / (output_len - 1)] if [output_len > 1] and the
    one value [0] if [output_len = 1]; and nothing when the time to first
    token is zero. *)
Theorem streaming_tpot_stored (tokenizer : string → list Z)
    (json_loads : string → option json) (backend : string) (prompt_len : Z)
    (x : stream_exchange) (res : request_result) (c : collector)
    (chosen_model : string) (b : bucket) :
  send_stream_request tokenizer json_loads backend prompt_len x = Ok res →
  res_errors res = None →
  per_model_results c !! chosen_model = Some b →
  ∃ output_len latency ttft c' b' stored,
    res_latency res = Some (prompt_len, output_len, latency)
    ∧ res_ttft res = Some ttft
    ∧ 1 ≤ output_len
    ∧ collect_one c (chosen_model, res) = Ok c'
    ∧ per_model_results c' !! chosen_model = Some b'
    ∧ tpots (overall_results c') = tpots (overall_results c) ++ stored
    ∧ tpots b' = tpots b ++ stored
    ∧ (¬ (ttft == 0)%Q → 1 < output_len →
       stored = [((latency - ttft) / inject_Z (output_len - 1))%Q])
    ∧ (¬ (ttft == 0)%Q → output_len = 1 → stored = [0%Q])
    ∧ ((ttft == 0)%Q → stored = []).
Proof.
  intros Hsend Herr Hb.
  destruct (send_stream_request_shape _ _ _ _ _ _ Hsend)
    as [[e ->]|(st & _ & _ & Hlen & ->)]; [discriminate|].
  set (output_len := token_count tokenizer (output st)) in *.
  set (latency := (s_request_end_time_ms x - s_request_start_time_ms x)%Q).
  destruct (collect_one_success c chosen_model b prompt_len output_len latency
              (Some (ttft_ms st)) (Some (itl_ms st)) Hb)
    as (stored & Hstored & Hrun).
  eexists output_len, latency, (ttft_ms st), _, _, stored.
  split; [reflexivity|]. split; [reflexivity|].
  split; [unfold output_len, token_count in *; lia|].
  split; [exact Hrun|]. cbn [per_model_results overall_results].
  split; [apply lookup_insert_eq|].
  split; [reflexivity|]. split; [reflexivity|].
  unfold tpot_entries in Hstored. rewrite tpot_value_Ok in Hstored.
  destruct (Qeq_bool (ttft_ms st) 0) eqn:Hz.
  - apply Qeq_bool_iff in Hz. injection Hstored as <-.
    split; [contradiction|]. split; [contradiction|]. reflexivity.
  - apply Qeq_bool_neq in Hz. cbn [bind] in Hstored. injection Hstored as <-.
    split; [|split]; [| |contradiction].
    + intros _ Hgt. apply Z.ltb_lt in Hgt. now rewrite Hgt.
    + intros _ ->. reflexivity.
Qed.

(** A streamed answer of two chunks, collected into fresh buckets. *)
Lemma streaming_tpot_stored_witness :
  ∃ c',
    collect_one (init_collector ["A"])
      ("A", success_result 4 4 6 (Some 3%Q) (Some [2%Q])) = Ok c'
    ∧ tpots (overall_results c') = [((6 - 3) / inject_Z (4 - 1))%Q].
Proof.
  destruct (streaming_tpot_stored Examples.char_tokenizer Examples.text_loads
              "jetstream" 4 Inputs.chatty_stream
              (success_result 4 4 6 (Some 3%Q) (Some [2%Q]))
              (init_collector ["A"]) "A" empty_bucket)
    as (output_len & latency & ttft & c' & b' & stored & Hlat & Httft & _
        & Hrun & _ & Hov & _ & Hgt & _).
  - reflexivity.
  - reflexivity.
  - reflexivity.
  - injection Hlat as <- <-. injection Httft as <-.
    exists c'. split; [exact Hrun|].
    rewrite Hov, Hgt; [reflexivity | discriminate | reflexivity].
Defined.

(** C6, as stated, fails: an answer without any non-empty chunk, with a
    tokenizer that puts a begin-of-sequence token before the text, is a
    successful streaming outcome with [output_len = 1] and a time to first
    token of zero; its latency is collected, and no TPOT is stored for
    it. *)
Lemma silent_stream_stores_no_tpot :
  send_stream_request Examples.bos_tokenizer Examples.text_loads "jetstream"
                      4 Inputs.silent_stream
  = Ok (success_result 4 1 6 (Some 0%Q) (Some []))
  ∧ ∃ c',
      collect_one (init_collector ["A"])
        ("A", success_result 4 1 6 (Some 0%Q) (Some [])) = Ok c'
      ∧ latencies (overall_results c') = [(4, 1, 6%Q)]
      ∧ tpots (overall_results c') = [].
Proof.
  split; [reflexivity|].
  eexists. split; [reflexivity|]. split; reflexivity.
Qed.

(** ** Answers that tokenize to nothing *)

Lemma bind_assoc {A B C} (m : result A) (f : A → result B)
    (g : B → result C) :
  bind (bind m f) g = bind m (λ a, bind (f a) g).
Proof. destruct m; reflexivity. Qed.

Ltac same_binds :=
  repeat (rewrite ?bind_assoc;
          match goal with
          | |- bind ?m _ = bind ?m _ => destruct m; cbn [bind]; try reflexivity
          end).

Lemma decoded_output_len_text (tokenizer : string → list Z) (backend : string)
    (use_beam_search : bool) (output : json) (prompt_len output_len : Z) :
  request_pload backend use_beam_search = Ok () →
  decoded_output_len tokenizer backend output prompt_len output_len =
    let* text := generated_text backend output in
    Ok (if String.eqb backend "naive_transformers"
        then token_count tokenizer text - prompt_len
        else token_count tokenizer text).
Proof.
  unfold request_pload, decoded_output_len, generated_text.
  destruct (String.eqb backend "naive_transformers") eqn:E1;
    [intros _; same_binds|].
  destruct (String.eqb backend "tensorrt_llm_triton") eqn:E2;
    [intros _; same_binds|].
  destruct (String.eqb backend "sax") eqn:E3; [intros _; same_binds|].
  destruct (String.eqb backend "tgi") eqn:E4; [intros _; same_binds|].
  destruct (String.eqb backend "vllm") eqn:E5; [intros _; same_binds|].
  destruct (String.eqb backend "jetstream") eqn:E6; [intros _; same_binds|].
  discriminate.
Qed.

Lemma token_count_zero (tokenizer : string → list Z) (text : string) :
  tokenizer text = [] → token_count tokenizer text = 0.
Proof. intros H. unfold token_count. now rewrite H. Qed.

Lemma inject_Z_zero (z : Z) : (inject_Z z == 0)%Q ↔ z = 0.
Proof. unfold Qeq. simpl. lia. Qed.

Lemma send_request_answered (tokenizer : string → list Z) (fuel : nat)
    (backend : string) (prompt_len output_len : Z) (use_beam_search : bool)
    (x : exchange) (inst : option AsyncRequestCounter) (n : nat)
    (output : json) :
  request_pload backend use_beam_search = Ok () →
  (∀ k, (k < n)%nat → is_soft_failure (answer (server x k)) = true) →
  answer (server x n) = Body output →
  json_contains "error" output = Ok false →
  (n < fuel)%nat →
  send_request tokenizer fuel backend prompt_len output_len use_beam_search
               x inst =
    let* r := after_loop tokenizer backend prompt_len output_len x
                         (Broke output) in
    Ok (r, S n, hooks (server x) 0 (S n) inst).
Proof.
  intros Hpload Hsoft Hn Herr Hfuel.
  rewrite (send_request_settled tokenizer fuel backend prompt_len output_len
             use_beam_search x inst n Hpload Hsoft);
    [|unfold is_soft_failure; now rewrite Hn, Herr|exact Hfuel].
  unfold settle. rewrite Hn, Herr. reflexivity.
Qed.

(** C10, as amended: when the text of a successful exchange tokenizes to
    zero tokens, [send_stream_request] raises [ZeroDivisionError], and so
    does [send_request] for every backend but naive_transformers; for
    naive_transformers the output length is the token count minus
    [prompt_len], so that [send_request] returns an outcome with the
    output length [- prompt_len] unless [prompt_len] is zero. *)
Theorem zero_tokens_division (tokenizer : string → list Z) :
  (∀ json_loads backend prompt_len x st,
     stream_pload backend = Ok () →
     stream_loop json_loads backend (s_start_time_ms x) (stream_start x)
                 (s_chunks x) = Ok st →
     s_raised x = None →
     tokenizer (output st) = [] →
     send_stream_request tokenizer json_loads backend prompt_len x
     = Raise ZeroDivisionError)
  ∧ (∀ fuel backend prompt_len output_len use_beam_search x inst n output text,
     request_pload backend use_beam_search = Ok () →
     (∀ k, (k < n)%nat → is_soft_failure (answer (server x k)) = true) →
     answer (server x n) = Body output →
     json_contains "error" output = Ok false →
     (n < fuel)%nat →
     generated_text backend output = Ok text →
     tokenizer text = [] →
     if String.eqb backend "naive_transformers"
     then (prompt_len ≠ 0 →
           send_request tokenizer fuel backend prompt_len output_len
                        use_beam_search x inst
           = Ok (success_result prompt_len (- prompt_len)
                   (request_end_time_ms x - request_start_time_ms x)%Q
                   None None,
                 S n, hooks (server x) 0 (S n) inst))
          ∧ (prompt_len = 0 →
             send_request tokenizer fuel backend prompt_len output_len
                          use_beam_search x inst
             = Raise ZeroDivisionError)
     else send_request tokenizer fuel backend prompt_len output_len
                       use_beam_search x inst
          = Raise ZeroDivisionError).
Proof.
  split.
  - intros json_loads backend prompt_len x st Hpload Hloop Hraised Htok.
    unfold send_stream_request. fold (stream_start x).
    rewrite Hpload, Hloop, Hraised. cbn [bind].
    rewrite (token_count_zero _ _ Htok).
    change (1 <? 0) with false. cbn [bind].
    rewrite py_div_zero by reflexivity. reflexivity.
  - intros fuel backend prompt_len output_len use_beam_search x inst n output
           text Hpload Hsoft Hn Herr Hfuel Htext Htok.
    rewrite (send_request_answered tokenizer fuel backend prompt_len
               output_len use_beam_search x inst n output Hpload Hsoft Hn
               Herr Hfuel).
    unfold after_loop.
    rewrite (decoded_output_len_text tokenizer backend use_beam_search output
               prompt_len output_len Hpload).
    rewrite Htext. cbn [bind]. rewrite (token_count_zero _ _ Htok).
    destruct (String.eqb backend "naive_transformers").
    + split; intros Hp.
      * rewrite py_div_Ok by (rewrite inject_Z_zero; lia). reflexivity.
      * rewrite py_div_zero by (rewrite inject_Z_zero; lia). reflexivity.
    + rewrite py_div_zero by reflexivity. reflexivity.
Qed.

(** An empty text from jetstream, one token per character. *)
Lemma zero_tokens_division_witness :
  send_request Examples.char_tokenizer 1 "jetstream" 4 8 false
               Inputs.mute_exchange None
  = Raise ZeroDivisionError.
Proof.
  destruct (zero_tokens_division Examples.char_tokenizer) as [_ H].
  apply (H 1%nat "jetstream" 4 8 false Inputs.mute_exchange None 0%nat
           (Inputs.ok_body EmptyString) EmptyString).
  - reflexivity.
  - intros k Hk. lia.
  - reflexivity.
  - reflexivity.
  - lia.
  - reflexivity.
  - reflexivity.
Defined.

(** C10, as stated, fails for naive_transformers: the text after the key
    is empty and tokenizes to zero tokens, and [send_request] returns an
    outcome, with the output length [-4]. *)
Lemma naive_transformers_returns_outcome :
  generated_text "naive_transformers" Inputs.echo_body = Ok EmptyString
  ∧ Examples.char_tokenizer EmptyString = []
  ∧ ∃ inst,
      send_request Examples.char_tokenizer 1 "naive_transformers" 4 8 false
                   Inputs.echo_exchange None
      = Ok (success_result 4 (-4) 7 None None, 1%nat, inst).
Proof.
  split; [reflexivity|]. split; [reflexivity|]. eexists. reflexivity.
Qed.

(** ** The reports of a run *)

Lemma py_div_inv (a b q : Q) : py_div a b = Ok q → q = (a / b)%Q.
Proof.
  unfold py_div. destruct (Qeq_bool b 0); [discriminate|]. now intros [= <-].
Qed.

Lemma emit_length (input_requests : list request) (request_rate : rate)
    (model_names : list string) (model_weights : list Q) (rnd : randomness)
    (remaining : nat) :
  ∀ (k : nat) (now : Q) (l : list emission),
  emit input_requests request_rate model_names model_weights rnd
       remaining k now = Ok l →
  length l = remaining.
Proof.
  induction remaining as [|remaining IH]; intros k now l H; simpl in H.
  - apply bind_Ok in H as (_ & _ & [= <-]). reflexivity.
  - apply bind_Ok in H as (req & _ & H).
    apply bind_Ok in H as (model & _ & H).
    apply bind_Ok in H as (interval & _ & H).
    apply bind_Ok in H as (rest & Hrest & [= <-]).
    simpl. f_equal. eapply IH. exact Hrest.
Qed.

Lemma print_and_save_result_Ok (np : numpy) (a : args)
    (inst inst' : option AsyncRequestCounter) (now duration : Q)
    (total_requests : Z) (b : bucket) (rep : report) :
  print_and_save_result np a inst now duration total_requests b
  = Ok (rep, inst') →
  requests_per_sec_line rep = (inject_Z total_requests / duration)%Q
  ∧ throughput_rps (saved rep) = (inject_Z (num_prompts a) / duration)%Q
  ∧ throughput (saved rep) = (inject_Z (output_tokens b) / duration)%Q
  ∧ num_prompts_attempted (saved rep) = total_requests
  ∧ is_ok (get_qps (AsyncRequestCounter_new inst None now)) = true.
Proof.
  unfold print_and_save_result. intros H.
  apply bind_Ok in H as (line & Hline & H).
  apply bind_Ok in H as (qps & Hqps & H).
  apply bind_Ok in H as (rps & Hrps & H).
  apply bind_Ok in H as (per_token & _ & H).
  apply bind_Ok in H as (normalized & _ & H).
  injection H as <- _. cbn [requests_per_sec_line saved throughput_rps
    throughput num_prompts_attempted].
  split; [now apply py_div_inv|]. split; [now apply py_div_inv|].
  split; [reflexivity|]. split; [reflexivity|]. now rewrite Hqps.
Qed.

Lemma report_models_Ok (np : numpy) (a : args) (now duration : Q)
    (per_model : gmap string bucket) (model_names : list string) :
  ∀ (inst : option AsyncRequestCounter) (reps : list (string * report)),
  report_models np a inst now duration per_model model_names = Ok reps →
  reps.*1 = model_names
  ∧ ∀ model rep, (model, rep) ∈ reps →
      ∃ b, per_model !! model = Some b
           ∧ requests_per_sec_line rep
             = (inject_Z (Z.of_nat (length (latencies b))) / duration)%Q
           ∧ throughput_rps (saved rep)
             = (inject_Z (num_prompts a) / duration)%Q
           ∧ throughput (saved rep)
             = (inject_Z (output_tokens b) / duration)%Q.
Proof.
  induction model_names as [|model model_names IH]; intros inst reps H;
    simpl in H.
  - injection H as <-. split; [reflexivity|]. intros m r Hin. inversion Hin.
  - apply bind_Ok in H as (data & Hdata & H).
    apply bind_Ok in H as ([r inst'] & Hr & H).
    apply bind_Ok in H as (rest & Hrest & [= <-]).
    destruct (IH _ _ Hrest) as [Hnames Hreps].
    split; [rewrite fmap_cons, Hnames; reflexivity|].
    intros m rep Hin. apply elem_of_cons in Hin as [[= -> ->]|Hin].
    + exists data. unfold model_bucket in Hdata.
      destruct (per_model !! model) as [b|]; [|discriminate].
      injection Hdata as ->. split; [reflexivity|].
      destruct (print_and_save_result_Ok _ _ _ _ _ _ _ _ _ Hr)
        as (H1 & H2 & H3 & _). auto.
    + now apply Hreps.
Qed.

Lemma benchmark_Ok (np : numpy) (tokenizer : string → list Z)
    (tokenizer_decode : list Z → string) (json_loads : string → option json)
    (fuel : nat) (a : args) (models : list string)
    (traffic_split : option (list Q)) (w : world)
    (inst : option AsyncRequestCounter) (r : run) :
  benchmark np tokenizer tokenizer_decode json_loads fuel a models
            traffic_split w inst = Ok r →
  let duration := (benchmark_end_time_sec w - benchmark_start_time_sec w)%Q in
  ∃ model_names model_weights inst1 weighted inst2 per_model,
    traffic_config models traffic_split = Ok (model_names, model_weights)
    ∧ emit (get_filtered_dataset tokenizer tokenizer_decode (dataset a)
              (max_input_length a) (max_output_length a) (use_dummy_text a))
           (request_rate a) model_names model_weights (rnd w)
           (Z.to_nat (num_prompts a)) 0 (benchmark_start_time_sec w)
      = Ok (run_emissions r)
    ∧ gather tokenizer json_loads fuel a (network w) (run_emissions r) 0
             (Some (AsyncRequestCounter_new inst (Some (num_prompts a))
                                            (counter_start_time w)))
      = Ok (run_results r, run_posts r, inst1)
    ∧ collect (init_collector model_names) (run_results r)
      = Ok (run_collector r)
    ∧ print_and_save_result np a inst1 (benchmark_end_time_sec w) duration
        (Z.of_nat (length (run_emissions r)))
        (overall_results (run_collector r)) = Ok (weighted, inst2)
    ∧ report_models np a inst2 (benchmark_end_time_sec w) duration
        (per_model_results (run_collector r)) model_names = Ok per_model
    ∧ run_reports r = ("weighted", weighted) :: per_model.
Proof.
  unfold benchmark. intros H.
  apply bind_Ok in H as ([model_names model_weights] & Hconfig & H).
  apply bind_Ok in H as (emissions & Hemit & H).
  apply bind_Ok in H as ([[results posts] inst1] & Hgather & H).
  apply bind_Ok in H as (c & Hcollect & H).
  apply bind_Ok in H as ([weighted inst2] & Hweighted & H).
  apply bind_Ok in H as (per_model & Hmodels & [= <-]).
  cbn [run_emissions run_results run_posts run_collector run_reports].
  exists model_names, model_weights, inst1, weighted, inst2, per_model.
  repeat (split; [assumption|]). reflexivity.
Qed.

(** C4, as amended: in a run that ends with its reports, the "weighted"
    bucket reports the number of requests emitted divided by the duration
    of the run, on its line "Requests/sec" and, for a non-negative
    [num_prompts], as [throughput_rps]; a bucket of a model reports on its
    line "Requests/sec" the number of its successful requests divided by
    the duration, and as [throughput_rps] the value of [num_prompts]
    divided by the duration; and every bucket reports as [throughput] the
    sum of the output lengths of its successful requests divided by the
    duration. *)
Theorem reported_throughput (np : numpy) (tokenizer : string → list Z)
    (tokenizer_decode : list Z → string) (json_loads : string → option json)
    (fuel : nat) (a : args) (models : list string)
    (traffic_split : option (list Q)) (w : world)
    (inst : option AsyncRequestCounter) (r : run) :
  benchmark np tokenizer tokenizer_decode json_loads fuel a models
            traffic_split w inst = Ok r →
  let duration := (benchmark_end_time_sec w - benchmark_start_time_sec w)%Q in
  let emitted := Z.of_nat (length (run_emissions r)) in
  ∃ weighted per_model,
    run_reports r = ("weighted", weighted) :: per_model
    ∧ requests_per_sec_line weighted = (inject_Z emitted / duration)%Q
    ∧ (0 ≤ num_prompts a →
       throughput_rps (saved weighted) = (inject_Z emitted / duration)%Q)
    ∧ throughput (saved weighted)
      = (inject_Z (output_tokens (overall_results (run_collector r)))
         / duration)%Q
    ∧ ∀ model rep, (model, rep) ∈ per_model →
        ∃ b, per_model_results (run_collector r) !! model = Some b
             ∧ requests_per_sec_line rep
               = (inject_Z (Z.of_nat (length (latencies b))) / duration)%Q
             ∧ throughput_rps (saved rep)
               = (inject_Z (num_prompts a) / duration)%Q
             ∧ throughput (saved rep)
               = (inject_Z (output_tokens b) / duration)%Q.
Proof.
  intros H duration emitted.
  destruct (benchmark_Ok _ _ _ _ _ _ _ _ _ _ _ H)
    as (model_names & model_weights & inst1 & weighted & inst2 & per_model
        & _ & Hemit & _ & _ & Hweighted & Hmodels & Hreports).
  exists weighted, per_model. split; [exact Hreports|].
  destruct (print_and_save_result_Ok _ _ _ _ _ _ _ _ _ Hweighted)
    as (Hline & Hrps & Hthroughput & _).
  split; [exact Hline|]. split.
  { intros Hnum. rewrite Hrps. unfold emitted.
    rewrite (emit_length _ _ _ _ _ _ _ _ _ Hemit), Z2Nat.id by exact Hnum.
    reflexivity. }
  split; [exact Hthroughput|].
  intros model rep Hin.
  destruct (report_models_Ok _ _ _ _ _ _ _ _ Hmodels) as [_ Hreps].
  now apply Hreps.
Qed.

(** The run [split_run] ends with its reports. *)
Lemma reported_throughput_witness :
  ∃ r, Inputs.split_run = Ok r
       ∧ ∃ weighted per_model,
           run_reports r = ("weighted", weighted) :: per_model
           ∧ requests_per_sec_line weighted
             = (inject_Z (Z.of_nat (length (run_emissions r))) / (1 - 0))%Q.
Proof.
  assert (∃ r, Inputs.split_run = Ok r) as [r Hr].
  { vm_compute. eexists. reflexivity. }
  exists r. split; [exact Hr|].
  destruct (reported_throughput _ _ _ _ _ _ _ _ _ _ r Hr)
    as (weighted & per_model & Hreports & Hline & _).
  exists weighted, per_model. split; [exact Hreports | exact Hline].
Defined.

(** C4, as stated, fails for the buckets of the models: in [split_run]
    both requests are emitted for A and none for B, over a duration of one
    second; the line "Requests/sec" of A is 1, not 2, and the
    [throughput_rps] of B is 2, not 0. *)
Lemma per_model_rates_are_not_emitted_rates :
  emitted_into Inputs.split_run "A" = Some 2%nat
  ∧ emitted_into Inputs.split_run "B" = Some 0%nat
  ∧ requests_per_sec_line <$> report_of Inputs.split_run "A" = Some 1%Q
  ∧ throughput_rps ∘ saved <$> report_of Inputs.split_run "B" = Some 2%Q.
Proof. vm_compute. repeat split. Qed.

(** ** An empty pool *)

Lemma filter_sequences_pruned (tokenizer : string → list Z)
    (max_input_len max_output_len : Z) (turns : list (string * string)) :
  Forall (λ t, pruned tokenizer max_input_len max_output_len t = true)
         turns →
  filter_sequences max_input_len max_output_len
    (map (λ '(prompt, completion),
            (prompt, tokenizer prompt,
             Z.of_nat (length (tokenizer completion)))) turns) = [].
Proof.
  induction 1 as [|[prompt completion] turns Hpruned _ IH]; [reflexivity|].
  cbn [map filter_sequences]. unfold pruned in Hpruned.
  cbn [fst snd] in Hpruned.
  destruct (Z.of_nat (length (tokenizer prompt)) <? MIN_SEQ_LEN);
    [exact IH|].
  destruct (Z.of_nat (length (tokenizer completion)) <? MIN_SEQ_LEN);
    [exact IH|].
  cbn [orb] in Hpruned |- *. rewrite Hpruned. exact IH.
Qed.

(** C3, as amended: when the dataset has conversations of two turns and
    the length filter prunes every one of them, [get_filtered_dataset]
    returns the empty list as a value, without an error; with a valid
    traffic split the run then ends with the [IndexError] that the first
    draw of [generate_next_request] from the empty pool raises, whatever
    [num_prompts] is, before any task is created. *)
Theorem empty_pool_index_error (np : numpy) (tokenizer : string → list Z)
    (tokenizer_decode : list Z → string) (json_loads : string → option json)
    (fuel : nat) (a : args) (models : list string)
    (traffic_split : option (list Q)) (w : world)
    (inst : option AsyncRequestCounter) :
  use_dummy_text a = false →
  first_two_turns (dataset a) ≠ [] →
  Forall (λ t, pruned tokenizer (max_input_length a) (max_output_length a) t
               = true)
         (first_two_turns (dataset a)) →
  is_ok (traffic_config models traffic_split) = true →
  get_filtered_dataset tokenizer tokenizer_decode (dataset a)
    (max_input_length a) (max_output_length a) (use_dummy_text a) = []
  ∧ (∀ model_names model_weights rnd remaining k now,
       emit [] (request_rate a) model_names model_weights rnd remaining k now
       = Raise IndexError)
  ∧ benchmark np tokenizer tokenizer_decode json_loads fuel a models
              traffic_split w inst = Raise IndexError.
Proof.
  intros Hdummy _ Hpruned Hconfig.
  assert (Hpool : get_filtered_dataset tokenizer tokenizer_decode (dataset a)
            (max_input_length a) (max_output_length a) (use_dummy_text a)
            = []).
  { unfold get_filtered_dataset. rewrite Hdummy.
    now apply filter_sequences_pruned. }
  assert (Hemit : ∀ model_names model_weights rnd remaining k now,
            emit [] (request_rate a) model_names model_weights rnd remaining
                 k now = Raise IndexError).
  { intros model_names model_weights rnd remaining k now.
    destruct remaining; reflexivity. }
  split; [exact Hpool|]. split; [exact Hemit|].
  unfold benchmark. rewrite Hpool.
  destruct (traffic_config models traffic_split) as [[names weights]| |];
    try discriminate.
  cbn [bind]. rewrite Hemit. reflexivity.
Qed.

(** The only conversation of [starved_args] has two turns of two
    characters, below [MIN_SEQ_LEN]. *)
Lemma empty_pool_index_error_witness :
  Inputs.starved_run = Raise IndexError.
Proof.
  apply (empty_pool_index_error Examples.np_rational Examples.char_tokenizer
           Examples.char_decode Examples.text_loads 5 Inputs.starved_args
           ["A"] None Inputs.one_answer None).
  - reflexivity.
  - discriminate.
  - repeat constructor.
  - reflexivity.
Defined.

(** C3, as stated, fails: the only conversation of [starved_args], of
    two turns, is tokenized and then pruned as too short;
    [get_filtered_dataset] returns the empty pool as a value,
    the traffic split is accepted, and the run ends in the emission loop,
    with the [IndexError] of the draw from the empty pool. *)
Lemma empty_pool_is_returned :
  get_filtered_dataset Examples.char_tokenizer Examples.char_decode
    (dataset Inputs.starved_args) (max_input_length Inputs.starved_args)
    (max_output_length Inputs.starved_args)
    (use_dummy_text Inputs.starved_args) = []
  ∧ first_two_turns (dataset Inputs.starved_args) = [("hi", "yo")]
  ∧ is_ok (traffic_config ["A"] None) = true
  ∧ emit [] Infinity ["A"] [1%Q] Inputs.steady 2 0 0 = Raise IndexError
  ∧ Inputs.starved_run = Raise IndexError.
Proof. vm_compute. repeat split. Qed.

(** ** The counter of queries per second in the streaming mode *)

Lemma gather_stream (tokenizer : string → list Z)
    (json_loads : string → option json) (fuel : nat) (a : args)
    (network : nat → wire) (tasks : list emission) :
  stream_request a = true →
  ∀ k inst results posts inst',
  gather tokenizer json_loads fuel a network tasks k inst
  = Ok (results, posts, inst') →
  inst' = inst.
Proof.
  intros Hstream. induction tasks as [|e tasks IH];
    intros k inst results posts inst' H; simpl in H.
  - now injection H as _ _ <-.
  - apply bind_Ok in H as ([[[model res] p] inst1] & Hone & H).
    apply bind_Ok in H as ([[rs p'] inst2] & Hrest & [= _ _ <-]).
    apply IH in Hrest as ->.
    unfold run_single_request in Hone. rewrite Hstream in Hone.
    destruct (em_request e) as [[prompt prompt_len] output_len].
    apply bind_Ok in Hone as (r & _ & [= _ _ _ <-]). reflexivity.
Qed.

Lemma stream_run_never_reports (np : numpy) (tokenizer : string → list Z)
    (tokenizer_decode : list Z → string) (json_loads : string → option json)
    (fuel : nat) (a : args) (models : list string)
    (traffic_split : option (list Q)) (w : world) (r : run) :
  stream_request a = true →
  benchmark np tokenizer tokenizer_decode json_loads fuel a models
            traffic_split w None ≠ Ok r.
Proof.
  intros Hstream H.
  destruct (benchmark_Ok _ _ _ _ _ _ _ _ _ _ _ H)
    as (model_names & model_weights & inst1 & weighted & inst2 & per_model
        & _ & _ & Hgather & _ & Hweighted & _).
  apply (gather_stream _ _ _ _ _ _ Hstream) in Hgather as ->.
  destruct (print_and_save_result_Ok _ _ _ _ _ _ _ _ _ Hweighted)
    as (_ & _ & _ & _ & Hqps).
  discriminate Hqps.
Qed.

(** Without the streaming mode the counter is fed by every post: a run in
    which every request fails to connect ends with its reports, the two
    posts giving 4 queries per second over the half second that the
    counter measured. *)
Lemma refused_run_reports :
  queries_per_second ∘ saved <$> report_of Inputs.refused_run "weighted"
  = Some 4%Q
  ∧ num_prompts_succeeded ∘ saved <$> report_of Inputs.refused_run "weighted"
    = Some 0.
Proof. vm_compute. repeat split. Qed.

(** C2 does not hold of the code: a run in the streaming mode, with one
    request that is answered, ends with the [AttributeError] of [get_qps]
    when the "weighted" bucket is reported, because no request of the
    streaming mode runs [on_request_start] and [_end_time] is never set. *)
Theorem stream_run_raises_attribute_error :
  Inputs.stream_run = Raise (AttributeError "_end_time").
Proof. vm_compute. reflexivity. Qed.

(** * Further properties of the code *)

(** ** The request counter *)

Lemma increments_snoc (c : AsyncRequestCounter) (times : list Q) (t : Q) :
  increments c (times ++ [t]) = increment (increments c times) t.
Proof. unfold increments. now rewrite foldl_snoc. Qed.

Lemma target_time_snoc (target : Z) (times : list Q) (t : Q) :
  target_time target (times ++ [t])
  = if decide (Z.of_nat (length times) + 1 = target) then Some t
    else target_time target times.
Proof.
  unfold target_time. rewrite length_app. cbn [length].
  destruct (decide (Z.of_nat (length times) + 1 = target)) as [<-|Hne].
  - rewrite decide_True by lia.
    replace (Z.to_nat (Z.of_nat (length times) + 1 - 1)) with (length times)
      by lia.
    rewrite lookup_app_r by lia. now rewrite Nat.sub_diag.
  - destruct (decide (1 ≤ target ≤ Z.of_nat (length times))) as [Hin|Hout].
    + rewrite decide_True by lia. apply lookup_app_l. lia.
    + rewrite decide_False by lia. reflexivity.
Qed.

(** X1: after any number of increments of the counter of a run, the count
    is the number of increments and the start time is unchanged; the end
    time is set exactly when the count has reached the target, to the
    clock of the increment that reached it, and later increments leave it
    alone; [get_qps] then divides the whole count, not the target, by the
    time between start and end, and raises [AttributeError] as long as the
    target is not reached. *)
Theorem counter_after_increments (target : Z) (start : Q) (times : list Q) :
  let c := increments (fresh_counter target start) times in
  _count c = Z.of_nat (length times)
  ∧ _start_time c = start
  ∧ _target_requests c = Some target
  ∧ _end_time c = target_time target times
  ∧ get_qps c
    = match target_time target times with
      | Some e => py_div (inject_Z (Z.of_nat (length times))) (e - start)%Q
      | None => Raise (AttributeError "_end_time")
      end.
Proof.
  cbn zeta.
  assert (_count (increments (fresh_counter target start) times)
          = Z.of_nat (length times)
          ∧ _start_time (increments (fresh_counter target start) times) = start
          ∧ _target_requests (increments (fresh_counter target start) times)
            = Some target
          ∧ _end_time (increments (fresh_counter target start) times)
            = target_time target times) as (Hcount & Hstart & Htarget & Hend).
  { induction times as [|t times IH] using rev_ind.
    - repeat split. unfold target_time. cbn [length].
      now rewrite decide_False by lia.
    - destruct IH as (Hcount & Hstart & Htarget & Hend).
      rewrite increments_snoc, target_time_snoc, length_app. cbn [length].
      unfold increment.
      cbn [_count _start_time _target_requests _end_time].
      rewrite Hcount, Hstart, Htarget, Hend.
      split; [lia|]. split; [reflexivity|]. split; [reflexivity|].
      destruct (decide (Z.of_nat (length times) + 1 = target)) as [<-|Hne].
      + now rewrite decide_True.
      + rewrite decide_False by congruence. reflexivity. }
  repeat (split; [assumption|]).
  unfold get_qps. rewrite Hend, Hcount, Hstart. reflexivity.
Qed.

Lemma hooks_Some (server : nat → attempt) (n : nat) :
  ∀ (k : nat) (c : AsyncRequestCounter),
  hooks server k n (Some c)
  = Some (increments c (map (λ j, t_start (server j)) (seq k n))).
Proof.
  induction n as [|n IH]; intros k c; [reflexivity|].
  cbn [hooks seq map]. unfold on_request_start at 1.
  cbn [AsyncRequestCounter_new]. now rewrite IH.
Qed.

Lemma resend_loop_posts (fuel : nat) (server : nat → attempt) :
  ∀ (k : nat) (inst inst' : option AsyncRequestCounter) (exit : loop_exit)
    (posts : nat),
  resend_loop fuel server k inst = Ok (exit, posts, inst') →
  (k < posts)%nat ∧ inst' = hooks server k (posts - k) inst.
Proof.
  induction fuel as [|fuel IH]; intros k inst inst' exit posts H;
    [discriminate|].
  cbn [resend_loop] in H.
  assert (Hone : hooks server k (S k - k) inst
                 = on_request_start inst (t_start (server k))).
  { replace (S k - k)%nat with 1%nat by lia. reflexivity. }
  destruct (answer (server k)) as [e|body].
  - rewrite failure_eq in H. injection H as _ <- <-. split; [lia|].
    now rewrite Hone.
  - destruct (json_contains "error" body) as [[|]|e|].
    + apply IH in H as [Hlt ->]. split; [lia|].
      replace (posts - k)%nat with (S (posts - S k)) by lia. reflexivity.
    + injection H as _ <- <-. split; [lia|]. now rewrite Hone.
    + rewrite failure_eq in H. injection H as _ <- <-. split; [lia|].
      now rewrite Hone.
    + rewrite failure_eq in H. injection H as _ <- <-. split; [lia|].
      now rewrite Hone.
Qed.

Lemma increments_fields (times : list Q) :
  ∀ c : AsyncRequestCounter,
  _count (increments c times) = _count c + Z.of_nat (length times)
  ∧ _start_time (increments c times) = _start_time c
  ∧ _target_requests (increments c times) = _target_requests c.
Proof.
  induction times as [|t times IH] using rev_ind; intros c.
  - cbn. repeat split. lia.
  - rewrite increments_snoc, length_app. cbn [length].
    destruct (IH c) as (Hcount & Hstart & Htarget).
    unfold increment. cbn [_count _start_time _target_requests].
    rewrite Hcount, Hstart, Htarget. repeat split. lia.
Qed.

Lemma resend_loop_bound (fuel : nat) (server : nat → attempt) :
  ∀ (k : nat) (inst inst' : option AsyncRequestCounter) (exit : loop_exit)
    (posts : nat),
  resend_loop fuel server k inst = Ok (exit, posts, inst') →
  (posts ≤ k + fuel)%nat.
Proof.
  induction fuel as [|fuel IH]; intros k inst inst' exit posts H;
    [discriminate|].
  cbn [resend_loop] in H.
  destruct (answer (server k)) as [e|body].
  - rewrite failure_eq in H. injection H as _ <- _. lia.
  - destruct (json_contains "error" body) as [[|]|e|].
    + apply IH in H. lia.
    + injection H as _ <- _. lia.
    + rewrite failure_eq in H. injection H as _ <- _. lia.
    + rewrite failure_eq in H. injection H as _ <- _. lia.
Qed.

(** X2: every post of [send_request] is counted once by the counter of the
    run, the resends and the post that fails included: when the request
    returns after [posts] posts, with an outcome or with a failure, there
    was at least one post, and the counter has been incremented once at the
    start of each, so that its count has grown by [posts]; its start time
    and its target are unchanged. *)
Theorem send_request_counts_posts (tokenizer : string → list Z) (fuel : nat)
    (backend : string) (prompt_len output_len : Z) (use_beam_search : bool)
    (x : exchange) (c : AsyncRequestCounter) (res : request_result)
    (posts : nat) (inst' : option AsyncRequestCounter) :
  send_request tokenizer fuel backend prompt_len output_len use_beam_search
               x (Some c) = Ok (res, posts, inst') →
  (1 ≤ posts ≤ fuel)%nat
  ∧ inst' = Some (increments c (post_times (server x) 0 posts))
  ∧ ∃ c', inst' = Some c'
          ∧ _count c' = _count c + Z.of_nat posts
          ∧ _start_time c' = _start_time c
          ∧ _target_requests c' = _target_requests c.
Proof.
  unfold send_request. intros H.
  apply bind_Ok in H as (_ & _ & H).
  apply bind_Ok in H as ([[exit p] i] & Hloop & H).
  apply bind_Ok in H as (r & _ & [= _ <- <-]).
  pose proof (resend_loop_bound _ _ _ _ _ _ _ Hloop) as Hfuel.
  apply resend_loop_posts in Hloop as [Hlt ->].
  rewrite Nat.sub_0_r, hooks_Some. fold (post_times (server x) 0 p).
  split; [lia|]. split; [reflexivity|].
  eexists. split; [reflexivity|].
  destruct (increments_fields (post_times (server x) 0 p) c)
    as (Hcount & Hstart & Htarget).
  unfold post_times in Hcount at 2. rewrite length_map, length_seq in Hcount.
  auto.
Qed.

(** The request of [busy_exchange] takes three posts. *)
Lemma send_request_counts_posts_witness :
  ∃ c', hooks Inputs.busy_server 0 3 (Some (fresh_counter 2 0)) = Some c'
        ∧ _count c' = 0 + 3.
Proof.
  destruct (send_request_counts_posts Examples.char_tokenizer 5 "jetstream"
              4 8 false Inputs.busy_exchange (fresh_counter 2 0)
              (success_result 4 2 7 None None) 3
              (hooks Inputs.busy_server 0 3 (Some (fresh_counter 2 0))))
    as (_ & _ & c' & Hc' & Hcount & _).
  - reflexivity.
  - exists c'. split; [exact Hc' | exact Hcount].
Defined.

(** ** The request pool *)

Lemma first_two_turns_in (dataset : list (list string)) (p c : string) :
  (p, c) ∈ first_two_turns dataset
  ↔ ∃ turns, (p :: c :: turns) ∈ dataset.
Proof.
  induction dataset as [|conv dataset IH].
  - split; [intros H; inversion H | intros [turns H]; inversion H].
  - assert (Hrest : (∃ turns, (p :: c :: turns) ∈ conv :: dataset)
                    ↔ (∃ turns, conv = p :: c :: turns)
                      ∨ ∃ turns, (p :: c :: turns) ∈ dataset).
    { split.
      - intros [turns [?|?]%elem_of_cons]; subst; eauto.
      - intros [[turns ->]|[turns H]]; exists turns;
          [apply list_elem_of_here | now apply list_elem_of_further]. }
    rewrite Hrest, <- IH.
    destruct conv as [|t0 [|t1 turns]]; cbn [first_two_turns].
    + split; [auto | intros [[turns [=]]|H]; exact H].
    + split; [auto | intros [[turns [=]]|H]; exact H].
    + rewrite elem_of_cons. split.
      * intros [[= -> ->]|H]; eauto.
      * intros [[turns' [= <- <- _]]|H]; auto.
Qed.

Lemma filter_sequences_in (max_input_len max_output_len : Z)
    (tokenized : list (string * list Z * Z)) (p : string) (pl ol : Z) :
  (p, pl, ol) ∈ filter_sequences max_input_len max_output_len tokenized
  ↔ ∃ ids, (p, ids, ol) ∈ tokenized ∧ pl = Z.of_nat (length ids)
           ∧ MIN_SEQ_LEN ≤ pl ≤ max_input_len
           ∧ MIN_SEQ_LEN ≤ ol ≤ max_output_len.
Proof.
  induction tokenized as [|[[p0 ids0] ol0] tokenized IH].
  - split; [intros H; inversion H | intros (ids & H & _); inversion H].
  - assert (Hrest :
      (∃ ids, (p, ids, ol) ∈ (p0, ids0, ol0) :: tokenized
              ∧ pl = Z.of_nat (length ids)
              ∧ MIN_SEQ_LEN ≤ pl ≤ max_input_len
              ∧ MIN_SEQ_LEN ≤ ol ≤ max_output_len)
      ↔ (p = p0 ∧ ol = ol0 ∧ pl = Z.of_nat (length ids0)
         ∧ MIN_SEQ_LEN ≤ pl ≤ max_input_len
         ∧ MIN_SEQ_LEN ≤ ol ≤ max_output_len)
        ∨ (p, pl, ol) ∈ filter_sequences max_input_len max_output_len
                                         tokenized).
    { rewrite IH. split.
      - intros (ids & [[= -> -> ->]|Hin]%elem_of_cons & Hrest); [left|right];
          eauto.
      - intros [(-> & -> & Hrest)|(ids & Hin & Hrest)].
        + exists ids0. split; [apply list_elem_of_here | exact Hrest].
        + exists ids. split; [now apply list_elem_of_further | exact Hrest]. }
    rewrite Hrest. cbn [filter_sequences].
    destruct ((Z.of_nat (length ids0) <? MIN_SEQ_LEN) || (ol0 <? MIN_SEQ_LEN))
      eqn:Hshort.
    { apply orb_true_iff in Hshort. split; [auto|].
      intros [(-> & -> & -> & H1 & H2)|H]; [|exact H].
      destruct Hshort as [H%Z.ltb_lt|H%Z.ltb_lt]; lia. }
    apply orb_false_iff in Hshort as [H1%Z.ltb_ge H2%Z.ltb_ge].
    destruct ((max_input_len <? Z.of_nat (length ids0))
              || (max_output_len <? ol0)) eqn:Hlong.
    { apply orb_true_iff in Hlong. split; [auto|].
      intros [(-> & -> & -> & H3 & H4)|H]; [|exact H].
      destruct Hlong as [H%Z.ltb_lt|H%Z.ltb_lt]; lia. }
    apply orb_false_iff in Hlong as [H3%Z.ltb_ge H4%Z.ltb_ge].
    rewrite elem_of_cons. split.
    + intros [[= -> -> ->]|H]; [left|right; exact H].
      repeat split; lia.
    + intros [(-> & -> & -> & _)|H]; [left; reflexivity | right; exact H].
Qed.

(** X3: without [--use-dummy-text] the pool holds an entry
    [(prompt, prompt_len, output_len)] exactly when the dataset has a
    conversation of at least two turns whose first turn is the prompt,
    [prompt_len] is the number of tokens of the prompt and [output_len]
    the number of tokens of the second turn, and both lengths are at least
    [MIN_SEQ_LEN] = 4 and at most the maximum given for them. *)
Theorem filtered_dataset_entries (tokenizer : string → list Z)
    (tokenizer_decode : list Z → string) (dataset : list (list string))
    (max_input_len max_output_len : Z) (prompt : string)
    (prompt_len output_len : Z) :
  (prompt, prompt_len, output_len)
    ∈ get_filtered_dataset tokenizer tokenizer_decode dataset max_input_len
                           max_output_len false
  ↔ ∃ completion turns,
      (prompt :: completion :: turns) ∈ dataset
      ∧ prompt_len = Z.of_nat (length (tokenizer prompt))
      ∧ output_len = Z.of_nat (length (tokenizer completion))
      ∧ 4 ≤ prompt_len ≤ max_input_len
      ∧ 4 ≤ output_len ≤ max_output_len.
Proof.
  unfold get_filtered_dataset. rewrite filter_sequences_in. split.
  - intros (ids & Hin & Hpl & Hb1 & Hb2).
    apply list_elem_of_fmap in Hin as ([p c] & [= -> -> ->] & Hin).
    apply first_two_turns_in in Hin as [turns Hin].
    exists c, turns. auto.
  - intros (c & turns & Hin & -> & -> & Hb1 & Hb2).
    exists (tokenizer prompt). split; [|auto].
    apply list_elem_of_fmap. exists (prompt, c). split; [reflexivity|].
    apply first_two_turns_in. eauto.
Qed.

(** ** The emission loop *)

Lemma random_choice_in {A} (raw : nat) (seq : list A) (x : A) :
  random_choice raw seq = Ok x → x ∈ seq.
Proof.
  unfold random_choice.
  destruct (seq !! (raw `mod` length seq)%nat) as [y|] eqn:Hy; [|discriminate].
  intros [= <-]. eapply list_elem_of_lookup_2. exact Hy.
Qed.

Lemma emit_requests (input_requests : list request) (request_rate : rate)
    (model_names : list string) (model_weights : list Q) (rnd : randomness)
    (remaining : nat) :
  ∀ (k : nat) (now : Q) (l : list emission),
  emit input_requests request_rate model_names model_weights rnd
       remaining k now = Ok l →
  ∀ e, e ∈ l → em_request e ∈ input_requests.
Proof.
  induction remaining as [|remaining IH]; intros k now l H; simpl in H.
  - apply bind_Ok in H as (_ & _ & [= <-]). intros e He. inversion He.
  - apply bind_Ok in H as (req & Hreq & H).
    apply bind_Ok in H as (model & _ & H).
    apply bind_Ok in H as (interval & _ & H).
    apply bind_Ok in H as (rest & Hrest & [= <-]).
    intros e He. apply elem_of_cons in He as [->|He].
    + cbn [em_request]. eapply random_choice_in. exact Hreq.
    + eapply IH; eassumption.
Qed.

(** X4: when the emission loop comes to its end, it has created exactly
    as many tasks as it was asked for (the emission cap), each for an
    entry of the pool and for one of the configured models. *)
Theorem emission_cap (input_requests : list request) (request_rate : rate)
    (model_names : list string) (model_weights : list Q) (rnd : randomness)
    (remaining k : nat) (now : Q) (l : list emission) :
  emit input_requests request_rate model_names model_weights rnd
       remaining k now = Ok l →
  length l = remaining
  ∧ ∀ e, e ∈ l → em_request e ∈ input_requests ∧ em_model e ∈ model_names.
Proof.
  intros H. split; [eapply emit_length; exact H|].
  intros e He. split.
  - eapply emit_requests; eassumption.
  - eapply emit_models; eassumption.
Qed.

(** Two requests from the pool of one entry, at the rate 2. *)
Lemma emission_cap_witness :
  length Cases.two_emissions = 2%nat
  ∧ ∀ e, e ∈ Cases.two_emissions →
      em_request e ∈ Inputs.small_pool ∧ em_model e ∈ ["A"].
Proof.
  apply (emission_cap Inputs.small_pool (Finite 2) ["A"] [1%Q] Inputs.steady
           2 0 0%Q).
  reflexivity.
Defined.

(** X5: a rate that is not positive is found out only when the generator
    is resumed after a request: with at least one request to emit, the
    emission loop ends with [ZeroDivisionError] for the rate 0 and with the
    [ValueError] of [np.random.exponential] for a negative rate; with no
    request to emit the rate is not looked at and the loop ends normally. *)
Theorem emission_with_bad_rate (input_requests : list request) (r : Q)
    (model_names : list string) (model_weights : list Q) (rnd : randomness)
    (remaining k : nat) (now : Q) :
  input_requests ≠ [] → model_names ≠ [] →
  length model_weights = length model_names → (0 < Qsum model_weights)%Q →
  (r <= 0)%Q →
  emit input_requests (Finite r) model_names model_weights rnd 0 k now = Ok []
  ∧ emit input_requests (Finite r) model_names model_weights rnd
         (S remaining) k now
    = Raise (if Qeq_bool r 0 then ZeroDivisionError
             else ValueError "scale < 0").
Proof.
  intros Hpool Hnames Hlen Hpos Hr.
  destruct (random_choice_Ok (rng_choice rnd k) input_requests Hpool)
    as (req & Hreq & _).
  split; [cbn [emit]; rewrite Hreq; reflexivity|].
  cbn [emit]. rewrite Hreq. cbn [bind].
  destruct (random_choices_Ok (rng_random rnd k) model_names model_weights
              Hnames Hlen Hpos) as (model & -> & _).
  cbn [bind]. unfold inter_arrival, py_div.
  destruct (Qeq_bool r 0) eqn:Hz; [reflexivity|].
  cbn [bind].
  assert (Qle_bool 0 (1 / r) = false) as ->; [|reflexivity].
  apply Qeq_bool_neq in Hz.
  destruct (Qle_bool 0 (1 / r)) eqn:Hle; [|reflexivity].
  apply Qle_bool_iff in Hle. exfalso.
  assert (r < 0)%Q as Hneg.
  { apply Qle_lteq in Hr as [H|H]; [exact H | contradiction]. }
  apply (Qlt_not_le (1 / r) 0); [|exact Hle].
  unfold Qdiv. rewrite Qmult_1_l.
  destruct r as [[|p|p] d]; try (now inversion Hneg).
Qed.

(** The rate 0 with one request to emit. *)
Lemma emission_with_bad_rate_witness :
  emit Inputs.small_pool (Finite 0) ["A"] [1%Q] Inputs.steady 1 0 0
  = Raise ZeroDivisionError.
Proof.
  destruct (emission_with_bad_rate Inputs.small_pool 0 ["A"] [1%Q]
              Inputs.steady 0 0 0%Q) as [_ H].
  - discriminate.
  - discriminate.
  - reflexivity.
  - reflexivity.
  - discriminate.
  - exact H.
Defined.

(** ** The models of a run *)

Lemma traffic_config_Ok (models : list string)
    (traffic_split : option (list Q)) (names : list string)
    (weights : list Q) :
  traffic_config models traffic_split = Ok (names, weights) →
  ∃ W, length W = length models
       ∧ (Qabs (Qsum W - 1) <= 1 # 1000000)%Q
       ∧ match traffic_split with
         | Some W' => W = W'
         | None => W = replicate (length models)
                         (1 / inject_Z (Z.of_nat (length models)))%Q
         end
       ∧ names = (dict_zip models W).*1
       ∧ weights = (dict_zip models W).*2.
Proof.
  unfold traffic_config. intros H.
  apply bind_Ok in H as (W & HW & H). exists W.
  destruct (length models =? length W)%nat eqn:Hlen; [|discriminate].
  apply Nat.eqb_eq in Hlen. cbn [negb] in H.
  destruct (Qle_bool (Qabs (Qsum W - 1)) (1 # 1000000)) eqn:Hsum;
    [|discriminate].
  apply Qle_bool_iff in Hsum. injection H as <- <-.
  split; [auto|]. split; [exact Hsum|]. split; [|auto].
  destruct traffic_split as [W'|].
  - now injection HW.
  - apply bind_Ok in HW as (w & Hw & [= <-]).
    apply py_div_inv in Hw as ->. reflexivity.
Qed.

(** X6: when the configuration of the traffic split succeeds, there is
    at least one model, the model names handed to the selector are the
    given models without repetition, and there are as many weights as
    names; when no model is given twice, the names are the given list and
    the weights are the given split, or the uniform split when none was
    given. *)
Theorem traffic_config_names (models : list string)
    (traffic_split : option (list Q)) (names : list string)
    (weights : list Q) :
  traffic_config models traffic_split = Ok (names, weights) →
  names ≠ []
  ∧ NoDup names
  ∧ (∀ m, m ∈ names ↔ m ∈ models)
  ∧ length weights = length names
  ∧ (NoDup models →
     names = models
     ∧ match traffic_split with
       | Some W => weights = W
       | None => weights = replicate (length models)
                             (1 / inject_Z (Z.of_nat (length models)))%Q
       end).
Proof.
  intros H.
  destruct (traffic_config_Ok _ _ _ _ H) as (W & Hlen & Hsum & HW & -> & ->).
  assert (Hkeys : (zip models W).*1 = models)
    by (apply fst_zip; lia).
  destruct (dict_zip_from_keys (zip models W) [] (NoDup_nil_2))
    as [Hnd Hin].
  fold (dict_zip models W) in Hnd, Hin.
  assert (Hmem : ∀ m, m ∈ (dict_zip models W).*1 ↔ m ∈ models).
  { intros m. rewrite Hin, Hkeys, fmap_nil. split; [intros [H'|H']|auto];
      [inversion H' | exact H']. }
  split.
  { destruct models as [|m models].
    - destruct W; [|discriminate]. exfalso.
      apply (Qle_not_lt _ _ Hsum). reflexivity.
    - intros Hnil. specialize (Hmem m). rewrite Hnil in Hmem.
      destruct Hmem as [_ Hmem].
      specialize (Hmem (list_elem_of_here _ _)). inversion Hmem. }
  split; [exact Hnd|]. split; [exact Hmem|].
  split; [now rewrite !length_fmap|].
  intros Hmodels.
  assert (dict_zip models W = zip models W) as Hzip.
  { unfold dict_zip. rewrite dict_zip_from_fresh; [reflexivity| |].
    - now rewrite Hkeys.
    - intros k _ Hk. inversion Hk. }
  rewrite Hzip, Hkeys. split; [reflexivity|].
  assert ((zip models W).*2 = W) as -> by (apply snd_zip; lia).
  destruct traffic_split; exact HW.
Qed.

(** The models A and B with the split 0.9 and 0.1. *)
Lemma traffic_config_names_witness :
  NoDup ["A"; "B"]
  ∧ length [9 # 10; 1 # 10]%Q = length ["A"; "B"].
Proof.
  destruct (traffic_config_names ["A"; "B"] (Some [9 # 10; 1 # 10]%Q)
              ["A"; "B"] [9 # 10; 1 # 10]%Q)
    as (_ & Hnd & _ & Hlen & _).
  - reflexivity.
  - split; [exact Hnd | exact Hlen].
Defined.

(** ** How a request without streaming ends *)

(** X7: an exception of the transport is never retried: when the post
    number [n] of a request raises an exception of class [e], after soft
    failures on the posts before it, [send_request] returns after that
    post the tuple without latency whose errors dict counts 1 for the
    class [e] and 0 for each of the five other classes. *)
Theorem transport_failure_ends_request (tokenizer : string → list Z)
    (fuel : nat) (backend : string) (prompt_len output_len : Z)
    (use_beam_search : bool) (x : exchange)
    (inst : option AsyncRequestCounter) (n : nat) (e : transport_exn) :
  request_pload backend use_beam_search = Ok () →
  (∀ k, (k < n)%nat → is_soft_failure (answer (server x k)) = true) →
  answer (server x n) = Raised e → (n < fuel)%nat →
  ∃ res inst',
    send_request tokenizer fuel backend prompt_len output_len
                 use_beam_search x inst = Ok (res, S n, inst')
    ∧ res_latency res = None ∧ res_ttft res = None ∧ res_itl res = None
    ∧ ∃ m, res_errors res = Some m
           ∧ ∀ e', m !! errors_key e' = Some (if decide (e' = e) then 1 else 0).
Proof.
  intros Hpload Hsoft Hn Hfuel.
  exists (failure_result e), (hooks (server x) 0 (S n) inst).
  split.
  { rewrite (send_request_settled tokenizer fuel backend prompt_len
               output_len use_beam_search x inst n Hpload Hsoft);
      [|now rewrite Hn|exact Hfuel].
    rewrite Hn. cbn [settle]. rewrite failure_eq. reflexivity. }
  split; [reflexivity|]. split; [reflexivity|]. split; [reflexivity|].
  eexists. split; [reflexivity|].
  intros e'. destruct e, e'; reflexivity.
Qed.

(** The server of [refused_exchange] refuses the connection. *)
Lemma transport_failure_ends_request_witness :
  ∃ res inst',
    send_request Examples.char_tokenizer 5 "vllm" 4 8 false
                 Inputs.refused_exchange None = Ok (res, 1%nat, inst')
    ∧ res_latency res = None ∧ res_ttft res = None ∧ res_itl res = None
    ∧ ∃ m, res_errors res = Some m
           ∧ ∀ e', m !! errors_key e'
                   = Some (if decide (e' = ClientConnectorError) then 1 else 0).
Proof.
  apply (transport_failure_ends_request Examples.char_tokenizer 5 "vllm" 4 8
           false Inputs.refused_exchange None 0 ClientConnectorError).
  - reflexivity.
  - intros k Hk. lia.
  - reflexivity.
  - lia.
Defined.

(** X8: a decoded body that is neither a dict, a list nor a string (a
    number, a boolean or null) makes the test ["error" not in output]
    raise inside the [try]: the request is not sent again and is counted
    as one [unknown_error]. *)
Theorem not_iterable_body_is_unknown_error (tokenizer : string → list Z)
    (fuel : nat) (backend : string) (prompt_len output_len : Z)
    (use_beam_search : bool) (x : exchange)
    (inst : option AsyncRequestCounter) (n : nat) (body : json) :
  request_pload backend use_beam_search = Ok () →
  (∀ k, (k < n)%nat → is_soft_failure (answer (server x k)) = true) →
  answer (server x n) = Body body → not_iterable body → (n < fuel)%nat →
  send_request tokenizer fuel backend prompt_len output_len use_beam_search
               x inst
  = Ok (failure_result OtherException, S n, hooks (server x) 0 (S n) inst).
Proof.
  intros Hpload Hsoft Hn Hbody Hfuel.
  assert (json_contains "error" body = Raise TypeError) as Hraise
    by (destruct body; try contradiction; reflexivity).
  rewrite (send_request_settled tokenizer fuel backend prompt_len
             output_len use_beam_search x inst n Hpload Hsoft);
    [|unfold is_soft_failure; now rewrite Hn, Hraise|exact Hfuel].
  unfold settle. rewrite Hn, Hraise, failure_eq. reflexivity.
Qed.

(** X9: for every backend but naive_transformers the output length of a
    successful request is the number of tokens of the text that the server
    returned, whatever output length was requested, and the latency is the
    time from the start of [send_request] to the end of the last
    exchange. *)
Theorem output_len_from_text (tokenizer : string → list Z) (fuel : nat)
    (backend : string) (prompt_len output_len : Z) (use_beam_search : bool)
    (x : exchange) (inst : option AsyncRequestCounter) (n : nat)
    (output : json) (text : string) :
  request_pload backend use_beam_search = Ok () →
  backend ≠ "naive_transformers" →
  (∀ k, (k < n)%nat → is_soft_failure (answer (server x k)) = true) →
  answer (server x n) = Body output →
  json_contains "error" output = Ok false →
  (n < fuel)%nat →
  generated_text backend output = Ok text →
  tokenizer text ≠ [] →
  send_request tokenizer fuel backend prompt_len output_len use_beam_search
               x inst
  = Ok (success_result prompt_len (Z.of_nat (length (tokenizer text)))
          (request_end_time_ms x - request_start_time_ms x)%Q None None,
        S n, hooks (server x) 0 (S n) inst).
Proof.
  intros Hpload Hnaive Hsoft Hn Herr Hfuel Htext Htok.
  rewrite (send_request_answered tokenizer fuel backend prompt_len
             output_len use_beam_search x inst n output Hpload Hsoft Hn
             Herr Hfuel).
  unfold after_loop.
  rewrite (decoded_output_len_text tokenizer backend use_beam_search output
             prompt_len output_len Hpload).
  rewrite Htext. cbn [bind].
  apply String.eqb_neq in Hnaive. rewrite Hnaive.
  unfold token_count.
  rewrite py_div_Ok; [reflexivity|].
  rewrite inject_Z_zero. destruct (tokenizer text); [congruence|].
  cbn [length]. lia.
Qed.

(** The answer [null]. *)
Lemma not_iterable_body_is_unknown_error_witness :
  send_request Examples.char_tokenizer 5 "tgi" 4 8 false
               Cases2.null_exchange None
  = Ok (failure_result OtherException, 1%nat,
        hooks (server Cases2.null_exchange) 0 1 None).
Proof.
  apply (not_iterable_body_is_unknown_error Examples.char_tokenizer 5 "tgi"
           4 8 false Cases2.null_exchange None 0 JNull).
  - reflexivity.
  - intros k Hk. lia.
  - reflexivity.
  - exact I.
  - lia.
Defined.

(** Eight tokens were asked for and the answer has two. *)
Lemma output_len_from_text_witness :
  send_request Examples.char_tokenizer 5 "jetstream" 4 8 false
               Inputs.prompt_exchange None
  = Ok (success_result 4 2 (7 - 0) None None, 1%nat,
        hooks (server Inputs.prompt_exchange) 0 1 None).
Proof.
  apply (output_len_from_text Examples.char_tokenizer 5 "jetstream" 4 8 false
           Inputs.prompt_exchange None 0 (Inputs.ok_body "ab") "ab").
  - reflexivity.
  - discriminate.
  - intros k Hk. lia.
  - reflexivity.
  - reflexivity.
  - lia.
  - reflexivity.
  - discriminate.
Defined.

(** ** The new text of naive_transformers *)

Lemma prefix_cons (a b : ascii) (s t : string) :
  String.prefix (String a s) (String b t)
  = if ascii_dec a b then String.prefix s t else false.
Proof. reflexivity. Qed.

Lemma prefix_append (s t : string) : String.prefix s (s +:+ t) = true.
Proof.
  induction s as [|a s IH]; [destruct t; reflexivity|].
  change (String a s +:+ t) with (String a (s +:+ t)).
  rewrite prefix_cons.
  destruct (ascii_dec a a); [exact IH | contradiction].
Qed.

Lemma find_from_eq (needle hay : string) (i : Z) :
  find_from needle hay i
  = if String.prefix needle hay then i
    else match hay with
         | EmptyString => -1
         | String _ hay' => find_from needle hay' (i + 1)
         end.
Proof. destruct hay; reflexivity. Qed.

Lemma find_from_first (needle post : string) (pre : string) :
  ∀ i : Z,
  (∀ j, (j < String.length pre)%nat →
        ¬ occurs_at needle (pre +:+ needle +:+ post) j) →
  find_from needle (pre +:+ needle +:+ post) i
  = i + Z.of_nat (String.length pre).
Proof.
  induction pre as [|c pre IH]; intros i Hfirst.
  - change (EmptyString +:+ needle +:+ post) with (needle +:+ post).
    rewrite find_from_eq, prefix_append. cbn [String.length Z.of_nat]. lia.
  - change (String c pre +:+ needle +:+ post)
      with (String c (pre +:+ needle +:+ post)) in *.
    rewrite find_from_eq.
    destruct (String.prefix needle (String c (pre +:+ needle +:+ post)))
      eqn:Hhere.
    + exfalso. apply (Hfirst O); [cbn [String.length]; lia | exact Hhere].
    + rewrite IH.
      * change (String.length (String c pre)) with (S (String.length pre)).
        lia.
      * intros j Hj. apply (Hfirst (S j)). cbn [String.length]. lia.
Qed.

Lemma find_from_none (needle : string) (hay : string) :
  ∀ i : Z,
  (∀ j, ¬ occurs_at needle hay j) → find_from needle hay i = -1.
Proof.
  induction hay as [|c hay IH]; intros i Hnone; rewrite find_from_eq.
  - destruct (String.prefix needle EmptyString) eqn:Hhere; [|reflexivity].
    exfalso. exact (Hnone O Hhere).
  - destruct (String.prefix needle (String c hay)) eqn:Hhere.
    + exfalso. exact (Hnone O Hhere).
    + apply IH. intros j. exact (Hnone (S j)).
Qed.

Lemma drop_chars_add (s t : string) (n : nat) :
  drop_chars (String.length s + n) (s +:+ t) = drop_chars n t.
Proof. induction s as [|c s IH]; [reflexivity | exact IH]. Qed.

(** X10: for naive_transformers the output length is the number of tokens
    of the text that follows the first occurrence of ["\nOutput:\n"] in the
    generated text, whatever comes before it, minus [prompt_len]; when the
    key does not occur, [find] gives -1 and the first 8 characters are
    dropped (they are taken to be ASCII, where a byte of the model is a
    character of Python), and the tokens of what is left are counted. *)
Theorem naive_transformers_new_text (tokenizer : string → list Z)
    (prompt_len output_len : Z) :
  (∀ pre post,
     (∀ j, (j < String.length pre)%nat →
           ¬ occurs_at NEW_TEXT_KEY (pre +:+ NEW_TEXT_KEY +:+ post) j) →
     decoded_output_len tokenizer "naive_transformers"
       (naive_body (pre +:+ NEW_TEXT_KEY +:+ post)) prompt_len output_len
     = Ok (Z.of_nat (length (tokenizer post)) - prompt_len))
  ∧ (∀ text,
       (∀ j, ¬ occurs_at NEW_TEXT_KEY text j) →
       ascii_head 8 text = true →
       decoded_output_len tokenizer "naive_transformers" (naive_body text)
         prompt_len output_len
       = Ok (Z.of_nat (length (tokenizer (drop_chars 8 text))) - prompt_len)).
Proof.
  split.
  - intros pre post Hfirst.
    unfold decoded_output_len, naive_body.
    cbn [String.eqb Ascii.eqb Bool.eqb get_item assoc get_first as_text bind].
    unfold find. rewrite find_from_first by exact Hfirst.
    replace (Z.to_nat (0 + Z.of_nat (String.length pre)
                       + Z.of_nat (String.length NEW_TEXT_KEY)))
      with (String.length pre + 9)%nat
      by (change (String.length NEW_TEXT_KEY) with 9%nat; lia).
    rewrite drop_chars_add. reflexivity.
  - intros text Hnone _.
    unfold decoded_output_len, naive_body.
    cbn [String.eqb Ascii.eqb Bool.eqb get_item assoc get_first as_text bind].
    unfold find. rewrite find_from_none by exact Hnone. reflexivity.
Qed.

(** The text "ab" after a prompt of two lines, and a text without the
    key. *)
Lemma naive_transformers_new_text_witness :
  decoded_output_len Examples.char_tokenizer "naive_transformers"
    (naive_body (String "q" (String "010" "r") +:+ NEW_TEXT_KEY +:+ "ab"))
    1 8 = Ok (2 - 1)
  ∧ decoded_output_len Examples.char_tokenizer "naive_transformers"
      (naive_body "0123456789") 1 8 = Ok (2 - 1).
Proof.
  destruct (naive_transformers_new_text Examples.char_tokenizer 1 8)
    as [H1 H2].
  split.
  - apply (H1 (String "q" (String "010" "r")) "ab").
    intros j Hj Hocc. unfold occurs_at in Hocc.
    destruct j as [|[|[|j]]]; [discriminate.. | cbn in Hj; lia].
  - apply (H2 "0123456789"); [|reflexivity].
    intros j Hocc. unfold occurs_at in Hocc.
    do 11 (destruct j as [|j]; [discriminate|]). discriminate.
Defined.

(** ** The chunks of a streamed answer *)

Lemma nonempty_chunks_cons (chunk_bytes : string) (t : Q)
    (chunks : list (string * Q)) :
  nonempty_chunks ((chunk_bytes, t) :: chunks)
  = if String.eqb chunk_bytes EmptyString then nonempty_chunks chunks
    else (chunk_bytes, t) :: nonempty_chunks chunks.
Proof.
  unfold nonempty_chunks. rewrite filter_cons. cbn [fst].
  destruct (String.eqb chunk_bytes EmptyString) eqn:Heq.
  - apply String.eqb_eq in Heq. now rewrite decide_False by tauto.
  - apply String.eqb_neq in Heq. now rewrite decide_True.
Qed.

Lemma stream_loop_nonempty (json_loads : string → option json)
    (backend : string) (start : Q) (chunks : list (string * Q)) :
  ∀ st,
  stream_loop json_loads backend start st chunks
  = stream_loop json_loads backend start st (nonempty_chunks chunks).
Proof.
  induction chunks as [|[chunk_bytes t] chunks IH]; intros st; [reflexivity|].
  rewrite nonempty_chunks_cons.
  destruct (String.eqb chunk_bytes EmptyString) eqn:Hempty.
  - cbn [stream_loop]. unfold stream_step. rewrite Hempty. apply IH.
  - cbn [stream_loop]. unfold stream_step. rewrite Hempty.
    destruct (chunk_text json_loads backend chunk_bytes); cbn [bind];
      [apply IH | reflexivity | reflexivity].
Qed.

(** X11: the chunks that are empty after stripping have no effect on a
    streamed request: the request ends as it does on the stream without
    them. *)
Theorem empty_chunks_are_ignored (tokenizer : string → list Z)
    (json_loads : string → option json) (backend : string) (prompt_len : Z)
    (x : stream_exchange) :
  send_stream_request tokenizer json_loads backend prompt_len x
  = send_stream_request tokenizer json_loads backend prompt_len
      (with_chunks x (nonempty_chunks (s_chunks x))).
Proof.
  unfold send_stream_request.
  cbn [with_chunks s_start_time_ms s_chunks s_raised s_request_end_time_ms
       s_request_start_time_ms].
  now rewrite <- stream_loop_nonempty.
Qed.

Lemma stream_loop_running (json_loads : string → option json)
    (backend : string) (start : Q) (chunks : list (string * Q)) :
  ∀ st st',
  ¬ (ttft_ms st == 0)%Q →
  stream_loop json_loads backend start st chunks = Ok st' →
  ttft_ms st' = ttft_ms st
  ∧ itl_ms st'
    = itl_ms st ++ gaps (most_recent_timestamp st) (nonempty_chunks chunks).*2.
Proof.
  induction chunks as [|[chunk_bytes t] chunks IH]; intros st st' Hrun H.
  - injection H as <-. split; [reflexivity|]. cbn. now rewrite app_nil_r.
  - rewrite nonempty_chunks_cons. cbn [stream_loop] in H.
    unfold stream_step in H.
    destruct (String.eqb chunk_bytes EmptyString); cbn [bind] in H;
      [now apply IH|].
    assert (Qeq_bool (ttft_ms st) 0 = false) as Hfalse.
    { destruct (Qeq_bool (ttft_ms st) 0) eqn:E; [|reflexivity].
      apply Qeq_bool_iff in E. contradiction. }
    rewrite Hfalse in H.
    destruct (chunk_text json_loads backend chunk_bytes) as [text| |];
      cbn [bind] in H; try discriminate.
    apply IH in H as [Httft Hitl]; [|exact Hrun].
    cbn [ttft_ms itl_ms most_recent_timestamp] in Httft, Hitl.
    split; [exact Httft|]. rewrite Hitl, fmap_cons. cbn [snd gaps].
    now rewrite <- app_assoc.
Qed.

Lemma stream_loop_first (json_loads : string → option json)
    (backend : string) (start : Q) (chunks : list (string * Q)) :
  ∀ st st',
  ttft_ms st = 0%Q → itl_ms st = [] →
  stream_loop json_loads backend start st chunks = Ok st' →
  match (nonempty_chunks chunks).*2 with
  | [] => ttft_ms st' = 0%Q ∧ itl_ms st' = []
  | t1 :: ts =>
      ¬ (t1 - start == 0)%Q →
      ttft_ms st' = (t1 - start)%Q ∧ itl_ms st' = gaps t1 ts
  end.
Proof.
  induction chunks as [|[chunk_bytes t] chunks IH]; intros st st' Httft Hitl H.
  - injection H as <-. cbn. auto.
  - rewrite nonempty_chunks_cons. cbn [stream_loop] in H.
    unfold stream_step in H.
    destruct (String.eqb chunk_bytes EmptyString); cbn [bind] in H;
      [now apply (IH st)|].
    rewrite Httft in H. change (Qeq_bool 0 0) with true in H.
    destruct (chunk_text json_loads backend chunk_bytes) as [text| |];
      cbn [bind] in H; try discriminate.
    rewrite fmap_cons. cbn [snd]. intros Hpos.
    apply stream_loop_running in H as [H1 H2]; [|exact Hpos].
    cbn [ttft_ms itl_ms most_recent_timestamp] in H1, H2.
    rewrite Hitl in H2. auto.
Qed.

(** X12: in a successful streamed request the time to first token is the
    time from the start of the exchange to the first chunk that is not
    empty, and the inter-token latencies are the times between each two
    successive chunks that are not empty, in order; with no such chunk
    the time to first token is zero and there is no inter-token latency.
    (The first chunk is taken to arrive after the clock of the start.) *)
Theorem stream_timing (tokenizer : string → list Z)
    (json_loads : string → option json) (backend : string) (prompt_len : Z)
    (x : stream_exchange) (res : request_result) :
  send_stream_request tokenizer json_loads backend prompt_len x = Ok res →
  res_errors res = None →
  match (nonempty_chunks (s_chunks x)).*2 with
  | [] => res_ttft res = Some 0%Q ∧ res_itl res = Some []
  | t1 :: ts =>
      ¬ (t1 - s_start_time_ms x == 0)%Q →
      res_ttft res = Some (t1 - s_start_time_ms x)%Q
      ∧ res_itl res = Some (gaps t1 ts)
  end.
Proof.
  intros Hsend Herr.
  destruct (send_stream_request_shape _ _ _ _ _ _ Hsend)
    as [[e ->]|(st & Hloop & _ & _ & ->)]; [discriminate|].
  apply stream_loop_first in Hloop; [|reflexivity|reflexivity].
  cbn [success_result res_ttft res_itl].
  destruct ((nonempty_chunks (s_chunks x)).*2) as [|t1 ts].
  - destruct Hloop as [-> ->]. auto.
  - intros Hpos. destruct (Hloop Hpos) as [-> ->]. auto.
Qed.

(** The two chunks of [chatty_stream] arrive at 3 and 5. *)
Lemma stream_timing_witness :
  res_ttft (success_result 4 4 6 (Some 3%Q) (Some [2%Q])) = Some (3 - 0)%Q
  ∧ res_itl (success_result 4 4 6 (Some 3%Q) (Some [2%Q]))
    = Some (gaps 3 [5%Q]).
Proof.
  apply (stream_timing Examples.char_tokenizer Examples.text_loads
           "jetstream" 4 Inputs.chatty_stream
           (success_result 4 4 6 (Some 3%Q) (Some [2%Q]))).
  - reflexivity.
  - reflexivity.
  - discriminate.
Defined.

(** X13: for a backend that can stream, [send_stream_request] turns every
    exception of the exchange and of the decoding of a chunk into a
    failure tuple; it returns a well-formed tuple in every case but one:
    when the exchange completes and the text tokenizes to zero tokens it
    raises [ZeroDivisionError]. *)
Theorem stream_request_outcomes (tokenizer : string → list Z)
    (json_loads : string → option json) (backend : string) (prompt_len : Z)
    (x : stream_exchange) :
  stream_pload backend = Ok () →
  (∃ res, send_stream_request tokenizer json_loads backend prompt_len x
          = Ok res
          ∧ well_formed_result res)
  ∨ (send_stream_request tokenizer json_loads backend prompt_len x
     = Raise ZeroDivisionError
     ∧ s_raised x = None
     ∧ ∃ st, stream_loop json_loads backend (s_start_time_ms x)
                         (stream_start x) (s_chunks x) = Ok st
             ∧ tokenizer (output st) = []).
Proof.
  intros Hpload. unfold send_stream_request. fold (stream_start x).
  rewrite Hpload. cbn [bind].
  destruct (stream_loop json_loads backend (s_start_time_ms x)
              (stream_start x) (s_chunks x)) as [st|e|];
    [|left; rewrite failure_eq; eexists; split; [reflexivity|left; eauto]..].
  destruct (s_raised x) as [e|];
    [left; rewrite failure_eq; eexists; split; [reflexivity|left; eauto]|].
  unfold token_count.
  destruct (tokenizer (output st)) as [|tok toks] eqn:Htok.
  - right. change (Z.of_nat (length (@nil Z))) with 0.
    change (1 <? 0) with false. cbn [bind].
    rewrite py_div_zero by reflexivity. eauto.
  - left. set (n := Z.of_nat (length (tok :: toks))).
    assert (0 < n) as Hn by (unfold n; cbn [length]; lia).
    assert (∃ q, (if 1 <? n
                  then py_div (s_request_end_time_ms x - ttft_ms st
                               - s_request_start_time_ms x)%Q
                              (inject_Z (n - 1))
                  else Ok 0%Q) = Ok q) as [q ->].
    { destruct (1 <? n) eqn:Hlt; [|eauto].
      apply Z.ltb_lt in Hlt. rewrite py_div_Ok; [eauto|].
      rewrite inject_Z_zero. lia. }
    cbn [bind]. rewrite py_div_Ok by (rewrite inject_Z_zero; lia).
    eexists. split; [reflexivity|]. right. unfold success_result. eauto 10.
Qed.

(** The stream of [chatty_stream] from jetstream. *)
Lemma stream_request_outcomes_witness :
  (∃ res, send_stream_request Examples.char_tokenizer Examples.text_loads
            "jetstream" 4 Inputs.chatty_stream = Ok res
          ∧ well_formed_result res)
  ∨ (send_stream_request Examples.char_tokenizer Examples.text_loads
       "jetstream" 4 Inputs.chatty_stream = Raise ZeroDivisionError
     ∧ s_raised Inputs.chatty_stream = None
     ∧ ∃ st, stream_loop Examples.text_loads "jetstream"
               (s_start_time_ms Inputs.chatty_stream)
               (stream_start Inputs.chatty_stream)
               (s_chunks Inputs.chatty_stream) = Ok st
             ∧ Examples.char_tokenizer (output st) = []).
Proof.
  apply stream_request_outcomes. reflexivity.
Defined.

(** ** What the collector files where *)

Lemma error_of_failure (e : transport_exn) (k : string) :
  error_of k (failure_result e) = if decide (k = errors_key e) then 1 else 0.
Proof.
  unfold error_of, failure_result, truthy_errors. cbn [res_errors].
  destruct (decide (<[errors_key e := 1]> init_errors_map = ∅)) as [He|_].
  - exfalso. exact (insert_non_empty init_errors_map (errors_key e) 1 He).
  - rewrite <- tally_map_to_list. apply tally_failure.
Qed.

Lemma latency_of_failure (e : transport_exn) :
  latency_of (failure_result e) = None.
Proof.
  unfold latency_of, failure_result, truthy_errors. cbn [res_errors].
  destruct (decide (<[errors_key e := 1]> init_errors_map = ∅)) as [He|_];
    [|reflexivity].
  exfalso. exact (insert_non_empty init_errors_map (errors_key e) 1 He).
Qed.

Lemma collect_one_wf (names : list string) (c : collector) (model : string)
    (res : request_result) :
  collector_ok names c → model ∈ names → well_formed_result res →
  ∃ c',
    collect_one c (model, res) = Ok c'
    ∧ collector_ok names c'
    ∧ latencies (overall_results c')
      = latencies (overall_results c) ++ option_list (latency_of res)
    ∧ (∀ k, errors (overall_results c') !! k
            = (λ x, x + error_of k res) <$> errors (overall_results c) !! k)
    ∧ (timing_free res → no_stream_series (overall_results c) →
       no_stream_series (overall_results c'))
    ∧ ∀ m, m ∈ names →
        ∃ b b',
          per_model_results c !! m = Some b
          ∧ per_model_results c' !! m = Some b'
          ∧ latencies b'
            = latencies b
              ++ (if decide (model = m) then option_list (latency_of res)
                  else [])
          ∧ (∀ k, errors b' !! k
                  = (λ x, x + if decide (model = m) then error_of k res
                              else 0) <$> errors b !! k)
          ∧ (timing_free res → no_stream_series b → no_stream_series b').
Proof.
  intros Hc Hin Hres. pose proof Hc as [Hov Hmodels].
  destruct (Hmodels model Hin) as (b0 & Hb0 & Hbk0).
  destruct Hres as [[e ->]|(pl & ol & lat & ttft & itl & ->)].
  - destruct (collect_one_failure e c model b0 Hb0 Hov Hbk0)
      as (c' & b0' & Hrun & Hb0' & Hs & Hsb & Hother & Hove & Hbe).
    destruct (collect_one_failure_ok names e c model Hc Hin)
      as (c'' & Hrun' & Hc').
    rewrite Hrun in Hrun'. injection Hrun' as <-.
    destruct Hs as (Hs1 & Hs2 & Hs3 & Hs4).
    destruct Hsb as (Hb1 & Hb2 & Hb3 & Hb4).
    exists c'. split; [exact Hrun|]. split; [exact Hc'|].
    rewrite latency_of_failure. cbn [option_list]. split.
    { now rewrite Hs1, app_nil_r. }
    split.
    { intros k. now rewrite Hove, error_of_failure. }
    split.
    { intros _ (H1 & H2 & H3). unfold no_stream_series.
      now rewrite Hs2, Hs3, Hs4. }
    intros m Hm. destruct (decide (model = m)) as [<-|Hne].
    + exists b0, b0'. split; [exact Hb0|]. split; [exact Hb0'|].
      split; [now rewrite Hb1, app_nil_r|].
      split; [intros k; now rewrite Hbe, error_of_failure|].
      intros _ (H1 & H2 & H3). unfold no_stream_series.
      now rewrite Hb2, Hb3, Hb4.
    + destruct (Hmodels m Hm) as (b & Hb & _).
      exists b, b. split; [exact Hb|].
      split; [rewrite Hother by congruence; exact Hb|].
      split; [now rewrite app_nil_r|].
      split; [intros k; now rewrite fmap_add_0|]. auto.
  - destruct (collect_one_success c model b0 pl ol lat ttft itl Hb0)
      as (new_tpots & Htpots & Hrun).
    destruct (collect_one_success_ok names c model pl ol lat ttft itl Hc Hin)
      as (c'' & Hrun' & Hc').
    rewrite Hrun in Hrun'. injection Hrun' as <-.
    eexists. split; [exact Hrun|]. split; [exact Hc'|].
    assert (latency_of (success_result pl ol lat ttft itl)
            = Some (pl, ol, lat)) as -> by reflexivity.
    assert (∀ k, error_of k (success_result pl ol lat ttft itl) = 0) as Herr
      by reflexivity.
    assert (Hfree : timing_free (success_result pl ol lat ttft itl) →
                    ttft_entries ttft = [] ∧ new_tpots = []
                    ∧ itl_entries itl = []).
    { intros [Ht Hi]. cbn [success_result res_ttft res_itl] in Ht, Hi.
      subst ttft itl. cbn in Htpots. injection Htpots as <-. auto. }
    cbn [overall_results per_model_results add_success latencies errors
         option_list].
    split; [reflexivity|].
    split; [intros k; now rewrite Herr, fmap_add_0|].
    split.
    { intros Hf (H1 & H2 & H3). destruct (Hfree Hf) as (E1 & E2 & E3).
      unfold no_stream_series.
      cbn [overall_results add_success ttfts itls tpots].
      now rewrite H1, H2, H3, E1, E2, E3. }
    intros m Hm. destruct (decide (model = m)) as [<-|Hne].
    + eexists b0, _. split; [exact Hb0|].
      split; [apply lookup_insert_eq|].
      cbn [latencies errors]. split; [reflexivity|].
      split; [intros k; now rewrite Herr, fmap_add_0|].
      intros Hf (H1 & H2 & H3). destruct (Hfree Hf) as (E1 & E2 & E3).
      unfold no_stream_series.
      cbn [overall_results add_success ttfts itls tpots].
      now rewrite H1, H2, H3, E1, E2, E3.
    + destruct (Hmodels m Hm) as (b & Hb & _).
      exists b, b. split; [exact Hb|].
      split; [rewrite lookup_insert_ne by congruence; exact Hb|].
      split; [now rewrite app_nil_r|].
      split; [intros k; now rewrite fmap_add_0|]. auto.
Qed.

Lemma fmap_add_add (a b : Z) (o : option Z) :
  (λ x, x + b) <$> ((λ x, x + a) <$> o) = (λ x, x + (a + b)) <$> o.
Proof. destruct o; simpl; f_equal; lia. Qed.

Lemma success_latencies_cons (r : string * request_result)
    (results : list (string * request_result)) :
  success_latencies (r :: results)
  = option_list (latency_of r.2) ++ success_latencies results.
Proof.
  unfold success_latencies. cbn [omap list_omap].
  destruct (latency_of r.2); reflexivity.
Qed.

Lemma collect_wf (names : list string)
    (results : list (string * request_result)) :
  Forall (λ r, r.1 ∈ names ∧ well_formed_result r.2) results →
  ∀ c, collector_ok names c →
  ∃ c',
    collect c results = Ok c'
    ∧ collector_ok names c'
    ∧ latencies (overall_results c')
      = latencies (overall_results c) ++ success_latencies results
    ∧ (∀ k, errors (overall_results c') !! k
            = (λ x, x + error_total k results)
                <$> errors (overall_results c) !! k)
    ∧ (Forall (λ r, timing_free r.2) results →
       no_stream_series (overall_results c) →
       no_stream_series (overall_results c'))
    ∧ ∀ m, m ∈ names →
        ∃ b b',
          per_model_results c !! m = Some b
          ∧ per_model_results c' !! m = Some b'
          ∧ latencies b'
            = latencies b ++ success_latencies (for_model m results)
          ∧ (∀ k, errors b' !! k
                  = (λ x, x + error_total k (for_model m results))
                      <$> errors b !! k)
          ∧ (Forall (λ r, timing_free r.2) results →
             no_stream_series b → no_stream_series b').
Proof.
  induction 1 as [|[model res] results [Hin Hres] _ IH]; intros c Hc.
  - exists c. split; [reflexivity|]. split; [exact Hc|].
    split; [cbn; now rewrite app_nil_r|].
    split; [intros k; cbn [error_total]; now rewrite fmap_add_0|].
    split; [auto|].
    intros m Hm. destruct Hc as [_ Hmodels].
    destruct (Hmodels m Hm) as (b & Hb & _).
    exists b, b. split; [exact Hb|]. split; [exact Hb|].
    split; [cbn; now rewrite app_nil_r|].
    split; [intros k; cbn; now rewrite fmap_add_0|]. auto.
  - cbn [fst snd] in Hin, Hres.
    destruct (collect_one_wf names c model res Hc Hin Hres)
      as (c1 & Hone & Hc1 & Hlat1 & Herr1 & Hfree1 & Hmodels1).
    destruct (IH c1 Hc1) as (c' & Hrun & Hc' & Hlat & Herr & Hfree & Hmodels).
    exists c'. cbn [collect]. rewrite Hone. cbn [bind].
    split; [exact Hrun|]. split; [exact Hc'|].
    split.
    { rewrite Hlat, Hlat1, success_latencies_cons. cbn [snd].
      now rewrite <- app_assoc. }
    split.
    { intros k. rewrite Herr, Herr1, fmap_add_add. reflexivity. }
    split.
    { intros Hall Hempty. apply Forall_cons in Hall as [Hf Hall].
      apply Hfree; [exact Hall|]. now apply Hfree1. }
    intros m Hm.
    destruct (Hmodels1 m Hm) as (b & b1 & Hb & Hb1 & Hl1 & He1 & Hf1).
    destruct (Hmodels m Hm) as (b1' & b' & Hb1' & Hb' & Hl & He & Hf).
    rewrite Hb1 in Hb1'. injection Hb1' as <-.
    exists b, b'. split; [exact Hb|]. split; [exact Hb'|].
    unfold for_model. rewrite filter_cons. cbn [fst].
    fold (for_model m results).
    destruct (decide (model = m)) as [Heq|Hne].
    + split.
      { rewrite Hl, Hl1, success_latencies_cons. cbn [snd].
        now rewrite <- app_assoc. }
      split.
      { intros k. rewrite He, He1, fmap_add_add. reflexivity. }
      intros Hall Hempty. apply Forall_cons in Hall as [Hfr Hall].
      apply Hf; [exact Hall|]. now apply Hf1.
    + split; [rewrite Hl, Hl1; now rewrite app_nil_r|].
      split.
      { intros k. rewrite He, He1, fmap_add_add. reflexivity. }
      intros Hall Hempty. apply Forall_cons in Hall as [Hfr Hall].
      apply Hf; [exact Hall|]. now apply Hf1.
Qed.

Lemma init_collector_bucket (names : list string) (m : string) (b : bucket) :
  per_model_results (init_collector names) !! m = Some b → b = empty_bucket.
Proof.
  unfold init_collector. cbn [per_model_results].
  rewrite init_buckets_lookup. case_decide; [congruence|].
  rewrite lookup_empty. discriminate.
Qed.

(** X14: the collector files the latency tuple of every successful
    request, in the order of the tasks, in the "weighted" bucket and in
    the bucket of the model that was chosen for the request, and in no
    other bucket; a failed request adds no latency anywhere. *)
Theorem collected_latencies (names : list string)
    (results : list (string * request_result)) :
  Forall (λ r, r.1 ∈ names ∧ well_formed_result r.2) results →
  ∃ c,
    collect (init_collector names) results = Ok c
    ∧ latencies (overall_results c) = success_latencies results
    ∧ ∀ m, m ∈ names →
        ∃ b, per_model_results c !! m = Some b
             ∧ latencies b = success_latencies (for_model m results).
Proof.
  intros Hres.
  destruct (collect_wf names results Hres (init_collector names)
              (init_collector_ok names))
    as (c & Hrun & _ & Hlat & _ & _ & Hmodels).
  exists c. split; [exact Hrun|]. split; [exact Hlat|].
  intros m Hm. destruct (Hmodels m Hm) as (b & b' & Hb & Hb' & Hl & _).
  exists b'. split; [exact Hb'|].
  apply init_collector_bucket in Hb as ->. exact Hl.
Qed.

(** X15: after the collection, each of the six error counters of the
    "weighted" bucket is the total of that counter over the errors dicts
    of all the results, and each counter of the bucket of a model is the
    total over the results of the requests sent to that model. *)
Theorem collected_errors (names : list string)
    (results : list (string * request_result)) (e : transport_exn) :
  Forall (λ r, r.1 ∈ names ∧ well_formed_result r.2) results →
  ∃ c,
    collect (init_collector names) results = Ok c
    ∧ errors (overall_results c) !! errors_key e
      = Some (error_total (errors_key e) results)
    ∧ ∀ m, m ∈ names →
        ∃ b, per_model_results c !! m = Some b
             ∧ errors b !! errors_key e
               = Some (error_total (errors_key e) (for_model m results)).
Proof.
  intros Hres.
  destruct (collect_wf names results Hres (init_collector names)
              (init_collector_ok names))
    as (c & Hrun & _ & _ & Herr & _ & Hmodels).
  assert (Hinit : init_errors_map !! errors_key e = Some 0)
    by (destruct e; reflexivity).
  exists c. split; [exact Hrun|]. split.
  { rewrite Herr. cbn [init_collector overall_results empty_bucket errors].
    rewrite Hinit. reflexivity. }
  intros m Hm. destruct (Hmodels m Hm) as (b & b' & Hb & Hb' & _ & He & _).
  exists b'. split; [exact Hb'|].
  apply init_collector_bucket in Hb as ->. rewrite He.
  cbn [empty_bucket errors]. rewrite Hinit. reflexivity.
Qed.

Lemma mixed_results_wf :
  Forall (λ r, r.1 ∈ ["A"; "B"] ∧ well_formed_result r.2)
         Cases3.mixed_results.
Proof.
  constructor; [split|constructor; [split|constructor]].
  - apply list_elem_of_here.
  - right. unfold success_result. eauto 10.
  - apply list_elem_of_here.
  - left. eauto.
Defined.

(** The results of [mixed_results] for the models A and B. *)
Lemma collected_latencies_witness :
  ∃ c,
    collect (init_collector ["A"; "B"]) Cases3.mixed_results = Ok c
    ∧ latencies (overall_results c) = success_latencies Cases3.mixed_results
    ∧ ∀ m, m ∈ ["A"; "B"] →
        ∃ b, per_model_results c !! m = Some b
             ∧ latencies b
               = success_latencies (for_model m Cases3.mixed_results).
Proof. apply collected_latencies. exact mixed_results_wf. Defined.

Lemma collected_errors_witness :
  ∃ c,
    collect (init_collector ["A"; "B"]) Cases3.mixed_results = Ok c
    ∧ errors (overall_results c) !! errors_key ClientConnectorError
      = Some (error_total (errors_key ClientConnectorError)
                          Cases3.mixed_results)
    ∧ ∀ m, m ∈ ["A"; "B"] →
        ∃ b, per_model_results c !! m = Some b
             ∧ errors b !! errors_key ClientConnectorError
               = Some (error_total (errors_key ClientConnectorError)
                         (for_model m Cases3.mixed_results)).
Proof. apply collected_errors. exact mixed_results_wf. Defined.

(** ** A run without the streaming mode *)

Lemma resend_loop_returned (fuel : nat) (server : nat → attempt) :
  ∀ (k : nat) (inst inst' : option AsyncRequestCounter)
    (r : request_result) (posts : nat),
  resend_loop fuel server k inst = Ok (Returned r, posts, inst') →
  ∃ e, r = failure_result e.
Proof.
  induction fuel as [|fuel IH]; intros k inst inst' r posts H;
    [discriminate|].
  cbn [resend_loop] in H.
  destruct (answer (server k)) as [e|body].
  - rewrite failure_eq in H. injection H as <- _ _. eauto.
  - destruct (json_contains "error" body) as [[|]|e|].
    + eapply IH. exact H.
    + discriminate.
    + rewrite failure_eq in H. injection H as <- _ _. eauto.
    + rewrite failure_eq in H. injection H as <- _ _. eauto.
Qed.

Lemma send_request_result (tokenizer : string → list Z) (fuel : nat)
    (backend : string) (prompt_len output_len : Z) (use_beam_search : bool)
    (x : exchange) (inst inst' : option AsyncRequestCounter)
    (res : request_result) (posts : nat) :
  send_request tokenizer fuel backend prompt_len output_len use_beam_search
               x inst = Ok (res, posts, inst') →
  timing_free res.
Proof.
  unfold send_request. intros H.
  apply bind_Ok in H as (_ & _ & H).
  apply bind_Ok in H as ([[exit p] i] & Hloop & H).
  apply bind_Ok in H as (r & Hafter & [= <- _ _]).
  destruct exit as [body|r0]; cbn [after_loop] in Hafter.
  - apply bind_Ok in Hafter as (ol & _ & Hafter).
    apply bind_Ok in Hafter as (q & _ & [= <-]). split; reflexivity.
  - injection Hafter as <-.
    apply resend_loop_returned in Hloop as [e ->]. split; reflexivity.
Qed.

Lemma gather_timing_free (tokenizer : string → list Z)
    (json_loads : string → option json) (fuel : nat) (a : args)
    (network : nat → wire) (tasks : list emission) :
  stream_request a = false →
  ∀ k inst results posts inst',
  gather tokenizer json_loads fuel a network tasks k inst
  = Ok (results, posts, inst') →
  Forall (λ r, timing_free r.2) results.
Proof.
  intros Hstream. induction tasks as [|e tasks IH];
    intros k inst results posts inst' H; cbn [gather] in H.
  - injection H as <- _ _. constructor.
  - apply bind_Ok in H as ([[[model res] p] inst1] & Hone & H).
    apply bind_Ok in H as ([[rs p'] inst2] & Hrest & [= <- _ _]).
    constructor; [|eapply IH; exact Hrest].
    unfold run_single_request in Hone. rewrite Hstream in Hone.
    destruct (em_request e) as [[prompt prompt_len] output_len].
    apply bind_Ok in Hone as ([[r p0] i0] & Hr & [= _ <- _ _]).
    eapply send_request_result. exact Hr.
Qed.

Lemma traffic_config_members (models : list string)
    (traffic_split : option (list Q)) (names : list string)
    (weights : list Q) :
  traffic_config models traffic_split = Ok (names, weights) →
  ∀ m, m ∈ names ↔ m ∈ models.
Proof.
  intros H m.
  destruct (traffic_config_Ok _ _ _ _ H) as (W & Hlen & _ & _ & -> & _).
  destruct (dict_zip_from_keys (zip models W) [] (NoDup_nil_2)) as [_ Hin].
  fold (dict_zip models W) in Hin.
  rewrite Hin, fmap_nil, fst_zip by lia.
  split; [intros [H'|H']; [inversion H' | exact H'] | auto].
Qed.

(** X16: in a run without [--stream-request] that ends with its reports,
    no bucket holds a time to first token, an inter-token latency or a
    time per output token: the three series of the "weighted" bucket and
    of the bucket of every model are empty. *)
Theorem no_stream_series_without_streaming (np : numpy)
    (tokenizer : string → list Z) (tokenizer_decode : list Z → string)
    (json_loads : string → option json) (fuel : nat) (a : args)
    (models : list string) (traffic_split : option (list Q)) (w : world)
    (inst : option AsyncRequestCounter) (r : run) :
  benchmark np tokenizer tokenizer_decode json_loads fuel a models
            traffic_split w inst = Ok r →
  stream_request a = false →
  no_stream_series (overall_results (run_collector r))
  ∧ ∀ m, m ∈ models →
      ∃ b, per_model_results (run_collector r) !! m = Some b
           ∧ no_stream_series b.
Proof.
  intros H Hstream.
  destruct (benchmark_Ok _ _ _ _ _ _ _ _ _ _ _ H)
    as (names & weights & inst1 & weighted & inst2 & per_model
        & Hconfig & Hemit & Hgather & Hcollect & _).
  pose proof (gather_shape _ _ _ _ _ names _
                (emit_models _ _ _ _ _ _ _ _ _ Hemit) _ _ _ _ _ Hgather)
    as Hwf.
  pose proof (gather_timing_free _ _ _ _ _ _ Hstream _ _ _ _ _ Hgather)
    as Hfree.
  destruct (collect_wf names (run_results r) Hwf (init_collector names)
              (init_collector_ok names))
    as (c & Hrun & _ & _ & _ & Hov & Hmodels).
  rewrite Hcollect in Hrun. injection Hrun as <-.
  split; [apply Hov; [exact Hfree | repeat split]|].
  intros m Hm. apply (traffic_config_members _ _ _ _ Hconfig) in Hm.
  destruct (Hmodels m Hm) as (b & b' & Hb & Hb' & _ & _ & Hser).
  exists b'. split; [exact Hb'|]. apply Hser; [exact Hfree|].
  apply init_collector_bucket in Hb as ->. repeat split.
Qed.

(** The run [split_run] does not stream. *)
Lemma no_stream_series_without_streaming_witness :
  ∃ r, Inputs.split_run = Ok r
       ∧ no_stream_series (overall_results (run_collector r)).
Proof.
  assert (∃ r, Inputs.split_run = Ok r) as [r Hr].
  { vm_compute. eexists. reflexivity. }
  exists r. split; [exact Hr|].
  apply (no_stream_series_without_streaming _ _ _ _ _ _ _ _ _ _ r Hr).
  reflexivity.
Defined.

(** ** When a bucket can be reported *)






(** ** The reports of a run, together *)

Lemma report_qps (np : numpy) (a : args) (c : AsyncRequestCounter)
    (inst' : option AsyncRequestCounter) (now duration : Q)
    (total_requests : Z) (b : bucket) (rep : report) :
  print_and_save_result np a (Some c) now duration total_requests b
  = Ok (rep, inst') →
  inst' = Some c ∧ get_qps c = Ok (queries_per_second (saved rep)).
Proof.
  unfold print_and_save_result. cbn [AsyncRequestCounter_new]. intros H.
  apply bind_Ok in H as (line & _ & H).
  apply bind_Ok in H as (qps & Hqps & H).
  apply bind_Ok in H as (rps & _ & H).
  apply bind_Ok in H as (per_token & _ & H).
  apply bind_Ok in H as (normalized & _ & H).
  injection H as <- <-. split; [reflexivity | exact Hqps].
Qed.

Lemma report_models_qps (np : numpy) (a : args) (c : AsyncRequestCounter)
    (now duration : Q) (per_model : gmap string bucket)
    (model_names : list string) :
  ∀ reps : list (string * report),
  report_models np a (Some c) now duration per_model model_names = Ok reps →
  ∀ model rep, (model, rep) ∈ reps →
    get_qps c = Ok (queries_per_second (saved rep))
    ∧ num_prompts_attempted (saved rep) = num_prompts_succeeded (saved rep).
Proof.
  induction model_names as [|model model_names IH]; intros reps H;
    cbn [report_models] in H.
  - injection H as <-. intros m r Hin. inversion Hin.
  - apply bind_Ok in H as (data & Hdata & H).
    apply bind_Ok in H as ([r inst'] & Hr & H).
    apply bind_Ok in H as (rest & Hrest & [= <-]).
    pose proof (report_qps _ _ _ _ _ _ _ _ _ Hr) as [-> Hqps].
    intros m rep Hin. apply elem_of_cons in Hin as [[= -> ->]|Hin].
    + split; [exact Hqps|].
      unfold print_and_save_result in Hr.
      apply bind_Ok in Hr as (line & _ & Hr).
      apply bind_Ok in Hr as (qps & _ & Hr).
      apply bind_Ok in Hr as (rps & _ & Hr).
      apply bind_Ok in Hr as (per_token & _ & Hr).
      apply bind_Ok in Hr as (normalized & _ & Hr).
      injection Hr as <-. reflexivity.
    + eapply IH; eassumption.
Qed.

(** X19: the queries per second are a figure of the process, not of a
    bucket: in a run that ends with its reports, the report of "weighted"
    and the report of every model carry the same value. *)
Theorem one_qps_for_all_buckets (np : numpy) (tokenizer : string → list Z)
    (tokenizer_decode : list Z → string) (json_loads : string → option json)
    (fuel : nat) (a : args) (models : list string)
    (traffic_split : option (list Q)) (w : world)
    (inst : option AsyncRequestCounter) (r : run) :
  benchmark np tokenizer tokenizer_decode json_loads fuel a models
            traffic_split w inst = Ok r →
  ∃ qps, ∀ name rep, (name, rep) ∈ run_reports r →
           queries_per_second (saved rep) = qps.
Proof.
  intros H.
  destruct (benchmark_Ok _ _ _ _ _ _ _ _ _ _ _ H)
    as (names & weights & inst1 & weighted & inst2 & per_model
        & _ & _ & _ & _ & Hweighted & Hmodels & ->).
  exists (queries_per_second (saved weighted)).
  assert (inst2 = Some (AsyncRequestCounter_new inst1 None
                          (benchmark_end_time_sec w))
          ∧ get_qps (AsyncRequestCounter_new inst1 None
                       (benchmark_end_time_sec w))
            = Ok (queries_per_second (saved weighted))) as [-> Hqps].
  { unfold print_and_save_result in Hweighted.
    apply bind_Ok in Hweighted as (line & _ & Hw).
    apply bind_Ok in Hw as (qps & Hqps & Hw).
    apply bind_Ok in Hw as (rps & _ & Hw).
    apply bind_Ok in Hw as (per_token & _ & Hw).
    apply bind_Ok in Hw as (normalized & _ & Hw).
    injection Hw as <- <-. split; [reflexivity | exact Hqps]. }
  intros name rep [[= -> ->]|Hin]%elem_of_cons; [reflexivity|].
  destruct (report_models_qps _ _ _ _ _ _ _ _ Hmodels _ _ Hin) as [Hrep _].
  rewrite Hqps in Hrep. now injection Hrep.
Qed.

(** The two reports of a model of [split_run] and that of "weighted". *)
Lemma one_qps_for_all_buckets_witness :
  ∃ r, Inputs.split_run = Ok r
       ∧ ∃ qps, ∀ name rep, (name, rep) ∈ run_reports r →
                  queries_per_second (saved rep) = qps.
Proof.
  assert (∃ r, Inputs.split_run = Ok r) as [r Hr].
  { vm_compute. eexists. reflexivity. }
  exists r. split; [exact Hr|].
  apply (one_qps_for_all_buckets _ _ _ _ _ _ _ _ _ _ r Hr).
Defined.

(** X20: a run that ends with its reports has one report for "weighted"
    followed by one for each configured model, in the order of the
    models; it has gathered one result for each request emitted, filed
    under the model chosen for that request; the "weighted" report gives
    the number of requests emitted as attempted; the report of a model
    gives as attempted the number of its successes, so that its failures
    do not count as attempts. *)
Theorem run_reports_structure (np : numpy) (tokenizer : string → list Z)
    (tokenizer_decode : list Z → string) (json_loads : string → option json)
    (fuel : nat) (a : args) (models : list string)
    (traffic_split : option (list Q)) (w : world)
    (inst : option AsyncRequestCounter) (r : run) :
  benchmark np tokenizer tokenizer_decode json_loads fuel a models
            traffic_split w inst = Ok r →
  ∃ names weights weighted per_model,
    traffic_config models traffic_split = Ok (names, weights)
    ∧ run_reports r = ("weighted", weighted) :: per_model
    ∧ per_model.*1 = names
    ∧ length (run_emissions r) = Z.to_nat (num_prompts a)
    ∧ (run_results r).*1 = map em_model (run_emissions r)
    ∧ num_prompts_attempted (saved weighted)
      = Z.of_nat (length (run_emissions r))
    ∧ ∀ model rep, (model, rep) ∈ per_model →
        num_prompts_attempted (saved rep)
        = num_prompts_succeeded (saved rep).
Proof.
  intros H.
  destruct (benchmark_Ok _ _ _ _ _ _ _ _ _ _ _ H)
    as (names & weights & inst1 & weighted & inst2 & per_model
        & Hconfig & Hemit & Hgather & _ & Hweighted & Hmodels & Hreports).
  exists names, weights, weighted, per_model.
  split; [exact Hconfig|]. split; [exact Hreports|].
  split; [apply (report_models_Ok _ _ _ _ _ _ _ _ Hmodels)|].
  split; [eapply emit_length; exact Hemit|].
  split.
  { clear -Hgather. revert Hgather.
    generalize (run_results r), (run_posts r), inst1.
    generalize (Some (AsyncRequestCounter_new inst (Some (num_prompts a))
                        (counter_start_time w))).
    generalize 0%nat.
    induction (run_emissions r) as [|e tasks IH];
      intros k i0 results posts i1 Hg; cbn [gather] in Hg.
    - injection Hg as <- _ _. reflexivity.
    - apply bind_Ok in Hg as ([[[model res] p] i2] & Hone & Hg).
      apply bind_Ok in Hg as ([[rs p'] i3] & Hrest & [= <- _ _]).
      rewrite fmap_cons. cbn [fst map]. f_equal; [|eapply IH; exact Hrest].
      unfold run_single_request in Hone.
      destruct (em_request e) as [[prompt prompt_len] output_len].
      destruct (stream_request a).
      + now apply bind_Ok in Hone as (r0 & _ & [= <- _ _ _]).
      + now apply bind_Ok in Hone as ([[r0 p0] i4] & _ & [= <- _ _ _]). }
  split.
  { destruct (print_and_save_result_Ok _ _ _ _ _ _ _ _ _ Hweighted)
      as (_ & _ & _ & Hatt & _). exact Hatt. }
  intros model rep Hin.
  assert (∃ c, inst2 = Some c) as [c ->].
  { unfold print_and_save_result in Hweighted.
    apply bind_Ok in Hweighted as (line & _ & Hw).
    apply bind_Ok in Hw as (qps & _ & Hw).
    apply bind_Ok in Hw as (rps & _ & Hw).
    apply bind_Ok in Hw as (per_token & _ & Hw).
    apply bind_Ok in Hw as (normalized & _ & Hw).
    injection Hw as _ <-. eauto. }
  now destruct (report_models_qps _ _ _ _ _ _ _ _ Hmodels _ _ Hin).
Qed.

(** The run [split_run] for the models A and B. *)
Lemma run_reports_structure_witness :
  ∃ r, Inputs.split_run = Ok r
       ∧ length (run_emissions r) = Z.to_nat 2
       ∧ (run_results r).*1 = map em_model (run_emissions r).
Proof.
  assert (∃ r, Inputs.split_run = Ok r) as [r Hr].
  { vm_compute. eexists. reflexivity. }
  exists r. split; [exact Hr|].
  destruct (run_reports_structure _ _ _ _ _ _ _ _ _ _ r Hr)
    as (names & weights & weighted & per_model & _ & _ & _ & Hlen & Hres
        & _).
  split; [exact Hlen | exact Hres].
Defined.

(** ** A task that raises *)

Lemma gather_raising_task (tokenizer : string → list Z)
    (json_loads : string → option json) (fuel : nat) (a : args)
    (network : nat → wire) (tasks : list emission) :
  ∀ (k i : nat) (e : emission),
  tasks !! i = Some e →
  (∀ inst, ∃ ex,
     run_single_request tokenizer json_loads fuel a e (network (k + i)%nat)
                        inst = Raise ex) →
  ∀ inst out,
  gather tokenizer json_loads fuel a network tasks k inst ≠ Ok out.
Proof.
  induction tasks as [|e0 tasks IH]; intros k i e Hi Hraise inst out H;
    [discriminate Hi|].
  cbn [gather] in H.
  apply bind_Ok in H as ([[[model res] p] inst1] & Hone & H).
  apply bind_Ok in H as ([[rs p'] inst2] & Hrest & _).
  destruct i as [|i].
  - injection Hi as ->. rewrite Nat.add_0_r in Hraise.
    destruct (Hraise inst) as [ex Hex]. congruence.
  - cbn [lookup list_lookup] in Hi.
    apply (IH (S k) i e Hi) in Hrest; [exact Hrest|].
    intros inst'. rewrite Nat.add_succ_l, <- Nat.add_succ_r. apply Hraise.
Qed.

(** X21: an exception that escapes a task keeps the whole run from its
    reports: when one of the tasks of a run, in whatever position, raises
    on its exchange (a raise does not depend on the counter), [benchmark]
    does not return; nothing is reported, for no model. Which exception
    [asyncio.gather] hands on when several tasks raise is not stated. *)
Theorem raising_task_ends_run (np : numpy) (tokenizer : string → list Z)
    (tokenizer_decode : list Z → string) (json_loads : string → option json)
    (fuel : nat) (a : args) (models : list string)
    (traffic_split : option (list Q)) (w : world)
    (inst : option AsyncRequestCounter) (names : list string)
    (weights : list Q) (tasks : list emission) (i : nat) (e : emission)
    (r : run) :
  traffic_config models traffic_split = Ok (names, weights) →
  emit (get_filtered_dataset tokenizer tokenizer_decode (dataset a)
          (max_input_length a) (max_output_length a) (use_dummy_text a))
       (request_rate a) names weights (rnd w) (Z.to_nat (num_prompts a)) 0
       (benchmark_start_time_sec w) = Ok tasks →
  tasks !! i = Some e →
  (∀ inst', ∃ ex,
     run_single_request tokenizer json_loads fuel a e (network w i) inst'
     = Raise ex) →
  benchmark np tokenizer tokenizer_decode json_loads fuel a models
            traffic_split w inst ≠ Ok r.
Proof.
  intros Hconfig Hemit Hi Hraise H.
  destruct (benchmark_Ok _ _ _ _ _ _ _ _ _ _ _ H)
    as (names' & weights' & inst1 & weighted & inst2 & per_model
        & Hconfig' & Hemit' & Hgather & _).
  rewrite Hconfig in Hconfig'. injection Hconfig' as <- <-.
  rewrite Hemit in Hemit'. injection Hemit' as Htasks.
  rewrite <- Htasks in Hgather.
  exact (gather_raising_task tokenizer json_loads fuel a (network w) tasks
           0 i e Hi Hraise _ _ Hgather).
Qed.

(** The second request of two gets an empty text from jetstream. *)
Lemma raising_task_ends_run_witness :
  ¬ ∃ r, benchmark Examples.np_rational Examples.char_tokenizer
           Examples.char_decode Examples.text_loads 5 Inputs.base_args ["A"]
           None Cases5.second_mute None = Ok r.
Proof.
  intros [r Hr].
  apply (raising_task_ends_run Examples.np_rational Examples.char_tokenizer
           Examples.char_decode Examples.text_loads 5 Inputs.base_args ["A"]
           None Cases5.second_mute None ["A"] [(1 / 1)%Q]
           [Cases5.first_task; Cases5.first_task] 1 Cases5.first_task r);
    [reflexivity | reflexivity | reflexivity | | exact Hr].
  intros inst'. exists ZeroDivisionError. reflexivity.
Defined.

(** X22: the streaming mode knows the backends vllm and jetstream only:
    with [--stream-request] and any other backend, among them the four
    that [send_request] serves, the first task raises the [ValueError] of
    the unknown backend before any exchange, and the run ends with it. *)
Theorem streaming_needs_vllm_or_jetstream (np : numpy)
    (tokenizer : string → list Z) (tokenizer_decode : list Z → string)
    (json_loads : string → option json) (fuel : nat) (a : args)
    (models : list string) (traffic_split : option (list Q)) (w : world)
    (inst : option AsyncRequestCounter) (names : list string)
    (weights : list Q) (e : emission) (later : list emission) :
  stream_request a = true →
  backend a ≠ "vllm" → backend a ≠ "jetstream" →
  traffic_config models traffic_split = Ok (names, weights) →
  emit (get_filtered_dataset tokenizer tokenizer_decode (dataset a)
          (max_input_length a) (max_output_length a) (use_dummy_text a))
       (request_rate a) names weights (rnd w) (Z.to_nat (num_prompts a)) 0
       (benchmark_start_time_sec w) = Ok (e :: later) →
  benchmark np tokenizer tokenizer_decode json_loads fuel a models
            traffic_split w inst = Raise (ValueError "Unknown backend").
Proof.
  intros Hstream Hvllm Hjet Hconfig Hemit.
  unfold benchmark. rewrite Hconfig. cbn [bind]. rewrite Hemit. cbn [bind].
  cbn [gather]. unfold run_single_request. rewrite Hstream.
  destruct (em_request e) as [[prompt prompt_len] output_len].
  unfold send_stream_request, stream_pload.
  apply String.eqb_neq in Hvllm, Hjet. rewrite Hvllm, Hjet. reflexivity.
Qed.

(** The backend tgi with [--stream-request]. *)
Lemma streaming_needs_vllm_or_jetstream_witness :
  benchmark Examples.np_rational Examples.char_tokenizer Examples.char_decode
    Examples.text_loads 5 Cases5.tgi_stream_args ["A"] None Inputs.one_answer
    None
  = Raise (ValueError "Unknown backend").
Proof.
  eapply (streaming_needs_vllm_or_jetstream _ _ _ _ _ _ _ _ _ _ ["A"]
            [(1 / 1)%Q] Cases5.first_task []).
  - reflexivity.
  - discriminate.
  - discriminate.
  - reflexivity.
  - reflexivity.
Defined.

(** ** The counter in a run without the streaming mode *)

Lemma increments_app (c : AsyncRequestCounter) (times times' : list Q) :
  increments c (times ++ times') = increments (increments c times) times'.
Proof. unfold increments. apply foldl_app. Qed.

Lemma gather_counts (tokenizer : string → list Z)
    (json_loads : string → option json) (fuel : nat) (a : args)
    (network : nat → wire) (tasks : list emission) :
  stream_request a = false →
  ∀ k c results posts inst',
  gather tokenizer json_loads fuel a network tasks k (Some c)
  = Ok (results, posts, inst') →
  ∃ times, inst' = Some (increments c times)
           ∧ length times = posts ∧ (length tasks ≤ posts)%nat.
Proof.
  intros Hstream. induction tasks as [|e tasks IH];
    intros k c results posts inst' H; cbn [gather] in H.
  - injection H as _ <- <-. exists [].
    split; [reflexivity|]. split; [reflexivity|]. cbn [length]. lia.
  - apply bind_Ok in H as ([[[model res] p] inst1] & Hone & H).
    apply bind_Ok in H as ([[rs p'] inst2] & Hrest & [= _ <- <-]).
    unfold run_single_request in Hone. rewrite Hstream in Hone.
    destruct (em_request e) as [[prompt prompt_len] output_len].
    apply bind_Ok in Hone as ([[r p0] i0] & Hr & [= _ _ <- <-]).
    unfold send_request in Hr.
    apply bind_Ok in Hr as (_ & _ & Hr).
    apply bind_Ok in Hr as ([[exit p1] i1] & Hloop & Hr).
    apply bind_Ok in Hr as (r1 & _ & [= _ <- <-]).
    apply resend_loop_posts in Hloop as [Hlt ->].
    rewrite Nat.sub_0_r, hooks_Some in Hrest.
    apply IH in Hrest as (times & -> & Hlen & Hle).
    eexists (_ ++ times). split; [now rewrite increments_app|].
    rewrite length_app, length_map, length_seq, Hlen. cbn [length]. lia.
Qed.

(** X23: without [--stream-request] the counter of a run always reaches
    a target between 1 and the number of its tasks: when the tasks have
    returned, the count is the number of posts of the run, which is at
    least the number of tasks, and the end time is set, so that [get_qps]
    does not raise [AttributeError]. *)
Theorem counter_reaches_target (tokenizer : string → list Z)
    (json_loads : string → option json) (fuel : nat) (a : args)
    (network : nat → wire) (tasks : list emission) (target : Z) (start : Q)
    (results : list (string * request_result)) (posts : nat)
    (inst' : option AsyncRequestCounter) :
  stream_request a = false →
  1 ≤ target ≤ Z.of_nat (length tasks) →
  gather tokenizer json_loads fuel a network tasks 0
         (Some (fresh_counter target start)) = Ok (results, posts, inst') →
  ∃ c e, inst' = Some c
         ∧ _count c = Z.of_nat posts
         ∧ (length tasks ≤ posts)%nat
         ∧ _end_time c = Some e
         ∧ get_qps c = py_div (inject_Z (Z.of_nat posts)) (e - start)%Q.
Proof.
  intros Hstream Htarget H.
  apply (gather_counts _ _ _ _ _ _ Hstream) in H as (times & -> & <- & Hle).
  assert (Hend : _end_time (increments (fresh_counter target start) times)
                 = target_time target times
                 ∧ _count (increments (fresh_counter target start) times)
                   = Z.of_nat (length times)
                 ∧ _start_time (increments (fresh_counter target start) times)
                   = start).
  { clear. induction times as [|t times IH] using rev_ind.
    - repeat split. unfold target_time. cbn [length].
      now rewrite decide_False by lia.
    - destruct IH as (Hend & Hcount & Hstart).
      rewrite increments_snoc, target_time_snoc, length_app. cbn [length].
      unfold increment. cbn [_count _start_time _end_time].
      destruct (increments_fields times (fresh_counter target start))
        as (_ & _ & Htarget).
      rewrite Hcount, Hstart, Hend, Htarget. cbn [fresh_counter
        AsyncRequestCounter_new _target_requests].
      split; [|split; [lia | reflexivity]].
      destruct (decide (Z.of_nat (length times) + 1 = target)) as [<-|Hne].
      + now rewrite decide_True.
      + rewrite decide_False by congruence. reflexivity. }
  destruct Hend as (Hend & Hcount & Hstart).
  assert (∃ e, target_time target times = Some e) as [e He].
  { unfold target_time. rewrite decide_True by lia.
    apply lookup_lt_is_Some_2. lia. }
  exists (increments (fresh_counter target start) times), e.
  split; [reflexivity|]. split; [exact Hcount|]. split; [exact Hle|].
  split; [now rewrite Hend|].
  unfold get_qps. now rewrite Hend, He, Hcount, Hstart.
Qed.

(** One request, answered at the third post. *)
Lemma counter_reaches_target_witness :
  ∃ c e, hooks Inputs.busy_server 0 3 (Some (fresh_counter 1 0)) = Some c
         ∧ _count c = Z.of_nat 3
         ∧ (length [Cases5.first_task] ≤ 3)%nat
         ∧ _end_time c = Some e
         ∧ get_qps c = py_div (inject_Z (Z.of_nat 3)) (e - 0)%Q.
Proof.
  apply (counter_reaches_target Examples.char_tokenizer Examples.text_loads
           5 Inputs.base_args
           (λ _, {| w_request := Inputs.busy_exchange;
                    w_stream := Inputs.chatty_stream |})
           [Cases5.first_task] 1 0%Q
           [("A", success_result 8 2 7 None None)] 3).
  - reflexivity.
  - cbn. lia.
  - reflexivity.
Defined.

(** X24: a run that has no prompt to send cannot be reported: with
    [num_prompts] zero or negative, in a fresh process, no request is
    emitted, the counter never reaches its target, and [benchmark] does
    not come to the end of its reports. *)
Theorem run_without_prompts_has_no_report (np : numpy)
    (tokenizer : string → list Z) (tokenizer_decode : list Z → string)
    (json_loads : string → option json) (fuel : nat) (a : args)
    (models : list string) (traffic_split : option (list Q)) (w : world)
    (r : run) :
  num_prompts a ≤ 0 →
  benchmark np tokenizer tokenizer_decode json_loads fuel a models
            traffic_split w None ≠ Ok r.
Proof.
  intros Hnum H.
  destruct (benchmark_Ok _ _ _ _ _ _ _ _ _ _ _ H)
    as (names & weights & inst1 & weighted & inst2 & per_model
        & _ & Hemit & Hgather & _ & Hweighted & _).
  apply emit_length in Hemit.
  replace (Z.to_nat (num_prompts a)) with 0%nat in Hemit by lia.
  destruct (run_emissions r); [|discriminate].
  cbn [gather] in Hgather. injection Hgather as _ _ <-.
  destruct (print_and_save_result_Ok _ _ _ _ _ _ _ _ _ Hweighted)
    as (_ & _ & _ & _ & Hqps).
  discriminate Hqps.
Qed.

(** The run of [zero_args]. *)
Lemma run_without_prompts_has_no_report_witness :
  ¬ ∃ r, benchmark Examples.np_rational Examples.char_tokenizer
           Examples.char_decode Examples.text_loads 5 Cases6.zero_args ["A"]
           None Inputs.one_answer None = Ok r.
Proof.
  intros [r Hr].
  apply (run_without_prompts_has_no_report Examples.np_rational
           Examples.char_tokenizer Examples.char_decode Examples.text_loads 5
           Cases6.zero_args ["A"] None Inputs.one_answer r);
    [discriminate | exact Hr].
Defined.

(** ** The backends *)

(** X25: [send_request] builds a payload exactly for the six backends
    vllm, tgi, naive_transformers, tensorrt_llm_triton, sax and jetstream,
    and for tgi only without beam search; in every other case it raises,
    [AssertionError] for tgi with beam search and [ValueError] for an
    unknown backend, before any post and without touching the counter,
    whatever the server would answer. *)
Theorem request_backend_check (tokenizer : string → list Z) (fuel : nat)
    (backend : string) (prompt_len output_len : Z) (use_beam_search : bool)
    (x : exchange) (inst : option AsyncRequestCounter) :
  (request_pload backend use_beam_search = Ok ()
   ↔ backend ∈ request_backends
     ∧ (backend = "tgi" → use_beam_search = false))
  ∧ (backend ∉ request_backends →
     send_request tokenizer fuel backend prompt_len output_len
                  use_beam_search x inst
     = Raise (ValueError "Unknown backend"))
  ∧ (backend = "tgi" → use_beam_search = true →
     send_request tokenizer fuel backend prompt_len output_len
                  use_beam_search x inst
     = Raise AssertionError).
Proof.
  assert (Hmem : backend ∈ request_backends
                 ↔ String.eqb backend "vllm" = true
                   ∨ String.eqb backend "tgi" = true
                   ∨ String.eqb backend "naive_transformers" = true
                   ∨ String.eqb backend "tensorrt_llm_triton" = true
                   ∨ String.eqb backend "sax" = true
                   ∨ String.eqb backend "jetstream" = true).
  { unfold request_backends. rewrite !elem_of_cons, !String.eqb_eq.
    split; [intros [?|[?|[?|[?|[?|[?|H]]]]]]; auto 10; inversion H|].
    intros [?|[?|[?|[?|[?|?]]]]]; auto 10. }
  split; [|split].
  - rewrite Hmem. unfold request_pload.
    destruct (String.eqb backend "vllm") eqn:E1.
    { apply String.eqb_eq in E1 as ->. split; [|reflexivity].
      intros _. split; [auto|discriminate]. }
    destruct (String.eqb backend "tgi") eqn:E2.
    { apply String.eqb_eq in E2 as ->. destruct use_beam_search.
      - split; [discriminate|]. intros [_ H]. specialize (H eq_refl).
        discriminate.
      - split; [|reflexivity]. intros _. split; auto. }
    apply String.eqb_neq in E2.
    destruct (String.eqb backend "naive_transformers") eqn:E3;
      [split; [intros _; split; [auto 10|contradiction] | reflexivity]|].
    destruct (String.eqb backend "tensorrt_llm_triton") eqn:E4;
      [split; [intros _; split; [auto 10|contradiction] | reflexivity]|].
    destruct (String.eqb backend "sax") eqn:E5;
      [split; [intros _; split; [auto 10|contradiction] | reflexivity]|].
    destruct (String.eqb backend "jetstream") eqn:E6;
      [split; [intros _; split; [auto 10|contradiction] | reflexivity]|].
    split; [discriminate|].
    intros [[H|[H|[H|[H|[H|H]]]]] _]; discriminate.
  - intros Hnot. rewrite Hmem in Hnot.
    unfold send_request, request_pload.
    destruct (String.eqb backend "vllm"); [exfalso; auto|].
    destruct (String.eqb backend "tgi"); [exfalso; auto|].
    destruct (String.eqb backend "naive_transformers"); [exfalso; auto 10|].
    destruct (String.eqb backend "tensorrt_llm_triton"); [exfalso; auto 10|].
    destruct (String.eqb backend "sax"); [exfalso; auto 10|].
    destruct (String.eqb backend "jetstream"); [exfalso; auto 10|].
    reflexivity.
  - intros -> ->. reflexivity.
Qed.

(** The backend tgi with beam search. *)
Lemma request_backend_check_witness :
  send_request Examples.char_tokenizer 5 "tgi" 4 8 true
               Inputs.prompt_exchange None = Raise AssertionError.
Proof.
  destruct (request_backend_check Examples.char_tokenizer 5 "tgi" 4 8 true
              Inputs.prompt_exchange None) as (_ & _ & H).
  apply H; reflexivity.
Defined.

(** ** Dummy text *)

(** X26: with [--use-dummy-text] the dataset is not read: every request
    of the run is the one dummy entry, whose prompt is the decoding of
    [max_input_length] tokens 0 and whose lengths are [max_input_length]
    and [max_output_length], also when these are below [MIN_SEQ_LEN]. *)
Theorem dummy_text_requests (np : numpy) (tokenizer : string → list Z)
    (tokenizer_decode : list Z → string) (json_loads : string → option json)
    (fuel : nat) (a : args) (models : list string)
    (traffic_split : option (list Q)) (w : world)
    (inst : option AsyncRequestCounter) (r : run) :
  use_dummy_text a = true →
  benchmark np tokenizer tokenizer_decode json_loads fuel a models
            traffic_split w inst = Ok r →
  ∀ e, e ∈ run_emissions r →
    em_request e
    = (tokenizer_decode (replicate (Z.to_nat (max_input_length a)) 0),
       max_input_length a, max_output_length a).
Proof.
  intros Hdummy H e He.
  destruct (benchmark_Ok _ _ _ _ _ _ _ _ _ _ _ H)
    as (names & weights & inst1 & weighted & inst2 & per_model
        & _ & Hemit & _).
  pose proof (emit_requests _ _ _ _ _ _ _ _ _ Hemit e He) as Hin.
  unfold get_filtered_dataset in Hin. rewrite Hdummy in Hin.
  now apply list_elem_of_singleton in Hin.
Qed.

(** The run [split_run] uses dummy text. *)
Lemma dummy_text_requests_witness :
  ∃ r, Inputs.split_run = Ok r
       ∧ ∀ e, e ∈ run_emissions r →
           em_request e
           = (Examples.char_decode (replicate (Z.to_nat 8) 0), 8, 8).
Proof.
  assert (∃ r, Inputs.split_run = Ok r) as [r Hr].
  { vm_compute. eexists. reflexivity. }
  exists r. split; [exact Hr|].
  apply (dummy_text_requests Examples.np_rational Examples.char_tokenizer
           Examples.char_decode Examples.text_loads 5 Inputs.base_args
           ["A"; "B"] (Some [1%Q; 0%Q]) Inputs.one_answer None r);
    [reflexivity | exact Hr].
Defined.
